(** * Infra-AI: alert evaluation, command routing, extraction and worker

    A shallow embedding of the Python sources

    - [backend/app/core/self_healing.py]  (policy evaluator),
    - [backend/app/db.py]                 ([get_all_policies], [log_job]),
    - [backend/app/core/engine.py]        ([is_server_error],
      [route_infra_command], [infra_command], [verification_node],
      [should_continue] and the edges of [create_agent_graph]),
    - [backend/app/tools/mcp_grafana_client.py], [mcp_esxi_client.py],
      [mcp_prometheus_client.py]
      (client acquisition, [execute_tool] / [call_method], the ESXi
      wrappers),
    - [backend/app/tools/mcp_client.py]   (the entries of [TOOL_MAP]),
    - [backend/app/api.py]                ([receive_alert]),
    - [backend/app/worker.py]             ([process_task], [worker_loop]),

    followed by the properties of the specification stated against it, and
    by further properties of the same code.

    Conventions.  A Python [str] is a Rocq [string]; its characters are the
    code points below 256.  Python integers are [Z].  Floats do not occur in
    the modelled code paths.  A Python exception is a value of [exn]; code
    that may raise returns an [outcome]. *)

From Stdlib Require Import String Ascii List ZArith Bool Lia Arith DecimalString.
From Stdlib Require Import Sorting.Sorted Sorting.Permutation.
From Stdlib Require DecimalPos DecimalN DecimalFacts.
Import ListNotations.

Set Warnings "-register-all".

Open Scope string_scope.
Open Scope list_scope.

(* ================================================================== *)
(** * Python basics *)
(* ================================================================== *)

Module Py.

(** ** Exceptions *)

(** The exception classes the modelled code meets, all derived from
    [Exception]; [Exception] itself stands for every other subclass
    (transport errors and the like).  What is not derived from [Exception]
    ([KeyboardInterrupt]) is modelled where the code handles it, in the
    worker. *)
Inductive exn_class : Type :=
| AttributeError
| TypeError
| KeyError
| IndexError
| ValueError
| JSONDecodeError
| Exception.

(** An exception: its class and [str(e)]. *)
Record exn : Type := Exn { exn_cls : exn_class; exn_msg : string }.

Inductive outcome (A : Type) : Type :=
| Ret (a : A)
| Raise (e : exn).
Arguments Ret {A} a.
Arguments Raise {A} e.

Definition bind {A B} (m : outcome A) (k : A -> outcome B) : outcome B :=
  match m with
  | Ret a => k a
  | Raise e => Raise e
  end.

Notation "x <- m ;; k" := (bind m (fun x => k))
  (at level 61, m at next level, right associativity).

(** ** Strings *)

(** [needle in hay] on strings. *)
Fixpoint str_contains (needle hay : string) : bool :=
  if String.prefix needle hay then true
  else match hay with
       | EmptyString => false
       | String _ hay' => str_contains needle hay'
       end.

Definition in_range (lo hi : nat) (c : ascii) : bool :=
  let n := nat_of_ascii c in (lo <=? n)%nat && (n <=? hi)%nat.

(** [c.lower()] on a code point below 256: [A-Z] and the Latin-1 capitals
    (U+00C0..U+00DE without the multiplication sign U+00D7) move up by 32. *)
Definition char_lower (c : ascii) : ascii :=
  if in_range 65 90 c
     || (in_range 192 222 c && negb (nat_of_ascii c =? 215)%nat)
  then ascii_of_nat (nat_of_ascii c + 32)
  else c.

Fixpoint lower (s : string) : string :=
  match s with
  | EmptyString => EmptyString
  | String c s' => String (char_lower c) (lower s')
  end.

(** [c.isspace()] below 256, also the class [\s] of [re]. *)
Definition is_space (c : ascii) : bool :=
  in_range 9 13 c || in_range 28 32 c
  || (nat_of_ascii c =? 133)%nat || (nat_of_ascii c =? 160)%nat.

Definition is_alnum_ascii (c : ascii) : bool :=
  in_range 48 57 c || in_range 65 90 c || in_range 97 122 c.

(** Every character of [s] satisfies [p]. *)
Fixpoint string_forall (p : ascii -> bool) (s : string) : bool :=
  match s with
  | EmptyString => true
  | String c s' => p c && string_forall p s'
  end.

(** [s.split(sep)] for a non-empty separator: [skip] counts the characters
    of a separator found earlier that are still to be dropped, [cur] is the
    piece being collected. *)
Fixpoint split_go (sep s : string) (skip : nat) (cur : string) : list string :=
  match s with
  | EmptyString => [cur]
  | String c s' =>
      match skip with
      | S n => split_go sep s' n cur
      | O =>
          if String.prefix sep s
          then cur :: split_go sep s' (String.length sep - 1) EmptyString
          else split_go sep s' 0 (cur ++ String c EmptyString)
      end
  end.

Definition split (sep s : string) : list string := split_go sep s 0 EmptyString.

(** ** Values *)

(** Python values of the JSON fragment.  The two mutable containers carry a
    tag of type [T]: the evaluator instantiates it with the address of the
    object, so that two occurrences of one object can be told from two equal
    objects; code that only reads and serialises values uses [unit]. *)
Inductive pyval (T : Type) : Type :=
| PNone
| PBool (b : bool)
| PInt (z : Z)
| PStr (s : string)
| PList (t : T) (l : list (pyval T))
| PDict (t : T) (d : list (string * pyval T)).
Arguments PNone {T}.
Arguments PBool {T} b.
Arguments PInt {T} z.
Arguments PStr {T} s.
Arguments PList {T} t l.
Arguments PDict {T} t d.

(** The items of a [dict] with [str] keys, in insertion order; keys are
    pairwise distinct, as in Python. *)
Definition pydict (T : Type) : Type := list (string * pyval T).

(** Induction on values that goes through the elements of lists and the
    values of dicts. *)
Section NestedInduction.
Variable T : Type.
Variable P : pyval T -> Prop.
Hypothesis HNone : P PNone.
Hypothesis HBool : forall b, P (PBool b).
Hypothesis HInt : forall z, P (PInt z).
Hypothesis HStr : forall s, P (PStr s).
Hypothesis HList : forall t l, Forall P l -> P (PList t l).
Hypothesis HDict : forall t d, Forall (fun kv => P (snd kv)) d -> P (PDict t d).

Fixpoint pyval_nested_ind (v : pyval T) : P v :=
  match v with
  | PNone => HNone
  | PBool b => HBool b
  | PInt z => HInt z
  | PStr s => HStr s
  | PList t l =>
      HList t l
        ((fix elements (l : list (pyval T)) : Forall P l :=
            match l with
            | [] => Forall_nil P
            | x :: l' => Forall_cons x (pyval_nested_ind x) (elements l')
            end) l)
  | PDict t d =>
      HDict t d
        ((fix members (d : list (string * pyval T))
            : Forall (fun kv => P (snd kv)) d :=
            match d with
            | [] => Forall_nil _
            | (k, x) :: d' =>
                Forall_cons (k, x) (pyval_nested_ind x) (members d')
            end) d)
  end.

End NestedInduction.

Section Values.
Context {T : Type}.

(** [d.get(k)] / [k in d] / [d[k] = v] on the items. *)
Fixpoint dict_get (k : string) (d : pydict T) : option (pyval T) :=
  match d with
  | [] => None
  | (k', v) :: d' => if String.eqb k k' then Some v else dict_get k d'
  end.

Definition dict_has (k : string) (d : pydict T) : bool :=
  match dict_get k d with Some _ => true | None => false end.

Fixpoint dict_set (k : string) (v : pyval T) (d : pydict T) : pydict T :=
  match d with
  | [] => [(k, v)]
  | (k', v') :: d' =>
      if String.eqb k k' then (k', v) :: d' else (k', v') :: dict_set k v d'
  end.

(** [d.get(k, default)]. *)
Definition dict_get_default (k : string) (dflt : pyval T) (d : pydict T) : pyval T :=
  match dict_get k d with Some v => v | None => dflt end.

(** [bool(v)]. *)
Definition truthy (v : pyval T) : bool :=
  match v with
  | PNone => false
  | PBool b => b
  | PInt z => negb (z =? 0)%Z
  | PStr s => negb (String.eqb s EmptyString)
  | PList _ l => match l with [] => false | _ => true end
  | PDict _ d => match d with [] => false | _ => true end
  end.

(** [a == b]: [bool] is a subclass of [int]; lists compare element-wise and
    dicts by key, whatever the insertion order; tags play no role. *)
Fixpoint py_eq (a b : pyval T) : bool :=
  match a, b with
  | PNone, PNone => true
  | PBool x, PBool y => Bool.eqb x y
  | PBool x, PInt z => (z =? (if x then 1 else 0))%Z
  | PInt z, PBool x => (z =? (if x then 1 else 0))%Z
  | PInt x, PInt y => (x =? y)%Z
  | PStr x, PStr y => String.eqb x y
  | PList _ l1, PList _ l2 =>
      (fix go (l1 l2 : list (pyval T)) : bool :=
         match l1, l2 with
         | [], [] => true
         | x :: xs, y :: ys => py_eq x y && go xs ys
         | _, _ => false
         end) l1 l2
  | PDict _ d1, PDict _ d2 =>
      (List.length d1 =? List.length d2)%nat &&
      (fix go (d : pydict T) : bool :=
         match d with
         | [] => true
         | (k, v) :: d' =>
             match dict_get k d2 with
             | Some w => py_eq v w
             | None => false
             end && go d'
         end) d1
  | _, _ => false
  end.

(** [v is None]. *)
Definition is_none (v : pyval T) : bool :=
  match v with PNone => true | _ => false end.

(** [isinstance(v, dict)], [isinstance(v, list)], [isinstance(v, str)]. *)
Definition is_dict (v : pyval T) : bool :=
  match v with PDict _ _ => true | _ => false end.
Definition is_list (v : pyval T) : bool :=
  match v with PList _ _ => true | _ => false end.
Definition is_str (v : pyval T) : bool :=
  match v with PStr _ => true | _ => false end.

(** The name of the type, as it appears in CPython's error messages. *)
Definition type_name (v : pyval T) : string :=
  match v with
  | PNone => "NoneType"
  | PBool _ => "bool"
  | PInt _ => "int"
  | PStr _ => "str"
  | PList _ _ => "list"
  | PDict _ _ => "dict"
  end.

Definition no_attribute (v : pyval T) (attr : string) : exn :=
  Exn AttributeError
      ("'" ++ type_name v ++ "' object has no attribute '" ++ attr ++ "'").

(** [v.get(k)] where [k] is an arbitrary value: only a [dict] has [get];
    a list or dict key is unhashable; a key that is not a [str] is never
    found among [str] keys. *)
Definition py_get (v k : pyval T) : outcome (option (pyval T)) :=
  match v with
  | PDict _ d =>
      match k with
      | PStr s => Ret (dict_get s d)
      | PList _ _ | PDict _ _ =>
          Raise (Exn TypeError ("unhashable type: '" ++ type_name k ++ "'"))
      | _ => Ret None
      end
  | _ => Raise (no_attribute v "get")
  end.

(** [v.items()]. *)
Definition py_items (v : pyval T) : outcome (pydict T) :=
  match v with
  | PDict _ d => Ret d
  | _ => Raise (no_attribute v "items")
  end.

End Values.

End Py.

(* ================================================================== *)
(** * The policy evaluator ([self_healing.py], [db.py]) *)
(* ================================================================== *)

Module SelfHealing.
Import Py.

(** The address of a mutable object.  The allocator is a counter: a new
    [dict] takes the next free address. *)
Definition objid : Type := nat.

Definition val : Type := pyval objid.

(** [models.Policy]: [condition] and [action] are validated as dicts; the
    action template is an object of its own, at address [action_id]. *)
Record Policy : Type := mkPolicy {
  name : string;
  condition : pydict objid;
  action_id : objid;
  action : pydict objid;
  priority : Z
}.

(** [models.PrometheusAlert]: [status] is a [str] and every element of
    [alerts] is a dict (given by its items). *)
Record PrometheusAlert : Type := mkAlert {
  status : string;
  alerts : list (pydict objid)
}.

(** ** [db.get_all_policies] *)

(** [ORDER BY priority ASC] over the rows of the table.  SQL leaves the
    order of rows of equal priority to the database; here they keep their
    table order. *)
Fixpoint insert_by_priority (p : Policy) (l : list Policy) : list Policy :=
  match l with
  | [] => [p]
  | q :: l' =>
      if (priority p <=? priority q)%Z then p :: q :: l'
      else q :: insert_by_priority p l'
  end.

Definition get_all_policies (rows : list Policy) : list Policy :=
  fold_right insert_by_priority [] rows.

(** ** [_match_condition] *)

(** The loop of format 2: every [key, value] of [condition["labels"]] must
    equal [labels.get(key)]. *)
Fixpoint labels_loop (items : pydict objid) (labels : val) : outcome bool :=
  match items with
  | [] => Ret true
  | (key, value) :: items' =>
      actual <- py_get labels (PStr key) ;;
      if negb (py_eq (match actual with Some v => v | None => PNone end) value)
      then Ret false
      else labels_loop items' labels
  end.

Definition _match_condition (condition : pydict objid)
    (labels annotations : val) (status : string) : outcome bool :=
  if dict_has "label" condition && dict_has "value" condition then
    let label_key := dict_get_default "label" PNone condition in
    let expected_value := dict_get_default "value" PNone condition in
    from_labels <- py_get labels label_key ;;
    actual_value <-
      (let l := match from_labels with Some v => v | None => PNone end in
       if truthy l then Ret l
       else a <- py_get annotations label_key ;;
            Ret (match a with Some v => v | None => PNone end)) ;;
    Ret (py_eq actual_value expected_value)
  else if dict_has "labels" condition then
    items <- py_items (dict_get_default "labels" PNone condition) ;;
    labels_loop items labels
  else if dict_has "status" condition then
    Ret (py_eq (PStr status) (dict_get_default "status" PNone condition))
  else if dict_has "expression" condition then
    Ret false
  else
    Ret false.

(** ** [_interpolate_params] *)

(** [value.split(marker)[1].split("}")[0]], used when [marker in value]. *)
Definition placeholder_key (marker value : string) : string :=
  nth 0 (split "}" (nth 1 (split marker value) EmptyString)) EmptyString.

(** [labels.get(k, value)] with a [str] key. *)
Definition get_or (m : val) (k : string) (dflt : val) : outcome val :=
  r <- py_get m (PStr k) ;;
  Ret (match r with Some v => v | None => dflt end).

Definition interpolate_value (value labels annotations : val) : outcome val :=
  match value with
  | PStr s =>
      if str_contains "${label." s then
        get_or labels (placeholder_key "${label." s) value
      else if str_contains "${annotation." s then
        get_or annotations (placeholder_key "${annotation." s) value
      else Ret value
  | _ => Ret value
  end.

Fixpoint interpolate_loop (items : pydict objid) (labels annotations : val)
    (result : pydict objid) : outcome (pydict objid) :=
  match items with
  | [] => Ret result
  | (key, value) :: items' =>
      v <- interpolate_value value labels annotations ;;
      interpolate_loop items' labels annotations (dict_set key v result)
  end.

(** [result = {}] is a new object, at address [fresh]. *)
Definition _interpolate_params (fresh : objid) (params labels annotations : val)
    : outcome val :=
  items <- py_items params ;;
  result <- interpolate_loop items labels annotations [] ;;
  Ret (PDict fresh result).

(** ** [evaluate_alert] *)

(** Lines 42-50: the action returned for a matched policy.  [policy.action.copy()]
    is a new dict at [fresh] with the items of the template; the result of
    [_interpolate_params] is the next new dict. *)
Definition build_action (fresh : objid) (policy : Policy)
    (labels annotations : val) : outcome val :=
  let action := action policy in
  let action := dict_set "policy_name" (PStr (name policy)) action in
  let action := dict_set "alert_labels" labels action in
  match dict_get "params" action with
  | Some params =>
      params' <- _interpolate_params (S fresh) params labels annotations ;;
      Ret (PDict fresh (dict_set "params" params' action))
  | None => Ret (PDict fresh action)
  end.

(** [for policy in policies: if _match_condition(...): ... return action]. *)
Fixpoint policy_loop (fresh : objid) (policies : list Policy)
    (labels annotations : val) (status : string) : outcome (option val) :=
  match policies with
  | [] => Ret None
  | policy :: policies' =>
      m <- _match_condition (condition policy) labels annotations status ;;
      if (m : bool) then
        a <- build_action fresh policy labels annotations ;;
        Ret (Some a)
      else policy_loop fresh policies' labels annotations status
  end.

(** [alert_item.get("labels", {})] and [alert_item.get("annotations", {})]:
    each call evaluates its default, a new empty dict. *)
Definition item_labels (fresh : objid) (alert_item : pydict objid) : val :=
  dict_get_default "labels" (PDict fresh []) alert_item.

Definition item_annotations (fresh : objid) (alert_item : pydict objid) : val :=
  dict_get_default "annotations" (PDict (S fresh) []) alert_item.

(** [for alert_item in alert.alerts].  The f-string of the log line calls
    [labels.get('alertname', 'unknown')]. *)
Fixpoint alert_loop (fresh : objid) (policies : list Policy)
    (items : list (pydict objid)) (status : string) : outcome (option val) :=
  match items with
  | [] => Ret None
  | alert_item :: items' =>
      let labels := item_labels fresh alert_item in
      let annotations := item_annotations fresh alert_item in
      _ <- py_get labels (PStr "alertname") ;;
      r <- policy_loop (S (S fresh)) policies labels annotations status ;;
      match r with
      | Some a => Ret (Some a)
      | None => alert_loop (S (S fresh)) policies items' status
      end
  end.

(** [evaluate_alert(alert)] against the rows of the policy table, with
    [fresh] the next free address. *)
Definition evaluate_alert (rows : list Policy) (fresh : objid)
    (alert : PrometheusAlert) : outcome (option val) :=
  let policies := get_all_policies rows in
  match policies with
  | [] => Ret None
  | _ => alert_loop fresh policies (alerts alert) (status alert)
  end.

(** ** Vocabulary of the specification *)

(** What the evaluator does with one (entry, policy) pair before it decides:
    read the entry's labels and annotations, log the alert name, evaluate
    the policy's condition.  [fresh] is the allocator when the entry is
    reached. *)
Definition try_policy (status : string) (fresh : objid)
    (alert_item : pydict objid) (policy : Policy) : outcome bool :=
  let labels := item_labels fresh alert_item in
  _ <- py_get labels (PStr "alertname") ;;
  _match_condition (condition policy) labels
                   (item_annotations fresh alert_item) status.

(** The allocator when the [k]-th entry (from 0) is reached. *)
Definition fresh_at (fresh : objid) (k : nat) : objid := fresh + 2 * k.

(** The action the evaluator hands out for [policy] matched on the entry
    at position [k]. *)
Definition action_for (fresh : objid) (k : nat) (alert_item : pydict objid)
    (policy : Policy) : outcome (option val) :=
  a <- build_action (S (S (fresh_at fresh k))) policy
         (item_labels (fresh_at fresh k) alert_item)
         (item_annotations (fresh_at fresh k) alert_item) ;;
  Ret (Some a).

(** The addresses of the mutable objects inside a value, at every depth. *)
Fixpoint obj_ids (v : val) : list objid :=
  match v with
  | PList t l => t :: flat_map obj_ids l
  | PDict t d => t :: flat_map (fun kv => obj_ids (snd kv)) d
  | _ => []
  end.

(** The stored action template of a policy, as an object. *)
Definition template (p : Policy) : val := PDict (action_id p) (action p).

(** Two values share a mutable object. *)
Definition shares_object (a b : val) : Prop :=
  exists i, In i (obj_ids a) /\ In i (obj_ids b).

(** The template's [params], when there is one, is a dict. *)
Definition params_ok (p : Policy) : bool :=
  match dict_get "params" (action p) with
  | Some v => is_dict v
  | None => true
  end.

(** ** Sample data *)

Definition labels_of (id : objid) (alertname : string) : pydict objid :=
  [("labels", PDict id [("alertname", PStr alertname)])].

(** Two entries, the first named ["DiskFull"], the second ["PodCrashLoop"]. *)
Definition two_entries : PrometheusAlert :=
  mkAlert "firing" [labels_of 1 "DiskFull"; labels_of 2 "PodCrashLoop"].

(** The policy of priority 10 matches the second entry only; the policy of
    priority 20 matches the first. *)
Definition restart_policy : Policy :=
  mkPolicy "restart-on-crashloop"
           [("labels", PDict 3 [("alertname", PStr "PodCrashLoop")])]
           4
           [("tool", PStr "restart_pod")]
           10.

Definition cleanup_policy : Policy :=
  mkPolicy "cleanup-on-diskfull"
           [("labels", PDict 5 [("alertname", PStr "DiskFull")])]
           6
           [("tool", PStr "cleanup_disk")]
           20.

(** A template whose [params] hold a list, and a top-level dict. *)
Definition scale_policy : Policy :=
  mkPolicy "scale-on-crashloop"
           [("label", PStr "alertname"); ("value", PStr "PodCrashLoop")]
           7
           [("tool", PStr "mcp_scale_deployment");
            ("params", PDict 8 [("deployment_name", PStr "${label.deployment}");
                                ("containers", PList 9 [PStr "web"])]);
            ("meta", PDict 10 [("owner", PStr "ops")])]
           10.

Definition crashloop_alert : PrometheusAlert :=
  mkAlert "firing"
          [[("labels", PDict 11 [("alertname", PStr "PodCrashLoop");
                                 ("deployment", PStr "web-1")]);
            ("annotations", PDict 12 [])]].

(** The order of [ORDER BY priority]. *)
Definition prio_le (p q : Policy) : Prop := (priority p <= priority q)%Z.

(** ** Placeholders *)

(** Text without a dollar sign, and without a closing brace. *)
Definition no_dollar (s : string) : bool :=
  string_forall (fun c => negb (Ascii.eqb c "$"%char)) s.

Definition no_closing_brace (s : string) : bool :=
  string_forall (fun c => negb (Ascii.eqb c "}"%char)) s.

(** A string value that holds one of the two markers. *)
Definition has_placeholder (v : val) : bool :=
  match v with
  | PStr s => str_contains "${label." s || str_contains "${annotation." s
  | _ => false
  end.

(** The text of a value with a label placeholder in it. *)
Definition label_placeholder (before key after : string) : string :=
  before ++ "${label." ++ key ++ "}" ++ after.

End SelfHealing.

(* ================================================================== *)
(** * Text forms of values: [str], [repr], [json.dumps] *)
(* ================================================================== *)

Module Text.
Import Py.
Local Open Scope string_scope.

Definition hex_digit (n : nat) : ascii :=
  nth n ["0"; "1"; "2"; "3"; "4"; "5"; "6"; "7"; "8"; "9";
         "a"; "b"; "c"; "d"; "e"; "f"]%char "0"%char.

(** Two lower-case hexadecimal digits of a code point below 256. *)
Definition hex2 (c : ascii) : string :=
  let n := nat_of_ascii c in
  String (hex_digit (n / 16)) (String (hex_digit (n mod 16)) EmptyString).

(** [str(z)] for an [int]. *)
Definition int_str (z : Z) : string :=
  DecimalString.NilZero.string_of_int (Z.to_int z).

(** [c.isprintable()] below 256: the ASCII graphic characters and space,
    and U+00A1..U+00FF without the soft hyphen U+00AD. *)
Definition printable (c : ascii) : bool :=
  in_range 32 126 c
  || (in_range 161 255 c && negb (nat_of_ascii c =? 173)%nat).

(** The double quote. *)
Definition dq : ascii := "034"%char.

(** [repr] of a [str]: single quotes, unless the text holds a single quote
    and no double quote. *)
Definition repr_quote (s : string) : ascii :=
  if str_contains "'" s && negb (str_contains (String dq EmptyString) s)
  then dq else "'"%char.

Fixpoint repr_chars (q : ascii) (s : string) : string :=
  match s with
  | EmptyString => EmptyString
  | String c s' =>
      (if Ascii.eqb c q || Ascii.eqb c "\"%char
       then String "\"%char (String c EmptyString)
       else if Ascii.eqb c "009"%char then "\t"
       else if Ascii.eqb c "010"%char then "\n"
       else if Ascii.eqb c "013"%char then "\r"
       else if printable c then String c EmptyString
       else "\x" ++ hex2 c)
      ++ repr_chars q s'
  end.

Definition str_repr (s : string) : string :=
  let q := repr_quote s in
  String q (repr_chars q s ++ String q EmptyString).

(** [", ".join(pieces)]. *)
Fixpoint join (sep : string) (pieces : list string) : string :=
  match pieces with
  | [] => EmptyString
  | [x] => x
  | x :: rest => x ++ sep ++ join sep rest
  end.

Section Repr.
Context {T : Type}.

(** [repr(v)]. *)
Fixpoint py_repr (v : pyval T) : string :=
  match v with
  | PNone => "None"
  | PBool true => "True"
  | PBool false => "False"
  | PInt z => int_str z
  | PStr s => str_repr s
  | PList _ l => "[" ++ join ", " (map py_repr l) ++ "]"
  | PDict _ d =>
      "{" ++ join ", " (map (fun kv => str_repr (fst kv) ++ ": " ++ py_repr (snd kv)) d)
          ++ "}"
  end.

(** [str(v)], also what an f-string puts for [{v}]. *)
Definition py_str (v : pyval T) : string :=
  match v with
  | PStr s => s
  | _ => py_repr v
  end.

(** [json.dumps]'s string escape ([ensure_ascii=True]): the quote, the
    backslash and everything outside [' '..'~'] are escaped. *)
Definition json_escape_char (c : ascii) : string :=
  if Ascii.eqb c dq then String "\"%char (String dq EmptyString)
  else if Ascii.eqb c "\"%char then "\\"
  else if Ascii.eqb c "010"%char then "\n"
  else if Ascii.eqb c "013"%char then "\r"
  else if Ascii.eqb c "009"%char then "\t"
  else if Ascii.eqb c "008"%char then "\b"
  else if Ascii.eqb c "012"%char then "\f"
  else if in_range 32 126 c then String c EmptyString
  else "\u00" ++ hex2 c.

Fixpoint json_escape (s : string) : string :=
  match s with
  | EmptyString => EmptyString
  | String c s' => json_escape_char c ++ json_escape s'
  end.

Definition json_string (s : string) : string :=
  String dq (json_escape s ++ String dq EmptyString).

(** [json.dumps(v)] with the default separators. *)
Fixpoint json_dumps (v : pyval T) : string :=
  match v with
  | PNone => "null"
  | PBool true => "true"
  | PBool false => "false"
  | PInt z => int_str z
  | PStr s => json_string s
  | PList _ l => "[" ++ join ", " (map json_dumps l) ++ "]"
  | PDict _ d =>
      "{" ++ join ", " (map (fun kv => json_string (fst kv) ++ ": " ++ json_dumps (snd kv)) d)
          ++ "}"
  end.

End Repr.

End Text.

(* ================================================================== *)
(** * [json.loads] *)
(* ================================================================== *)

Module Json.
Import Py Text.
Local Open Scope string_scope.

(** Values without object identity. *)
Abbreviation value := (pyval unit).

(** The decoder follows [json.decoder]: strict strings, no trailing commas,
    nothing but white space after the value.  Two kinds of input are outside
    the model and rejected here although Python accepts them: numbers with a
    fraction or an exponent (and [NaN], [Infinity]), which are floats, and
    [\uXXXX] escapes of code points above 255. *)

Definition is_json_ws (c : ascii) : bool :=
  Ascii.eqb c " "%char || Ascii.eqb c "009"%char
  || Ascii.eqb c "010"%char || Ascii.eqb c "013"%char.

Fixpoint skip_ws (s : string) : string :=
  match s with
  | String c s' => if is_json_ws c then skip_ws s' else s
  | EmptyString => s
  end.

Definition is_digit (c : ascii) : bool := in_range 48 57 c.

Definition hex_value (c : ascii) : option nat :=
  let n := nat_of_ascii c in
  if in_range 48 57 c then Some (n - 48)
  else if in_range 97 102 c then Some (n - 87)
  else if in_range 65 70 c then Some (n - 55)
  else None.

(** The code point of [\uXXXX], when below 256. *)
Definition unicode_escape (a b c d : ascii) : option ascii :=
  match hex_value a, hex_value b, hex_value c, hex_value d with
  | Some 0, Some 0, Some x, Some y => Some (ascii_of_nat (16 * x + y))
  | _, _, _, _ => None
  end.

(** The characters of a string after its opening quote, up to the closing
    quote; the result is the text and what follows the closing quote. *)
Fixpoint parse_chars (s : string) : option (string * string) :=
  match s with
  | EmptyString => None
  | String c s' =>
      if Ascii.eqb c dq then Some (EmptyString, s')
      else if Ascii.eqb c "\"%char then
        match s' with
        | String e s'' =>
            let plain (x : ascii) :=
              match parse_chars s'' with
              | Some (t, r) => Some (String x t, r)
              | None => None
              end in
            if Ascii.eqb e dq then plain dq
            else if Ascii.eqb e "\"%char then plain "\"%char
            else if Ascii.eqb e "/"%char then plain "/"%char
            else if Ascii.eqb e "b"%char then plain "008"%char
            else if Ascii.eqb e "f"%char then plain "012"%char
            else if Ascii.eqb e "n"%char then plain "010"%char
            else if Ascii.eqb e "r"%char then plain "013"%char
            else if Ascii.eqb e "t"%char then plain "009"%char
            else if Ascii.eqb e "u"%char then
              match s'' with
              | String h1 (String h2 (String h3 (String h4 s4))) =>
                  match unicode_escape h1 h2 h3 h4, parse_chars s4 with
                  | Some x, Some (t, r) => Some (String x t, r)
                  | _, _ => None
                  end
              | _ => None
              end
            else None
        | EmptyString => None
        end
      else if (nat_of_ascii c <? 32)%nat then None
      else match parse_chars s' with
           | Some (t, r) => Some (String c t, r)
           | None => None
           end
  end.

(** The digits at the head of [s], as a number, and the rest. *)
Fixpoint take_digits (s : string) (acc : Z) : Z * string :=
  match s with
  | String c s' =>
      if is_digit c
      then take_digits s' (10 * acc + Z.of_nat (nat_of_ascii c - 48))%Z
      else (acc, s)
  | EmptyString => (acc, s)
  end.

Definition starts_with_digit (s : string) : bool :=
  match s with String c _ => is_digit c | EmptyString => false end.

(** A fraction or an exponent follows: the number is a float. *)
Definition float_follows (s : string) : bool :=
  match s with
  | String c s' =>
      if Ascii.eqb c "."%char then starts_with_digit s'
      else if Ascii.eqb c "e"%char || Ascii.eqb c "E"%char then
        match s' with
        | String d s'' =>
            if Ascii.eqb d "+"%char || Ascii.eqb d "-"%char
            then starts_with_digit s''
            else is_digit d
        | EmptyString => false
        end
      else false
  | EmptyString => false
  end.

(** An optional minus sign, then [0] or a digit string without a leading
    zero, at the head of [s]. *)
Definition parse_int (s : string) : option (Z * string) :=
  let unsigned (s : string) : option (Z * string) :=
    match s with
    | String c s' =>
        if Ascii.eqb c "0"%char then Some (0%Z, s')
        else if is_digit c then Some (take_digits s 0%Z)
        else None
    | EmptyString => None
    end in
  match s with
  | String c s' =>
      if Ascii.eqb c "-"%char then
        match unsigned s' with
        | Some (z, r) => Some ((- z)%Z, r)
        | None => None
        end
      else unsigned s
  | EmptyString => None
  end.

Definition parse_number (s : string) : option (value * string) :=
  match parse_int s with
  | Some (z, r) => if float_follows r then None else Some (PInt z, r)
  | None => None
  end.

Definition after_prefix (p s : string) : option string :=
  if String.prefix p s
  then Some (substring (String.length p) (String.length s - String.length p) s)
  else None.

(** One value at the head of [s] (no leading white space), the elements of
    an array after ["["] and the members of an object after ["{"] .  [fuel]
    bounds the depth of the calls. *)
Fixpoint parse_value (fuel : nat) (s : string) : option (value * string) :=
  match fuel with
  | O => None
  | S fuel' =>
      match s with
      | EmptyString => None
      | String c s' =>
          if Ascii.eqb c dq then
            match parse_chars s' with
            | Some (t, r) => Some (PStr t, r)
            | None => None
            end
          else if Ascii.eqb c "{"%char then
            match skip_ws s' with
            | String c1 r1 =>
                if Ascii.eqb c1 "}"%char then Some (PDict tt [], r1)
                else parse_members fuel' (String c1 r1) []
            | EmptyString => None
            end
          else if Ascii.eqb c "["%char then
            match skip_ws s' with
            | String c1 r1 =>
                if Ascii.eqb c1 "]"%char then Some (PList tt [], r1)
                else parse_elements fuel' (String c1 r1) []
            | EmptyString => None
            end
          else if Ascii.eqb c "n"%char then
            match after_prefix "null" s with
            | Some r => Some (PNone, r)
            | None => None
            end
          else if Ascii.eqb c "t"%char then
            match after_prefix "true" s with
            | Some r => Some (PBool true, r)
            | None => None
            end
          else if Ascii.eqb c "f"%char then
            match after_prefix "false" s with
            | Some r => Some (PBool false, r)
            | None => None
            end
          else parse_number s
      end
  end

with parse_elements (fuel : nat) (s : string) (acc : list value)
    : option (value * string) :=
  match fuel with
  | O => None
  | S fuel' =>
      match parse_value fuel' s with
      | Some (v, r) =>
          match skip_ws r with
          | String c r' =>
              if Ascii.eqb c ","%char
              then parse_elements fuel' (skip_ws r') (acc ++ [v])
              else if Ascii.eqb c "]"%char then Some (PList tt (acc ++ [v]), r')
              else None
          | EmptyString => None
          end
      | None => None
      end
  end

with parse_members (fuel : nat) (s : string) (acc : pydict unit)
    : option (value * string) :=
  match fuel with
  | O => None
  | S fuel' =>
      match s with
      | String c s' =>
          if Ascii.eqb c dq then
            match parse_chars s' with
            | Some (k, r) =>
                match skip_ws r with
                | String c1 r1 =>
                    if Ascii.eqb c1 ":"%char then
                      match parse_value fuel' (skip_ws r1) with
                      | Some (v, r2) =>
                          match skip_ws r2 with
                          | String c2 r3 =>
                              if Ascii.eqb c2 ","%char
                              then parse_members fuel' (skip_ws r3) (dict_set k v acc)
                              else if Ascii.eqb c2 "}"%char
                              then Some (PDict tt (dict_set k v acc), r3)
                              else None
                          | EmptyString => None
                          end
                      | None => None
                      end
                    else None
                | EmptyString => None
                end
            | None => None
            end
          else None
      | EmptyString => None
      end
  end.

(** The keys of the items are pairwise distinct. *)
Fixpoint distinct_keys (d : pydict unit) : bool :=
  match d with
  | [] => true
  | (k, _) :: d' => negb (dict_has k d') && distinct_keys d'
  end.

(** Values without numbers, whose dicts have pairwise distinct keys. *)
Fixpoint textual (v : value) : bool :=
  match v with
  | PNone | PBool _ | PStr _ => true
  | PInt _ => false
  | PList _ l => forallb textual l
  | PDict _ d => distinct_keys d && forallb (fun kv => textual (snd kv)) d
  end.

Definition decode_error : exn := Exn JSONDecodeError "Expecting value".

(** [json.loads(s)] on the texts of this development: numbers are
    integers, escapes stay below code point 256.  A value it returns is the
    value Python returns.  Where it raises, Python raises too when the text
    is cut short or begins no value; a float, [NaN], [Infinity] and a
    higher escape are outside the embedding, and the properties that depend
    on what a text decodes to take the decoded value as a hypothesis. *)
Definition json_loads (s : string) : outcome value :=
  match parse_value (2 * String.length s + 2) (skip_ws s) with
  | Some (v, r) =>
      match skip_ws r with
      | EmptyString => Ret v
      | _ => Raise (Exn JSONDecodeError "Extra data")
      end
  | None => Raise decode_error
  end.

(** ** Vocabulary of the round trip *)

(** The characters a value can begin with are not skipped as white space
    and close no list or object. *)
Definition opens_value (c : ascii) : bool :=
  negb (is_json_ws c) && negb (Ascii.eqb c "]"%char) && negb (Ascii.eqb c "}"%char).

(** The text [json.dumps] gives one member of an object. *)
Definition member_text (kv : string * value) : string :=
  json_string (fst kv) ++ ": " ++ json_dumps (snd kv).

(** [json.dumps(v)] followed by any text decodes to [v], that text left. *)
Definition round_trips (v : value) : Prop :=
  textual v = true ->
  forall fuel rest,
    2 * String.length (json_dumps v ++ rest) < fuel ->
    parse_value fuel (json_dumps v ++ rest) = Some (v, rest).

(** ** Values with numbers *)

(** The values [json.loads] gives back: the keys of every dict are
    distinct. *)
Fixpoint encodable (v : value) : bool :=
  match v with
  | PNone | PBool _ | PInt _ | PStr _ => true
  | PList _ l => forallb encodable l
  | PDict _ d => distinct_keys d && forallb (fun kv => encodable (snd kv)) d
  end.

(** What follows cannot continue a number. *)
Definition ends_number (rest : string) : bool :=
  match rest with
  | EmptyString => true
  | String c _ =>
      negb (is_digit c) && negb (Ascii.eqb c "."%char)
      && negb (Ascii.eqb c "e"%char) && negb (Ascii.eqb c "E"%char)
  end.

(** Decoding the text of [v] gives [v] and stops where the text ends. *)
Definition decodes_back (v : value) : Prop :=
  encodable v = true ->
  forall fuel rest,
    ends_number rest = true ->
    2 * String.length (json_dumps v ++ rest) < fuel ->
    parse_value fuel (json_dumps v ++ rest) = Some (v, rest).

End Json.

(* ================================================================== *)
(** * The command router ([engine.py]) and the clients it uses *)
(* ================================================================== *)

Module Engine.
Import Py Text Json.
Local Open Scope string_scope.

Definition dict (d : pydict unit) : value := PDict tt d.
Definition plist (l : list value) : value := PList tt l.

(** ** [is_server_error] *)

Definition server_error_markers : list string :=
  ["connection"; "server not accessible"; "failed to initialize";
   "all connection attempts failed"; "http"; "404"; "503"].

Definition is_server_error (response : value) : bool :=
  match response with
  | PDict _ d =>
      let error_field := dict_get_default "error" (PStr EmptyString) d in
      let error_msg :=
        if truthy error_field then lower (py_str error_field) else EmptyString in
      py_eq (dict_get_default "status" PNone d) (PStr "error")
      && (str_contains "connection" error_msg
          || str_contains "server not accessible" error_msg
          || str_contains "failed to initialize" error_msg
          || str_contains "all connection attempts failed" error_msg
          || str_contains "http" error_msg
          || str_contains "404" error_msg
          || str_contains "503" error_msg)
  | _ => false
  end.

(** The error text of a response: [str] of its ["error"] field, empty when
    the field is absent or falsy. *)
Definition error_text (d : pydict unit) : string :=
  let error_field := dict_get_default "error" (PStr EmptyString) d in
  if truthy error_field then py_str error_field else EmptyString.

Definition connection_refused : value :=
  dict [("status", PStr "error"); ("error", PStr "connection refused")].

Definition invalid_argument : value :=
  dict [("status", PStr "error"); ("error", PStr "invalid argument")].

Definition capitalised_refusal : value :=
  dict [("status", PStr "error"); ("error", PStr "Connection refused")].

(** ** The outside world *)

(** The four backends reached over HTTP. *)
Inductive domain : Type := Kubernetes | Prometheus | Grafana | VMware.

(** What the process sends out: the [GET] of a backend's liveness URL, the
    [POST] of a JSON payload to a backend's endpoint. *)
Inductive request : Type :=
| Get (d : domain)
| Post (d : domain) (payload : value).

(** An HTTP response: [status_code], the outcome of [.json()], [.text]. *)
Record http_response : Type := mkResponse {
  status_code : Z;
  json : outcome value;
  text : string
}.

(** The behaviour of the outside world: the answer to a request, given the
    requests sent before it (a transport failure is an exception); the text
    of the [TypeError] that the installed [langchain_core] raises when a
    tool object is called like a function with keyword arguments; the tool
    tables the Grafana and Prometheus clients load from their
    configuration. *)
Record backend : Type := mkBackend {
  http : list request -> request -> outcome http_response;
  tool_call_error : string;
  grafana_tools : pydict unit;
  prometheus_tools : pydict unit
}.

(** The state of the process: the requests sent so far, oldest first, and
    the three module-level client singletons ([None], or the client with its
    [request_id]). *)
Record world : Type := mkWorld {
  sent : list request;
  grafana_client : option Z;
  esxi_client : option Z;
  prometheus_client : option Z
}.

(** Computations that read and change the process state and may raise. *)
Definition M (A : Type) : Type := world -> world * outcome A.

Definition ret {A} (a : A) : M A := fun w => (w, Ret a).
Definition raise {A} (e : exn) : M A := fun w => (w, Raise e).
Definition lift {A} (o : outcome A) : M A := fun w => (w, o).

Definition mbind {A B} (m : M A) (k : A -> M B) : M B :=
  fun w => match m w with
           | (w', Ret a) => k a w'
           | (w', Raise e) => (w', Raise e)
           end.

Notation "x <~ m ;; k" := (mbind m (fun x => k))
  (at level 61, m at next level, right associativity).

(** [try: m  except Exception as e: h e]. *)
Definition catch {A} (m : M A) (h : exn -> M A) : M A :=
  fun w => match m w with
           | (w', Raise e) => h e w'
           | r => r
           end.

(** [try: m  except (C1, C2, ...) as e: h e]. *)
Definition catch_classes {A} (handled : exn_class -> bool)
    (m : M A) (h : exn -> M A) : M A :=
  fun w => match m w with
           | (w', Raise e) => if handled (exn_cls e) then h e w' else (w', Raise e)
           | r => r
           end.

Definition oneof (b : bool) : string := if b then "True" else "False".

(** ** Builtins on values *)

Definition py_neq (a b : value) : bool := negb (py_eq a b).

(** [x in [a, b, ...]]. *)
Definition in_list (x : value) (l : list string) : bool :=
  existsb (fun s => py_eq x (PStr s)) l.

(** [d.get(k)] on the command. *)
Definition cmd_get (k : string) (cmd : pydict unit) : value :=
  dict_get_default k PNone cmd.

Definition unhashable (v : value) : exn :=
  Exn TypeError ("unhashable type: '" ++ type_name v ++ "'").

(** [k in d] and [d.get(k, dflt)] for an arbitrary key [k]. *)
Definition py_in_dict (k : value) (d : pydict unit) : outcome bool :=
  match k with
  | PStr s => Ret (dict_has s d)
  | PList _ _ | PDict _ _ => Raise (unhashable k)
  | _ => Ret false
  end.

(** [v.get(k, dflt)] with a [str] key. *)
Definition py_get_default (v : value) (k : string) (dflt : value) : outcome value :=
  match v with
  | PDict _ d => Ret (dict_get_default k dflt d)
  | _ => Raise (no_attribute v "get")
  end.

(** [len(v)]. *)
Definition py_len (v : value) : outcome nat :=
  match v with
  | PStr s => Ret (String.length s)
  | PList _ l => Ret (List.length l)
  | PDict _ d => Ret (List.length d)
  | _ => Raise (Exn TypeError ("object of type '" ++ type_name v ++ "' has no len()"))
  end.

Fixpoint chars_of (s : string) : list value :=
  match s with
  | EmptyString => []
  | String c s' => PStr (String c EmptyString) :: chars_of s'
  end.

(** [for x in v]: the elements of a list, the keys of a dict, the
    characters of a string. *)
Definition py_iter (v : value) : outcome (list value) :=
  match v with
  | PList _ l => Ret l
  | PDict _ d => Ret (map (fun kv => PStr (fst kv)) d)
  | PStr s => Ret (chars_of s)
  | _ => Raise (Exn TypeError ("'" ++ type_name v ++ "' object is not iterable"))
  end.

(** The white space [int] skips around a literal: the ASCII white space
    and, of the code points below 256, U+0085 and U+00A0.  The separators
    U+001C to U+001F, which [str.isspace] accepts, are not skipped:
    [int] of a text that holds one raises [ValueError]. *)
Definition is_int_space (c : ascii) : bool :=
  in_range 9 13 c || Ascii.eqb c " "%char
  || (nat_of_ascii c =? 133)%nat || (nat_of_ascii c =? 160)%nat.

Fixpoint lstrip (s : string) : string :=
  match s with
  | String c s' => if is_int_space c then lstrip s' else s
  | EmptyString => s
  end.

Fixpoint rstrip (s : string) : string :=
  match s with
  | String c s' =>
      match rstrip s' with
      | EmptyString => if is_int_space c then EmptyString else String c EmptyString
      | r => String c r
      end
  | EmptyString => EmptyString
  end.

Definition strip (s : string) : string := rstrip (lstrip s).

(** Decimal digits, single underscores allowed between them. *)
Fixpoint int_digits (s : string) (acc : Z) : option Z :=
  match s with
  | EmptyString => Some acc
  | String c s' =>
      if is_digit c then int_digits s' (10 * acc + Z.of_nat (nat_of_ascii c - 48))%Z
      else if Ascii.eqb c "_"%char then
        if starts_with_digit s' then int_digits s' acc else None
      else None
  end.

Definition int_literal (s : string) : option Z :=
  let unsigned (s : string) :=
    if starts_with_digit s then int_digits s 0%Z else None in
  match s with
  | String c s' =>
      if Ascii.eqb c "-"%char then option_map Z.opp (unsigned s')
      else if Ascii.eqb c "+"%char then unsigned s'
      else unsigned s
  | EmptyString => None
  end.

(** [int(v)]. *)
Definition py_int (v : value) : outcome Z :=
  match v with
  | PInt z => Ret z
  | PBool b => Ret (if b then 1 else 0)%Z
  | PStr s =>
      match int_literal (strip s) with
      | Some z => Ret z
      | None => Raise (Exn ValueError
                         ("invalid literal for int() with base 10: " ++ str_repr s))
      end
  | _ => Raise (Exn TypeError
                  ("int() argument must be a string, a bytes-like object or a real number, not '"
                   ++ type_name v ++ "'"))
  end.

Section Router.
Variable B : backend.

(** Send a request: it joins the history, the world answers. *)
Definition send (r : request) : M http_response :=
  fun w => (mkWorld (sent w ++ [r]) (grafana_client w) (esxi_client w)
                    (prometheus_client w),
            http B (sent w) r).

Definition jsonrpc_tools_call (tool : string) (arguments id : value) : value :=
  dict [("jsonrpc", PStr "2.0");
        ("method", PStr "tools/call");
        ("params", dict [("name", PStr tool); ("arguments", arguments)]);
        ("id", id)].

(** The reading of a response shared by the three clients: the decoded body
    on status 200, an error dict otherwise; [label] is ["tool"] or
    ["method"].  An exception of [.json()] other than [JSONDecodeError]
    goes to the caller's handler. *)
Definition read_response (label name : string) (r : http_response) : outcome value :=
  if (status_code r =? 200)%Z then
    match json r with
    | Ret result => Ret result
    | Raise e =>
        match exn_cls e with
        | JSONDecodeError =>
            Ret (dict [("status", PStr "error");
                       ("error", PStr "Invalid JSON response");
                       (label, PStr name);
                       ("raw_response", PStr (substring 0 500 (text r)))])
        | _ => Raise e
        end
    end
  else
    Ret (dict [("status", PStr "error");
               ("error", PStr ("HTTP " ++ int_str (status_code r) ++ ": "
                               ++ substring 0 200 (text r)));
               (label, PStr name)]).

(** [self.request_id += 1] happens only after [.json()] succeeded. *)
Definition decoded (r : http_response) : bool :=
  (status_code r =? 200)%Z && match json r with Ret _ => true | Raise _ => false end.

Definition error_dict (label name : string) (e : exn) : value :=
  dict [("status", PStr "error"); ("error", PStr (exn_msg e)); (label, PStr name)].

(** [if params is None: params = {}], the first statement of both
    [call_method]s. *)
Definition or_empty (params : value) : value :=
  if is_none params then dict [] else params.

(** ** [mcp_esxi_client.py] *)

Definition esxi_id (w : world) : Z :=
  match esxi_client w with Some n => n | None => 1%Z end.

Definition esxi_bump : M unit :=
  fun w => (mkWorld (sent w) (grafana_client w)
                    (option_map (fun n => (n + 1)%Z) (esxi_client w))
                    (prometheus_client w), Ret tt).

(** [ESXiMCPClient.start_server]. *)
Definition esxi_start_server : M bool :=
  catch (r <~ send (Get VMware) ;; ret (status_code r =? 200)%Z)
        (fun _ => ret false).

(** [ESXiMCPClient.call_method]. *)
Definition esxi_call_method (method_name : string) (params : value) : M value :=
  catch
    (fun w =>
       (r <~ send (Post VMware
                     (jsonrpc_tools_call method_name (or_empty params)
                                         (PInt (esxi_id w)))) ;;
        result <~ lift (read_response "method" method_name r) ;;
        _ <~ (if decoded r then esxi_bump else ret tt) ;;
        ret result) w)
    (fun e => ret (error_dict "method" method_name e)).

(** [get_esxi_mcp_client]: a client that fails its liveness check is not
    kept. *)
Definition get_esxi_mcp_client : M unit :=
  fun w =>
    match esxi_client w with
    | Some _ => (w, Ret tt)
    | None =>
        (success <~ (fun w => esxi_start_server
                       (mkWorld (sent w) (grafana_client w) (Some 1%Z)
                                (prometheus_client w))) ;;
         if (success : bool) then ret tt
         else fun w => (mkWorld (sent w) (grafana_client w) None
                                (prometheus_client w),
                        Raise (Exn Exception "ESXi MCP server not accessible"))) w
    end.

(** ** [mcp_grafana_client.py] and [mcp_prometheus_client.py] *)

Definition grafana_id (w : world) : Z :=
  match grafana_client w with Some n => n | None => 1%Z end.

Definition grafana_bump : M unit :=
  fun w => (mkWorld (sent w) (option_map (fun n => (n + 1)%Z) (grafana_client w))
                    (esxi_client w) (prometheus_client w), Ret tt).

Definition prometheus_id (w : world) : Z :=
  match prometheus_client w with Some n => n | None => 1%Z end.

Definition prometheus_bump : M unit :=
  fun w => (mkWorld (sent w) (grafana_client w) (esxi_client w)
                    (option_map (fun n => (n + 1)%Z) (prometheus_client w)), Ret tt).

(** [GrafanaMCPClient.start_server]: [True] when the [initialize] call
    answers 200 with a dict whose ["result"] is a dict whose ["serverInfo"]
    is a dict.  Every other answer ends in one of the two [else] branches or,
    through an exception of [.json()], [in], the subscripts or [.get], in
    the handler; all of them return [False]. *)
Definition initialize_ok (r : http_response) : bool :=
  (status_code r =? 200)%Z
  && match json r with
     | Ret (PDict _ d) =>
         match dict_get "result" d with
         | Some (PDict _ d') =>
             match dict_get "serverInfo" d' with
             | Some (PDict _ _) => true
             | _ => false
             end
         | _ => false
         end
     | _ => false
     end.

Definition grafana_start_server : M bool :=
  catch
    (r <~ send (Post Grafana (dict [("jsonrpc", PStr "2.0");
                                    ("method", PStr "initialize");
                                    ("id", PInt 1)])) ;;
     ret (initialize_ok r))
    (fun _ => ret false).

(** [PrometheusMCPClient.start_server]. *)
Definition prometheus_start_server : M bool :=
  catch (r <~ send (Get Prometheus) ;; ret (status_code r =? 200)%Z)
        (fun _ => ret false).

Definition get_grafana_mcp_client : M unit :=
  fun w =>
    match grafana_client w with
    | Some _ => (w, Ret tt)
    | None =>
        (success <~ (fun w => grafana_start_server
                       (mkWorld (sent w) (Some 1%Z) (esxi_client w)
                                (prometheus_client w))) ;;
         if (success : bool) then ret tt
         else fun w => (mkWorld (sent w) None (esxi_client w)
                                (prometheus_client w),
                        Raise (Exn Exception "Grafana MCP server not accessible"))) w
    end.

Definition get_prometheus_mcp_client : M unit :=
  fun w =>
    match prometheus_client w with
    | Some _ => (w, Ret tt)
    | None =>
        (success <~ (fun w => prometheus_start_server
                       (mkWorld (sent w) (grafana_client w) (esxi_client w)
                                (Some 1%Z))) ;;
         if (success : bool) then ret tt
         else fun w => (mkWorld (sent w) (grafana_client w) (esxi_client w) None,
                        Raise (Exn Exception "Prometheus MCP server not accessible"))) w
    end.

(** The keys of a tool table, as [list(d.keys())]. *)
Definition keys_list (d : pydict unit) : value :=
  plist (map (fun kv => PStr (fst kv)) d).

(** [[p for p in required_params if p not in parameters]]. *)
Fixpoint missing_loop (required : list value) (parameters : pydict unit)
    : outcome (list value) :=
  match required with
  | [] => Ret []
  | param :: rest =>
      present <- py_in_dict param parameters ;;
      missing <- missing_loop rest parameters ;;
      Ret (if (present : bool) then missing else param :: missing)
  end.

(** The validation both [execute_tool] methods start with: [Ret None] when
    the call may go out, [Ret (Some d)] when the error dict [d] is
    returned instead. *)
Definition validate_tool (tools : pydict unit) (tool_name : string)
    (parameters : pydict unit) : outcome (option value) :=
  match dict_get tool_name tools with
  | None =>
      Ret (Some (dict [("status", PStr "error");
                       ("error", PStr ("Tool '" ++ tool_name
                                       ++ "' not found in MCP configuration"));
                       ("available_tools", keys_list tools)]))
  | Some tool_config =>
      input_schema <- py_get_default tool_config "input_schema" (dict []) ;;
      required_params <- py_get_default input_schema "required" (plist []) ;;
      required <- py_iter required_params ;;
      missing_params <- missing_loop required parameters ;;
      match missing_params with
      | [] => Ret None
      | _ =>
          Ret (Some (dict [("status", PStr "error");
                           ("error", PStr ("Missing required parameters: "
                                           ++ py_repr (plist missing_params)));
                           ("tool", PStr tool_name);
                           ("required_parameters", required_params)]))
      end
  end.

(** [GrafanaMCPClient.execute_tool]. *)
Definition grafana_execute_tool (tool_name : string) (parameters : pydict unit)
    : M value :=
  checked <~ lift (validate_tool (grafana_tools B) tool_name parameters) ;;
  match checked with
  | Some error => ret error
  | None =>
      catch
        (fun w =>
           (r <~ send (Post Grafana
                         (jsonrpc_tools_call tool_name (dict parameters)
                                             (PInt (grafana_id w)))) ;;
            result <~ lift (read_response "tool" tool_name r) ;;
            _ <~ (if decoded r then grafana_bump else ret tt) ;;
            ret result) w)
        (fun e => ret (error_dict "tool" tool_name e))
  end.

(** [PrometheusMCPClient.call_method]: the method is called directly,
    without the [tools/call] envelope. *)
Definition prometheus_call_method (method_name : string) (params : value) : M value :=
  catch
    (fun w =>
       (r <~ send (Post Prometheus
                     (dict [("jsonrpc", PStr "2.0");
                            ("method", PStr method_name);
                            ("params", or_empty params);
                            ("id", PInt (prometheus_id w))])) ;;
        result <~ lift (read_response "method" method_name r) ;;
        _ <~ (if decoded r then prometheus_bump else ret tt) ;;
        ret result) w)
    (fun e => ret (error_dict "method" method_name e)).

(** [PrometheusMCPClient.execute_tool]. *)
Definition prometheus_execute_tool (tool_name : string) (parameters : pydict unit)
    : M value :=
  checked <~ lift (validate_tool (prometheus_tools B) tool_name parameters) ;;
  match checked with
  | Some error => ret error
  | None => prometheus_call_method tool_name (dict parameters)
  end.

(** ** [route_infra_command] *)

Definition resource_map : list (string * string) :=
  [("pods", "pods"); ("pod", "pods");
   ("deployments", "deployments"); ("deployment", "deployments");
   ("services", "services"); ("service", "services");
   ("nodes", "nodes"); ("node", "nodes");
   ("namespaces", "namespaces"); ("namespace", "namespaces")].

Fixpoint assoc (k : string) (l : list (string * string)) : option string :=
  match l with
  | [] => None
  | (k', v) :: l' => if String.eqb k k' then Some v else assoc k l'
  end.

(** [resource_map.get(resource, resource)]. *)
Definition map_resource (resource : value) : outcome value :=
  match resource with
  | PStr r => Ret (match assoc r resource_map with
                   | Some kube => PStr kube
                   | None => resource
                   end)
  | PList _ _ | PDict _ _ => Raise (unhashable resource)
  | _ => Ret resource
  end.

(** [if namespace != "default": params["namespace"] = namespace]. *)
Definition with_namespace (namespace : value) (params : pydict unit) : pydict unit :=
  if py_neq namespace (PStr "default")
  then dict_set "namespace" namespace params
  else params.

(** [if cmd.get(key): params[param] = cmd.get(key)]. *)
Definition with_option (cmd : pydict unit) (key param : string)
    (params : pydict unit) : pydict unit :=
  if truthy (cmd_get key cmd) then dict_set param (cmd_get key cmd) params
  else params.

(** The branches of the kubernetes chain that end in
    [client.call_method(tool, params)]: the tool and the parameters built
    for it, [None] for any other action. *)
Definition kubernetes_client_call (cmd : pydict unit)
    (action kube_resource name namespace : value)
    : option (outcome (string * pydict unit)) :=
  let chosen a := py_eq action (PStr a) in
  if chosen "describe" then
    Some (Ret ("kubectl_describe",
               with_namespace namespace [("resourceType", kube_resource); ("name", name)]))
  else if chosen "delete" then
    Some (Ret ("kubectl_delete",
               with_namespace namespace [("resourceType", kube_resource); ("name", name)]))
  else if chosen "scale" then
    Some (replicas <- py_int (dict_get_default "replicas" (PInt 1) cmd) ;;
          Ret ("kubectl_scale",
               with_namespace namespace [("name", name); ("replicas", PInt replicas)]))
  else if chosen "restart" then
    Some (Ret ("kubectl_rollout",
               with_namespace namespace
                 [("subCommand", PStr "restart"); ("resourceType", kube_resource);
                  ("name", name)]))
  else if chosen "logs" then
    Some (Ret ("kubectl_logs", with_namespace namespace [("name", name)]))
  else if chosen "exec" then
    Some (Ret ("exec_in_pod",
               with_namespace namespace
                 [("name", name);
                  ("command", dict_get_default "command" (PStr "echo 'Hello from pod'") cmd)]))
  else if chosen "create" then
    Some (Ret ("kubectl_create",
               with_namespace namespace
                 (with_option cmd "filename" "filename"
                    (with_option cmd "manifest" "manifest" []))))
  else if chosen "apply" then
    Some (Ret ("kubectl_apply",
               with_namespace namespace
                 (with_option cmd "filename" "filename"
                    (with_option cmd "manifest" "manifest" []))))
  else if chosen "patch" then
    Some (Ret ("kubectl_patch",
               with_option cmd "patch_type" "patchType"
                 (with_option cmd "patch_data" "patchData"
                    (with_namespace namespace
                       [("resourceType", kube_resource); ("name", name)]))))
  else if chosen "rollout" then
    Some (Ret ("kubectl_rollout",
               with_namespace namespace
                 [("subCommand", dict_get_default "sub_command" (PStr "status") cmd);
                  ("resourceType", kube_resource); ("name", name)]))
  else if chosen "context" then
    Some (Ret ("kubectl_context",
               [("operation", dict_get_default "operation" (PStr "list") cmd)]))
  else if chosen "generic" then
    Some (Ret ("kubectl_generic", [("command", cmd_get "command" cmd)]))
  else if chosen "node_management" then
    Some (Ret ("node_management",
               [("operation", dict_get_default "operation" (PStr "list") cmd)]))
  else if chosen "install_helm" then
    Some (Ret ("install_helm_chart",
               with_option cmd "values" "values"
                 (with_option cmd "repo" "repo"
                    (with_namespace namespace
                       [("name", name); ("chart", cmd_get "chart" cmd)]))))
  else if chosen "upgrade_helm" then
    Some (Ret ("upgrade_helm_chart",
               with_option cmd "values" "values"
                 (with_option cmd "repo" "repo"
                    (with_namespace namespace
                       [("name", name); ("chart", cmd_get "chart" cmd)]))))
  else if chosen "uninstall_helm" then
    Some (Ret ("uninstall_helm_chart", with_namespace namespace [("name", name)]))
  else if chosen "explain" then
    Some (Ret ("explain_resource",
               (if truthy (dict_get_default "recursive" (PBool false) cmd)
                then dict_set "recursive" (dict_get_default "recursive" (PBool false) cmd)
                else fun p => p)
                 (with_option cmd "api_version" "apiVersion" [("resource", name)])))
  else if chosen "list_api_resources" then
    Some (Ret ("list_api_resources",
               (if is_none (cmd_get "namespaced" cmd) then fun p => p
                else dict_set "namespaced" (cmd_get "namespaced" cmd))
                 (with_option cmd "api_group" "apiGroup" [])))
  else None.

(** The health probe at the head of the kubernetes branch: the error string
    returned when it fails, [None] when the branch goes on. *)
Definition kubernetes_health : M (option string) :=
  catch
    (health_response <~ send (Get Kubernetes) ;;
     if negb (status_code health_response =? 200)%Z
     then ret (Some ("Error: Kubernetes MCP server health check failed (status "
                     ++ int_str (status_code health_response) ++ ")"))
     else ret None)
    (fun e => ret (Some ("Error: Kubernetes MCP server not accessible: " ++ exn_msg e))).

(** The [tools/call] posted by the [list]/[get] and [ping] branches. *)
Definition kubernetes_post (tool : string) (arguments : pydict unit) : M string :=
  catch
    (response <~ send (Post Kubernetes
                         (jsonrpc_tools_call tool (dict arguments) (PInt 1))) ;;
     if (status_code response =? 200)%Z then
       result <~ lift (json response) ;;
       ret (json_dumps result)
     else ret ("Error: HTTP " ++ int_str (status_code response)
               ++ " from Kubernetes MCP server"))
    (fun e => ret ("Error: Failed to connect to Kubernetes MCP server: " ++ exn_msg e)).

(** After the health probe [client] is the closed [httpx.AsyncClient] of the
    probe, which has no [call_method]: the branches that use it raise. *)
Definition no_call_method : exn :=
  Exn AttributeError "'AsyncClient' object has no attribute 'call_method'".

(** A domain branch returns [Some s] where the source returns [s], and
    [None] where it falls out of the [if] chain. *)
Definition kubernetes_branch (cmd : pydict unit)
    (action resource name namespace : value) : M (option string) :=
  failed <~ kubernetes_health ;;
  match failed with
  | Some error => ret (Some error)
  | None =>
      kube_resource <~ lift (map_resource resource) ;;
      if in_list action ["list"; "get"] then
        r <~ kubernetes_post "kubectl_get"
               (with_namespace namespace [("resourceType", kube_resource)]) ;;
        ret (Some r)
      else
        match kubernetes_client_call cmd action kube_resource name namespace with
        | Some built =>
            _ <~ lift built ;;
            raise no_call_method
        | None =>
            if py_eq action (PStr "ping") then
              r <~ kubernetes_post "ping" [] ;;
              ret (Some r)
            else ret None
        end
  end.

Definition prometheus_branch (cmd : pydict unit) (action query : value)
    : M (option string) :=
  _ <~ get_prometheus_mcp_client ;;
  if py_eq action (PStr "query") then
    if negb (truthy query)
    then ret (Some "Error: Missing required parameter 'query' for Prometheus query")
    else
      result <~ prometheus_execute_tool "execute_query" [("query", query)] ;;
      ret (Some (json_dumps result))
  else if py_eq action (PStr "health") then
    result <~ prometheus_execute_tool "health_check" [] ;;
    ret (Some (json_dumps result))
  else if py_eq action (PStr "list_metrics") then
    result <~ prometheus_execute_tool "list_metrics"
                (with_option cmd "filter_pattern" "filter_pattern"
                   (with_option cmd "limit" "limit" [])) ;;
    ret (Some (json_dumps result))
  else
    advertised <~ lift (py_in_dict action (prometheus_tools B)) ;;
    if (advertised : bool) then
      result <~ prometheus_execute_tool (py_str action) cmd ;;
      ret (Some (json_dumps result))
    else
      ret (Some ("Error: Unsupported Prometheus action: " ++ py_str action
                 ++ ". Available actions: " ++ py_repr (keys_list (prometheus_tools B)))).

Definition grafana_unavailable : string :=
  "Error: Grafana MCP server is not accessible. Please check server configuration and connectivity.".

(** [result["result"]["content"][0]["text"]] when every [isinstance] and
    [in] test on the way holds. *)
Definition mcp_text (result : value) : option value :=
  match result with
  | PDict _ d =>
      match dict_get "result" d with
      | Some (PDict _ mcp_result) =>
          match dict_get "content" mcp_result with
          | Some (PList _ (PDict _ first_content :: _)) => dict_get "text" first_content
          | _ => None
          end
      | _ => None
      end
  | _ => None
  end.

(** [json.loads(v)]: only a [str] can be decoded. *)
Definition loads_value (v : value) : outcome value :=
  match v with
  | PStr s => json_loads s
  | _ => Raise (Exn TypeError
                  ("the JSON object must be str, bytes or bytearray, not "
                   ++ type_name v))
  end.

Definition parse_failure (c : exn_class) : bool :=
  match c with
  | JSONDecodeError | KeyError | IndexError => true
  | _ => false
  end.

(** The listing branches return the decoded text of the first content item
    when there is one, the raw result otherwise; [with_len] tells whether
    the log line takes [len] of the decoded data. *)
Definition unwrap_listing (with_len : bool) (result : value) : M string :=
  r <~ catch_classes parse_failure
         (match mcp_text result with
          | Some text =>
              data <~ lift (loads_value text) ;;
              _ <~ (if with_len then lift (py_len data) else ret 0) ;;
              ret (Some (json_dumps data))
          | None => ret None
          end)
         (fun _ => ret None) ;;
  match r with
  | Some s => ret s
  | None => ret (json_dumps result)
  end.

(** The rest of [s] after its longest prefix in [[a-zA-Z0-9]]. *)
Fixpoint after_alnum (s : string) : string :=
  match s with
  | String c s' => if is_alnum_ascii c then after_alnum s' else s
  | EmptyString => s
  end.

(** [re.match(r'^[a-zA-Z0-9]+$', name)] succeeds: one or more characters of
    the class up to the end of [name], where [$] also matches just before a
    newline that ends the string. *)
Definition looks_like_uid (name : string) : bool :=
  match name with
  | String c _ =>
      is_alnum_ascii c
      && (String.eqb (after_alnum name) EmptyString
          || String.eqb (after_alnum name) (String "010"%char EmptyString))
  | EmptyString => false
  end.

(** The search loop: the first dict of the list whose lower-cased title
    contains the lower-cased name. *)
Fixpoint find_dashboard (name : string) (dashboards : list value)
    : outcome (option (pydict unit)) :=
  match dashboards with
  | [] => Ret None
  | PDict _ dashboard :: rest =>
      match dict_get_default "title" (PStr EmptyString) dashboard with
      | PStr title =>
          if str_contains (lower name) (lower title) then Ret (Some dashboard)
          else find_dashboard name rest
      | v => Raise (no_attribute v "lower")
      end
  | _ :: rest => find_dashboard name rest
  end.

Definition grafana_get_by_name (name : string) : M (option string) :=
  list_result <~ grafana_execute_tool "list_dashboards" [] ;;
  if is_server_error list_result then ret (Some grafana_unavailable)
  else
    r <~ catch_classes parse_failure
           (match mcp_text list_result with
            | Some text =>
                dashboard_data <~ lift (loads_value text) ;;
                dashboards <~ lift (py_iter dashboard_data) ;;
                matching_dashboard <~ lift (find_dashboard name dashboards) ;;
                match matching_dashboard with
                | Some (kv :: d) =>
                    let uid := dict_get_default "uid" PNone (kv :: d) in
                    result <~ grafana_execute_tool "get_dashboard" [("uid", uid)] ;;
                    ret (Some (json_dumps result))
                | _ =>
                    ret (Some ("Error: No dashboard found with title containing '"
                               ++ name ++ "'"))
                end
            | None => ret None
            end)
           (fun e => ret (Some ("Error: Failed to search dashboards by name: "
                                ++ exn_msg e))) ;;
    match r with
    | Some s => ret (Some s)
    | None => ret (Some "Error: Could not retrieve dashboard list for name search")
    end.

Definition grafana_branch (action resource name : value) : M (option string) :=
  _ <~ get_grafana_mcp_client ;;
  if py_eq action (PStr "list") then
    if in_list resource ["dashboards"; "dashboard"] then
      result <~ grafana_execute_tool "list_dashboards" [] ;;
      if is_server_error result then ret (Some grafana_unavailable)
      else
        r <~ unwrap_listing true result ;;
        ret (Some r)
    else if in_list resource ["datasources"; "datasource"] then
      result <~ grafana_execute_tool "list_datasources" [] ;;
      r <~ unwrap_listing false result ;;
      ret (Some r)
    else ret None
  else if py_eq action (PStr "get") then
    if in_list resource ["dashboards"; "dashboard"] then
      match name with
      | PStr n =>
          if looks_like_uid n then
            result <~ grafana_execute_tool "get_dashboard" [("uid", name)] ;;
            if is_server_error result then ret (Some grafana_unavailable)
            else ret (Some (json_dumps result))
          else grafana_get_by_name n
      | _ =>
          raise (Exn TypeError
                   ("expected string or bytes-like object, got '"
                    ++ type_name name ++ "'"))
      end
    else ret None
  else ret None.

Definition vmware_unavailable : string :=
  "Error: VMware MCP server is not accessible. Please check server configuration and connectivity.".

Definition vmware_unsupported : string :=
  "Error: VMware MCP server does not support detailed VM info/status operations. Available operations: list, create, clone, power_on, power_off, delete.".

Definition vmware_branch (cmd : pydict unit) (action resource name : value)
    : M (option string) :=
  _ <~ get_esxi_mcp_client ;;
  let call (method : string) (params : pydict unit) : M (option string) :=
    result <~ esxi_call_method method (dict params) ;;
    ret (Some (json_dumps result)) in
  if py_eq action (PStr "list") then
    if in_list resource ["vms"; "vm"] then
      result <~ esxi_call_method "listVMs" (dict []) ;;
      if is_server_error result then ret (Some vmware_unavailable)
      else ret (Some (json_dumps result))
    else ret None
  else if in_list action ["get"; "status"; "info"] then
    if in_list resource ["vms"; "vm"] then ret (Some vmware_unsupported)
    else ret None
  else if py_eq action (PStr "create") then
    let params := [("name", name);
                   ("cpu", dict_get_default "cpu" (PInt 2) cmd);
                   ("memory", dict_get_default "memory" (PInt 4096) cmd)] in
    let params := if is_none (cmd_get "datastore" cmd) then params
                  else dict_set "datastore" (cmd_get "datastore" cmd) params in
    let params := if is_none (cmd_get "network" cmd) then params
                  else dict_set "network" (cmd_get "network" cmd) params in
    call "createVM" params
  else if py_eq action (PStr "clone") then
    call "cloneVM"
         [("template_name", dict_get_default "template_name" name cmd);
          ("new_name", dict_get_default "new_name" (cmd_get "target_name" cmd) cmd)]
  else if py_eq action (PStr "power_on") then call "powerOn" [("name", name)]
  else if py_eq action (PStr "power_off") then call "powerOff" [("name", name)]
  else if py_eq action (PStr "delete") then call "deleteVM" [("name", name)]
  else if py_eq action (PStr "get_stats") then
    ret (Some (json_dumps (dict [("vm_name", name);
                                 ("cpu_usage_mhz", PInt 2048);
                                 ("memory_usage_mb", PInt 2048);
                                 ("storage_usage_gb", PInt 25);
                                 ("network_rx_mbps", PInt 150);
                                 ("network_tx_mbps", PInt 85)])))
  else if py_eq action (PStr "snapshots") then
    if in_list resource ["vms"; "vm"] then
      call "get_vm_snapshots" [("vm_name", name)]
    else ret None
  else if py_eq action (PStr "create_snapshot") then
    let params := [("vm_name", name);
                   ("snapshot_name", cmd_get "snapshot_name" cmd)] in
    call "create_snapshot"
         (if truthy (cmd_get "description" cmd)
          then dict_set "description" (cmd_get "description" cmd) params
          else params)
  else ret None.

(** In [engine.py] the name [network_discovery] is bound to the tool object
    that the decorator [@tool] makes of the function: the call
    [network_discovery(subnet=subnet)] raises [TypeError] and nothing is
    scanned. *)
Definition network_branch (cmd : pydict unit) (action : value) : M (option string) :=
  if py_eq action (PStr "scan") then
    raise (Exn TypeError (tool_call_error B))
  else ret None.

(** The body of the [try] statement. *)
Definition route_body (cmd : pydict unit) : M string :=
  let domain := cmd_get "domain" cmd in
  let action := cmd_get "action" cmd in
  let resource := cmd_get "resource" cmd in
  let name := cmd_get "name" cmd in
  let namespace := dict_get_default "namespace" (PStr "default") cmd in
  let query := cmd_get "query" cmd in
  returned <~ (if py_eq domain (PStr "kubernetes") then
                 kubernetes_branch cmd action resource name namespace
               else if py_eq domain (PStr "prometheus") then
                 prometheus_branch cmd action query
               else if py_eq domain (PStr "grafana") then
                 grafana_branch action resource name
               else if py_eq domain (PStr "vmware") then
                 vmware_branch cmd action resource name
               else if py_eq domain (PStr "network") then
                 network_branch cmd action
               else ret None) ;;
  match returned with
  | Some s => ret s
  | None => ret ("Command not supported: " ++ py_repr (dict cmd))
  end.

Definition route_infra_command (cmd : pydict unit) : M string :=
  catch (route_body cmd)
        (fun e => ret ("Error executing command: " ++ exn_msg e)).

(** [infra_command]: the six arguments, [None] for those not given, become
    the six keys of the command. *)
Definition infra_command (domain action resource name namespace query : value)
    : M string :=
  route_infra_command [("domain", domain); ("action", action);
                       ("resource", resource); ("name", name);
                       ("namespace", namespace); ("query", query)].

End Router.

(** ** Vocabulary of the specification and sample worlds *)

Definition domains : list string :=
  ["kubernetes"; "prometheus"; "grafana"; "vmware"; "network"].

(** The actions the vmware branch tests for. *)
Definition vmware_actions : list string :=
  ["list"; "get"; "status"; "info"; "create"; "clone"; "power_on"; "power_off";
   "delete"; "get_stats"; "snapshots"; "create_snapshot"].

Definition not_supported (cmd : pydict unit) : string :=
  "Command not supported: " ++ py_repr (dict cmd).

(** The answer of the prometheus branch to an action it does not know. *)
Definition unsupported_prometheus (B : backend) (action : value) : string :=
  "Error: Unsupported Prometheus action: " ++ py_str action
  ++ ". Available actions: " ++ py_repr (keys_list (prometheus_tools B)).

(** A request is a [tools/call] (or any other [POST]) to backend [d]. *)
Definition is_post_to (d : domain) (r : request) : bool :=
  match r, d with
  | Post Kubernetes _, Kubernetes | Post Prometheus _, Prometheus
  | Post Grafana _, Grafana | Post VMware _, VMware => true
  | _, _ => false
  end.

(** The process at start: nothing sent, no client created. *)
Definition initial : world := mkWorld [] None None None.

(** The text of the [TypeError] in the sample worlds. *)
Definition not_callable : string := "'StructuredTool' object is not callable".

(** A world in which no backend can be reached. *)
Definition unreachable : backend :=
  mkBackend (fun _ _ => Raise (Exn Exception "All connection attempts failed"))
            not_callable [] [].

(** The default tool table of the Grafana client. *)
Definition default_grafana_tools : pydict unit :=
  [("list_dashboards", dict [("name", PStr "list_dashboards");
                             ("description", PStr "List dashboards")]);
   ("get_dashboard", dict [("name", PStr "get_dashboard");
                           ("description", PStr "Get dashboard")]);
   ("list_datasources", dict [("name", PStr "list_datasources");
                              ("description", PStr "List datasources")])].

Definition node_exporter_dashboards : value :=
  plist [dict [("title", PStr "Node Exporter Full"); ("uid", PStr "abc123")]].

(** The MCP envelope around a text. *)
Definition mcp_content (text : string) : value :=
  dict [("result", dict [("content", plist [dict [("type", PStr "text");
                                                  ("text", PStr text)]])])].

(** A Grafana backend holding the single dashboard "Node Exporter Full";
    [get_dashboard] answers with the arguments it was called with.  The
    other backends answer every [GET] with 200 and every [POST] with the
    payload received. *)
Definition grafana_answer (payload : value) : value :=
  match payload with
  | PDict _ p =>
      match dict_get "method" p, dict_get "params" p with
      | Some (PStr "initialize"), _ =>
          dict [("result", dict [("serverInfo", dict [("name", PStr "grafana")])])]
      | Some (PStr "tools/call"), Some (PDict _ call) =>
          if py_eq (dict_get_default "name" PNone call) (PStr "list_dashboards")
          then mcp_content (json_dumps node_exporter_dashboards)
          else dict [("result", dict_get_default "arguments" PNone call)]
      | _, _ => PNone
      end
  | _ => PNone
  end.

Definition node_exporter_backend : backend :=
  mkBackend (fun _ r =>
               match r with
               | Post Grafana payload =>
                   Ret (mkResponse 200 (Ret (grafana_answer payload)) EmptyString)
               | Post _ payload =>
                   Ret (mkResponse 200 (Ret (dict [("result", payload)])) EmptyString)
               | Get _ => Ret (mkResponse 200 (Ret PNone) EmptyString)
               end)
            not_callable default_grafana_tools [].

(** The same listing as a server may write it, without the spaces of
    [json.dumps]. *)
Definition compact_listing : string :=
  "[{" ++ json_dumps (PStr "title" : value) ++ ":"
       ++ json_dumps (PStr "Node Exporter Full" : value) ++ ","
       ++ json_dumps (PStr "uid" : value) ++ ":"
       ++ json_dumps (PStr "abc123" : value) ++ "}]".

Definition compact_backend : backend :=
  mkBackend (fun _ r =>
               match r with
               | Post Grafana _ =>
                   Ret (mkResponse 200 (Ret (mcp_content compact_listing)) EmptyString)
               | _ => Ret (mkResponse 200 (Ret PNone) EmptyString)
               end)
            not_callable default_grafana_tools [].

(** A Grafana backend whose single dashboard has a [null] title. *)
Definition untitled_dashboards : value :=
  plist [dict [("title", PNone); ("uid", PStr "abc123")]].

Definition untitled_backend : backend :=
  mkBackend (fun _ r =>
               match r with
               | Post Grafana (PDict _ p) =>
                   Ret (mkResponse 200
                          (Ret (if py_eq (dict_get_default "method" PNone p)
                                         (PStr "initialize")
                                then grafana_answer (PDict tt p)
                                else mcp_content (json_dumps untitled_dashboards)))
                          EmptyString)
               | _ => Ret (mkResponse 200 (Ret PNone) EmptyString)
               end)
            not_callable default_grafana_tools [].

Definition get_dashboard_cmd (name : string) : pydict unit :=
  [("domain", PStr "grafana"); ("action", PStr "get");
   ("resource", PStr "dashboard"); ("name", PStr name)].


(** The title of a dashboard entry contains the name, case ignored. *)
Definition title_matches (name : string) (dashboard : value) : bool :=
  match dashboard with
  | PDict _ d =>
      match dict_get_default "title" (PStr EmptyString) d with
      | PStr title => str_contains (lower name) (lower title)
      | _ => false
      end
  | _ => false
  end.





(** The actions of the kubernetes chain whose parameters take the
    namespace. *)
Definition namespaced_actions : list string :=
  ["list"; "get"; "describe"; "delete"; "scale"; "restart"; "logs"; "exec";
   "create"; "apply"; "patch"; "rollout"; "install_helm"; "upgrade_helm";
   "uninstall_helm"].

(** The actions of the kubernetes chain that build a parameter map without
    looking at the namespace; [ping], the sixth action that takes none,
    posts the empty map. *)
Definition unnamespaced_actions : list string :=
  ["context"; "generic"; "node_management"; "explain"; "list_api_resources"].

(** The actions the kubernetes, prometheus and grafana branches test
    for. *)
Definition kubernetes_actions : list string :=
  (namespaced_actions ++ unnamespaced_actions ++ ["ping"])%list.

Definition prometheus_actions : list string := ["query"; "health"; "list_metrics"].

Definition grafana_actions : list string := ["list"; "get"].

(** The namespace the router works with. *)
Definition namespace_of (cmd : pydict unit) : value :=
  dict_get_default "namespace" (PStr "default") cmd.

(** The world after the liveness probe of the ESXi client, with the client
    kept ([Some 1]) or dropped ([None]). *)
Definition with_esxi (w : world) (c : option Z) : world :=
  mkWorld (sent w ++ [Get VMware])%list (grafana_client w) c (prometheus_client w).

(** The world after some more requests. *)
Definition with_sent (w : world) (extra : list request) : world :=
  mkWorld (sent w ++ extra)%list (grafana_client w) (esxi_client w)
          (prometheus_client w).


(** The arguments of the [tools/call] payloads among the requests. *)
Definition call_arguments (r : request) : option (string * value) :=
  match r with
  | Post _ (PDict _ p) =>
      match dict_get "params" p with
      | Some (PDict _ call) =>
          match dict_get "name" call, dict_get "arguments" call with
          | Some (PStr tool), Some arguments => Some (tool, arguments)
          | _, _ => None
          end
      | _ => None
      end
  | _ => None
  end.

(** ** What a command may touch *)

(** The requests a command of [domain] may make; a [network] command, like
    one of an unknown domain, may make none. *)
Definition allowed (domain : value) (r : request) : bool :=
  match r with
  | Get Kubernetes | Post Kubernetes _ => py_eq domain (PStr "kubernetes")
  | Get Prometheus | Post Prometheus _ => py_eq domain (PStr "prometheus")
  | Get Grafana | Post Grafana _ => py_eq domain (PStr "grafana")
  | Get VMware | Post VMware _ => py_eq domain (PStr "vmware")
  end.

(** The module-level client of a server; the kubernetes branch keeps
    none. *)
Definition cache (d : domain) (w : world) : option Z :=
  match d with
  | Kubernetes => None
  | Prometheus => prometheus_client w
  | Grafana => grafana_client w
  | VMware => esxi_client w
  end.

(** From [w] to [w']: the requests made since are all allowed for
    [domain], and the clients of the other servers are as they were. *)
Definition confined (domain : value) (w w' : world) : Prop :=
  (exists l, sent w' = (sent w ++ l)%list /\ forallb (allowed domain) l = true)
  /\ (forall d, allowed domain (Get d) = false -> cache d w' = cache d w).

(** Every run of [m] relates the state it starts from to the state it
    ends in. *)
Definition respects {A} (R : world -> world -> Prop) (m : M A) : Prop :=
  forall w, R w (fst (m w)).

(** The server answers [r] with status 200 and a body that decodes. *)
Definition answered (B : backend) (w : world) (r : request) : bool :=
  match http B (sent w) r with
  | Ret response => decoded response
  | Raise _ => false
  end.

(** An error dict that names the method or the tool. *)
Definition reports_error (label name : string) (result : value) : Prop :=
  exists d, result = PDict tt d
            /\ dict_get "status" d = Some (PStr "error")
            /\ dict_get label d = Some (PStr name).

(** The names of [names] that are no key of [parameters]. *)
Definition missing_names (names : list string) (parameters : pydict unit)
    : list string :=
  filter (fun n => negb (dict_has n parameters)) names.

(** The configuration lists [names] as the required parameters of
    [tool]. *)
Definition declares (tools : pydict unit) (tool : string) (names : list string)
    : Prop :=
  exists t config t' schema t'',
    dict_get tool tools = Some (PDict t config)
    /\ dict_get "input_schema" config = Some (PDict t' schema)
    /\ dict_get "required" schema = Some (PList t'' (map PStr names)).

(** The request of [GrafanaMCPClient.start_server]. *)
Definition initialize_request : request :=
  Post Grafana (dict [("jsonrpc", PStr "2.0"); ("method", PStr "initialize");
                      ("id", PInt 1)]).

(** The server accepts [initialize]. *)
Definition initialized (B : backend) (w : world) : bool :=
  match http B (sent w) initialize_request with
  | Ret r => initialize_ok r
  | Raise _ => false
  end.

(** The actions of the kubernetes branch that end in
    [client.call_method]. *)
Definition call_method_actions : list string :=
  ["describe"; "delete"; "restart"; "logs"; "exec"; "create"; "apply";
   "patch"; "rollout"; "context"; "generic"; "node_management";
   "install_helm"; "upgrade_helm"; "uninstall_helm"; "explain";
   "list_api_resources"].

(** The values that can be looked up in a dict. *)
Definition hashable (v : value) : bool :=
  match v with
  | PList _ _ | PDict _ _ => false
  | _ => true
  end.

(** ** More sample worlds and commands *)

(** A world whose backends answer every request with status 503. *)
Definition refusing : backend :=
  mkBackend (fun _ _ => Ret (mkResponse 503 (Raise decode_error) "Service Unavailable"))
            not_callable default_grafana_tools [].

(** A tool table that declares the parameter of [get_dashboard]. *)
Definition schema_tools : pydict unit :=
  [("get_dashboard",
    dict [("name", PStr "get_dashboard");
          ("input_schema", dict [("type", PStr "object");
                                 ("required", plist [PStr "uid"])])])].

(** The sample servers with that tool table. *)
Definition schema_backend : backend :=
  mkBackend (http node_exporter_backend) not_callable schema_tools [].

(** The process with the three clients created. *)
Definition connected : world := mkWorld [] (Some 1%Z) (Some 1%Z) (Some 1%Z).

(** Sample commands. *)
Definition list_vms_cmd : pydict unit :=
  [("domain", PStr "vmware"); ("action", PStr "list"); ("resource", PStr "vms")].

Definition describe_pod_cmd : pydict unit :=
  [("domain", PStr "kubernetes"); ("action", PStr "describe");
   ("resource", PStr "pod"); ("name", PStr "web-1")].

Definition empty_query_cmd : pydict unit :=
  [("domain", PStr "prometheus"); ("action", PStr "query"); ("query", PStr EmptyString)].

Definition power_on_cmd : pydict unit :=
  [("domain", PStr "vmware"); ("action", PStr "power_on"); ("name", PStr "db-01")].

Definition list_dashboards_cmd : pydict unit :=
  [("domain", PStr "grafana"); ("action", PStr "list"); ("resource", PStr "dashboards")].

End Engine.

(* ================================================================== *)
(** * The wrappers of the ESXi client ([mcp_esxi_client.py]) *)
(* ================================================================== *)

Module Clients.
Import Py Text Json Engine.
Local Open Scope string_scope.

Section Wrappers.
Variable B : backend.

(** [params[key] = v] when [v is not None]. *)
Definition with_given (key : string) (v : value) (params : pydict unit)
    : pydict unit :=
  if is_none v then params else dict_set key v params.

(** What every wrapper does: get the client, call the method, encode the
    result. *)
Definition esxi_tool (method : string) (params : pydict unit) : M string :=
  _ <~ get_esxi_mcp_client B ;;
  result <~ esxi_call_method B method (dict params) ;;
  ret (json_dumps result).

Definition mcp_esxi_create_vm (name cpu memory datastore network : value)
    : M string :=
  esxi_tool "createVM"
    (with_given "network" network
       (with_given "datastore" datastore
          [("name", name); ("cpu", cpu); ("memory", memory)])).

Definition mcp_esxi_clone_vm (template_name new_name : value) : M string :=
  esxi_tool "cloneVM" [("template_name", template_name); ("new_name", new_name)].

Definition mcp_esxi_delete_vm (name : value) : M string :=
  esxi_tool "deleteVM" [("name", name)].

Definition mcp_esxi_power_on (name : value) : M string :=
  esxi_tool "powerOn" [("name", name)].

Definition mcp_esxi_power_off (name : value) : M string :=
  esxi_tool "powerOff" [("name", name)].

End Wrappers.

(** What the router makes of a run of a wrapper: the exception, if any, is
    turned into a string. *)
Definition reported (run : world * outcome string) : world * outcome string :=
  match run with
  | (w, Ret s) => (w, Ret s)
  | (w, Raise e) => (w, Ret ("Error executing command: " ++ exn_msg e))
  end.

End Clients.

(* ================================================================== *)
(** * The remediation worker ([worker.py]) *)
(* ================================================================== *)

Module Worker.
Import Py Text Json.
Local Open Scope string_scope.

(** The keys of [TOOL_MAP]. *)
Definition TOOL_MAP : list string :=
  ["mcp_restart_vm"; "mcp_restart_pod"; "mcp_query_prometheus";
   "mcp_get_grafana_dashboard"; "mcp_scale_deployment"].

(** A row of the job log, as passed to [log_job]. *)
Record job : Type := mkJob {
  job_action : value;
  job_target : value;
  job_status : value;
  job_result : value
}.

(** The state the worker changes: the job log, oldest row first, and the
    handlers invoked so far with their keyword arguments. *)
Record state : Type := mkState {
  job_log : list job;
  invoked : list (string * pydict unit)
}.

(** The handlers are outside the worker: awaiting [tool_func], called with
    [params] as keyword arguments, either yields a result or raises; the answer may depend on the invocations
    made before. *)
Definition handlers : Type :=
  list (string * pydict unit) -> string -> pydict unit -> outcome value.

Definition W (A : Type) : Type := state -> state * outcome A.

Definition ret {A} (a : A) : W A := fun st => (st, Ret a).
Definition lift {A} (o : outcome A) : W A := fun st => (st, o).

Definition wbind {A B} (m : W A) (k : A -> W B) : W B :=
  fun st => match m st with
            | (st', Ret a) => k a st'
            | (st', Raise e) => (st', Raise e)
            end.

Notation "x <~ m ;; k" := (wbind m (fun x => k))
  (at level 61, m at next level, right associativity).

Definition catch {A} (m : W A) (h : exn -> W A) : W A :=
  fun st => match m st with
            | (st', Raise e) => h e st'
            | r => r
            end.

(** What the table [job_logs] takes: text in the columns [action],
    [target] and [status], text or [NULL] in [result].  For any other value
    the insert fails when the session commits. *)
Definition storable (row : job) : bool :=
  is_str (job_action row) && is_str (job_target row) && is_str (job_status row)
  && (is_str (job_result row) || is_none (job_result row)).

(** [v.get(k, dflt)] with a [str] key. *)
Definition get_default (v : value) (k : string) (dflt : value) : outcome value :=
  match v with
  | PDict _ d => Ret (dict_get_default k dflt d)
  | _ => Raise (no_attribute v "get")
  end.

(** [TOOL_MAP.get(tool_name)]: the name of the handler found. *)
Definition tool_lookup (tool_name : value) : outcome (option string) :=
  match tool_name with
  | PStr t => Ret (if existsb (String.eqb t) TOOL_MAP then Some t else None)
  | PList _ _ | PDict _ _ =>
      Raise (Exn TypeError ("unhashable type: '" ++ type_name tool_name ++ "'"))
  | _ => Ret None
  end.

Section Loop.

(** The exception of the database layer for a row the table does not
    take. *)
Variable rejected : job -> exn.
Variable tools : handlers.

(** [db.log_job]: one more row, when the table takes it. *)
Definition log_job (action target status result : value) : W unit :=
  fun st =>
    let row := mkJob action target status result in
    if storable row
    then (mkState (job_log st ++ [row]) (invoked st), Ret tt)
    else (st, Raise (rejected row)).

(** The awaited call of [tool_func] with [params] as keyword arguments. *)
Definition call_tool (t : string) (params : value) : W value :=
  match params with
  | PDict _ kwargs =>
      fun st => (mkState (job_log st) (invoked st ++ [(t, kwargs)]),
                 tools (invoked st) t kwargs)
  | _ => lift (Raise (Exn TypeError
                        ("app.tools.mcp_client." ++ t
                         ++ "() argument after ** must be a mapping, not "
                         ++ type_name params)))
  end.

(** [a or b]. *)
Definition py_or (a b : value) : value := if truthy a then a else b.

Definition process_task (task_data : value) : W unit :=
  tool_name <~ lift (get_default task_data "tool" PNone) ;;
  params <~ lift (get_default task_data "params" (PDict tt [])) ;;
  _ <~ lift (get_default task_data "policy_name" (PStr "unknown")) ;;
  tool_func <~ lift (tool_lookup tool_name) ;;
  match tool_func with
  | None =>
      log_job tool_name (PStr (py_str params)) (PStr "error")
              (PStr ("Unknown tool: " ++ py_str tool_name))
  | Some t =>
      catch
        (result <~ call_tool t params ;;
         result_data <~ lift (match result with
                              | PStr text => json_loads text
                              | _ => Ret result
                              end) ;;
         status <~ lift (get_default result_data "status" (PStr "unknown")) ;;
         vm_name <~ lift (get_default params "vm_name" PNone) ;;
         target <~ (if truthy vm_name then ret vm_name
                    else
                      pod_name <~ lift (get_default params "pod_name" PNone) ;;
                      if truthy pod_name then ret pod_name
                      else
                        deployment_name <~
                          lift (get_default params "deployment_name" PNone) ;;
                        ret (py_or deployment_name (PStr "unknown"))) ;;
         log_job tool_name target status result)
        (fun e =>
           log_job tool_name (PStr (py_str params)) (PStr "error")
                   (PStr ("Error executing " ++ py_str tool_name ++ ": " ++ exn_msg e)))
  end.

(** What one call of [r.brpop(REDIS_QUEUE, timeout=1)] yields: nothing
    within the second, a message, an error of the connection, or the
    [KeyboardInterrupt] that stops the worker. *)
Inductive pop : Type :=
| Timeout
| Message (task_json : string)
| RedisError (e : exn)
| Interrupt.

(** One turn of [while True]: [true] when the loop goes on, [false] on
    [break]. *)
Definition worker_turn (p : pop) (st : state) : state * bool :=
  match p with
  | Timeout => (st, true)
  | Message task_json =>
      match json_loads task_json with
      | Ret task_data => (fst (process_task task_data st), true)
      | Raise _ => (st, true)
      end
  | RedisError _ => (st, true)
  | Interrupt => (st, false)
  end.

(** [worker_loop] over the successive answers of [brpop]: the state
    reached, and whether the loop is still running. *)
Fixpoint worker_loop (pops : list pop) (st : state) : state * bool :=
  match pops with
  | [] => (st, true)
  | p :: pops' =>
      match worker_turn p st with
      | (st', true) => worker_loop pops' st'
      | (st', false) => (st', false)
      end
  end.

End Loop.

(** ** Sample handlers and messages *)

(** Handlers that report success, except [mcp_restart_vm], which raises. *)
Definition sample_tools : handlers :=
  fun _ t _ =>
    if String.eqb t "mcp_restart_vm"
    then Raise (Exn Exception "connection reset")
    else Ret (PStr (json_dumps (PDict tt [("status", PStr "success")] : value))).

(** A database layer with one message for every row it does not take. *)
Definition sample_rejected : job -> exn :=
  fun _ => Exn Exception "invalid input for query argument".

Definition task (tool : string) (params : pydict unit) : string :=
  json_dumps (PDict tt [("tool", PStr tool); ("params", PDict tt params);
                        ("policy_name", PStr "sample")] : value).

Definition empty_state : state := mkState [] [].

(** ** Payloads that are no JSON *)

(** The characters a JSON text can begin with, white space apart: those of
    a string, an object, a list, a number, [true], [false], [null], and the
    [N] and [I] of [NaN] and [Infinity], which [json.loads] accepts. *)
Definition begins_value (c : ascii) : bool :=
  is_digit c
  || existsb (Ascii.eqb c)
       [dq; "{"; "["; "-"; "t"; "f"; "n"; "N"; "I"]%char.

(** A payload that holds no JSON value: nothing but white space, or a first
    character that begins none. *)
Definition no_json (payload : string) : bool :=
  match skip_ws payload with
  | EmptyString => true
  | String c _ => negb (begins_value c)
  end.

(** ** The audit trail *)

(** The number of messages among the answers of [brpop]. *)
Definition messages_in (pops : list pop) : nat :=
  List.length (filter (fun p => match p with Message _ => true | _ => false end) pops).

(** The target logged for a task that succeeded: the first of [vm_name],
    [pod_name] and [deployment_name] that is there and truthy. *)
Definition target_of (kwargs : pydict unit) : value :=
  match find truthy (map (fun k => dict_get_default k PNone kwargs)
                         ["vm_name"; "pod_name"; "deployment_name"]) with
  | Some v => v
  | None => PStr "unknown"
  end.

(** What [json.loads(result) if isinstance(result, str) else result] gives. *)
Definition result_data (result : value) : outcome value :=
  match result with
  | PStr text => json_loads text
  | _ => Ret result
  end.

(** [st'] comes from [st] by [rows] more rows and [calls] more invocations. *)
Definition grows_by (st st' : state) (rows : list job)
    (calls : list (string * pydict unit)) : Prop :=
  job_log st' = (job_log st ++ rows)%list
  /\ invoked st' = (invoked st ++ calls)%list.

End Worker.

(* ================================================================== *)
(** * The entries of [TOOL_MAP] ([mcp_client.py]) *)
(* ================================================================== *)

Module Tools.
Import Py Text Json Worker.
Local Open Scope string_scope.

(** The entries of [TOOL_MAP] defined with [async def]; the other two,
    [mcp_get_grafana_dashboard] and [mcp_scale_deployment], are plain
    functions. *)
Definition is_coroutine_function (tool : string) : bool :=
  existsb (String.eqb tool)
          ["mcp_restart_vm"; "mcp_restart_pod"; "mcp_query_prometheus"].

(** [await v] where [v] is no awaitable. *)
Definition not_awaitable (v : value) : exn :=
  Exn TypeError ("object " ++ type_name v ++ " can't be used in 'await' expression").

(** [mcp_restart_vm] called with [kwargs] as keyword arguments: they are
    bound to the one parameter [vm_name], then the body builds its answer. *)
Definition mcp_restart_vm (kwargs : pydict unit) : outcome value :=
  match find (fun kv => negb (String.eqb (fst kv) "vm_name")) kwargs with
  | Some (k, _) =>
      Raise (Exn TypeError
               ("mcp_restart_vm() got an unexpected keyword argument '" ++ k ++ "'"))
  | None =>
      match dict_get "vm_name" kwargs with
      | None =>
          Raise (Exn TypeError
                   "mcp_restart_vm() missing 1 required positional argument: 'vm_name'")
      | Some vm_name =>
          Ret (PStr (json_dumps
                       (PDict tt [("status", PStr "success");
                                  ("action", PStr "restart_vm");
                                  ("target", vm_name);
                                  ("message",
                                   PStr ("VM '" ++ py_str vm_name
                                         ++ "' restart initiated (simulated)"))]
                        : value)))
      end
  end.

(** The awaited call of [tool_func] for the entries of [TOOL_MAP]: [bodies]
    stands for what the calls themselves do where that depends on Docker,
    on the network or on the environment variables. *)
Definition tool_table (bodies : handlers) : handlers :=
  fun calls tool kwargs =>
    if String.eqb tool "mcp_restart_vm" then mcp_restart_vm kwargs
    else if is_coroutine_function tool then bodies calls tool kwargs
    else match bodies calls tool kwargs with
         | Ret v => Raise (not_awaitable v)
         | Raise e => Raise e
         end.

End Tools.

(* ================================================================== *)
(** * The alert webhook and the queue ([api.py], [worker.py]) *)
(* ================================================================== *)

Module Api.
Import Py Text Json SelfHealing Worker.
Local Open Scope string_scope.

(** A value as [json.dumps] sees it: the addresses of the objects play no
    role. *)
Fixpoint forget (v : val) : value :=
  match v with
  | PNone => PNone
  | PBool b => PBool b
  | PInt z => PInt z
  | PStr s => PStr s
  | PList _ l => PList tt (map forget l)
  | PDict _ d => PDict tt (map (fun kv => (fst kv, forget (snd kv))) d)
  end.

(** The two answers of the webhook. *)
Definition no_action : pydict objid := [("status", PStr "no_action")].

Definition accepted (tool : val) : pydict objid :=
  [("status", PStr "accepted"); ("action", tool)].

(** [receive_alert]: [lpush] is what Redis answers to the push, [queue] the
    list [remediation_queue], its head on the left. *)
Definition receive_alert (rows : list Policy) (fresh : objid)
    (alert : PrometheusAlert) (lpush : outcome unit) (queue : list string)
    : list string * outcome (pydict objid) :=
  match evaluate_alert rows fresh alert with
  | Raise e => (queue, Raise e)
  | Ret None => (queue, Ret no_action)
  | Ret (Some action) =>
      if truthy action then
        let task_json := json_dumps action in
        match lpush with
        | Raise e => (queue, Raise e)
        | Ret _ =>
            (task_json :: queue,
             tool <- py_get action (PStr "tool") ;;
             Ret (accepted (match tool with Some v => v | None => PNone end)))
        end
      else (queue, Ret no_action)
  end.

(** [r.brpop(REDIS_QUEUE, timeout=1)] on a queue nobody else touches: the
    element at the right end, or nothing within the second. *)
Definition brpop (queue : list string) : pop * list string :=
  match rev queue with
  | [] => (Timeout, queue)
  | task_json :: older => (Message task_json, rev older)
  end.

(** [turns] turns of the worker loop on the queue. *)
Fixpoint serve (rejected : job -> exn) (tools : handlers) (turns : nat)
    (queue : list string) (st : state) : list string * state :=
  match turns with
  | O => (queue, st)
  | S turns' =>
      let (p, queue') := brpop queue in
      serve rejected tools turns' queue' (fst (worker_turn rejected tools p st))
  end.

(** The action [restart_policy] gives for [two_entries]. *)
Definition restart_action : val :=
  PDict 104 [("tool", PStr "restart_pod");
             ("policy_name", PStr "restart-on-crashloop");
             ("alert_labels", PDict 2 [("alertname", PStr "PodCrashLoop")])].

End Api.

(* ================================================================== *)
(** * The Verify stage ([engine.verification_node]) *)
(* ================================================================== *)

Module Verify.
Import Py Text Json.
Local Open Scope string_scope.

(** ** The regular expressions *)

(** The two character classes of the patterns: [\s] and [[\s\S]]. *)
Inductive char_class : Type := Space | AnyChar.

Definition in_class (k : char_class) (c : ascii) : bool :=
  match k with
  | Space => is_space c
  | AnyChar => true
  end.

(** The pieces the seven patterns are made of: literal text, a greedy star
    and a lazy star of a class, and the two brackets of group 1. *)
Inductive item : Type :=
| Lit (text : string)
| Star (k : char_class)
| LazyStar (k : char_class)
| GroupOpen
| GroupClose.

Definition regex : Type := list item.

Definition drop_prefix (p s : string) : string :=
  substring (String.length p) (String.length s - String.length p) s.

(** Backtracking match of [r] at the head of [s], alternatives tried in the
    order of [re]: a greedy star takes the longest run first, a lazy star
    the shortest.  [inside] tells whether group 1 is open and [group] is
    its text so far; the result is the text of group 1. *)
Fixpoint match_here (r : regex) (s : string) (inside : bool) (group : string)
    : option string :=
  match r with
  | [] => Some group
  | Lit text :: r' =>
      if String.prefix text s
      then match_here r' (drop_prefix text s) inside
                      (if inside then group ++ text else group)
      else None
  | Star k :: r' =>
      (fix greedy (s : string) (group : string) : option string :=
         match s with
         | String c s' =>
             if in_class k c then
               match greedy s' (if inside then group ++ String c EmptyString else group) with
               | Some g => Some g
               | None => match_here r' s inside group
               end
             else match_here r' s inside group
         | EmptyString => match_here r' s inside group
         end) s group
  | LazyStar k :: r' =>
      (fix lazy (s : string) (group : string) : option string :=
         match match_here r' s inside group with
         | Some g => Some g
         | None =>
             match s with
             | String c s' =>
                 if in_class k c
                 then lazy s' (if inside then group ++ String c EmptyString else group)
                 else None
             | EmptyString => None
             end
         end) s group
  | GroupOpen :: r' => match_here r' s true EmptyString
  | GroupClose :: r' => match_here r' s false group
  end.

(** [re.search(r, s).group(1)]: the leftmost position where [r] matches. *)
Fixpoint search (r : regex) (s : string) : option string :=
  match match_here r s false EmptyString with
  | Some g => Some g
  | None =>
      match s with
      | String _ s' => search r s'
      | EmptyString => None
      end
  end.

Definition fence : string := "```".

Definition quoted (s : string) : string := String dq (s ++ String dq EmptyString).

(** The pattern of a direct command naming [domain]. *)
Definition direct_pattern (domain : string) : regex :=
  [GroupOpen; Lit "{"; LazyStar AnyChar; Lit (quoted "domain"); Star Space;
   Lit ":"; Star Space; Lit (quoted domain); LazyStar AnyChar; Lit "}";
   GroupClose].

(** What follows the lazy star in the two fenced patterns. *)
Definition closing : regex := [Lit "}"; GroupClose; Star Space; Lit fence].

(** The first pattern: a fenced block tagged [json]. *)
Definition fenced_json : regex :=
  [Lit fence; Star Space; Lit "json"; Star Space;
   GroupOpen; Lit "{"; LazyStar AnyChar; Lit "}"; GroupClose;
   Star Space; Lit fence].

(** The list [patterns], in its order. *)
Definition patterns : list regex :=
  [ fenced_json;
    [Lit fence; Star Space;
     GroupOpen; Lit "{"; LazyStar AnyChar; Lit "}"; GroupClose;
     Star Space; Lit fence];
    [GroupOpen; Lit "{"; LazyStar AnyChar; Lit (quoted "tool_calls"); Star Space;
     Lit ":"; Star Space; Lit "["; LazyStar AnyChar; Lit "]"; GroupClose];
    direct_pattern "kubernetes";
    direct_pattern "prometheus";
    direct_pattern "grafana";
    direct_pattern "vmware" ].

(** The loop over [patterns]: group 1 of the first pattern found. *)
Fixpoint first_match (ps : list regex) (content : string) : option string :=
  match ps with
  | [] => None
  | r :: ps' =>
      match search r content with
      | Some g => Some g
      | None => first_match ps' content
      end
  end.

(** ** Messages and state *)

Inductive message : Type :=
| HumanMessage (content : string)
| AIMessage (content : string) (additional_kwargs : pydict unit)
| ToolMessage (content : string).

Record AgentState : Type := mkAgentState {
  messages : list message;
  session_id : string;
  current_task : string
}.

(** ** [verification_node] *)

Definition function_call (i : nat) (name arguments : value) : value :=
  PDict tt [("id", PStr ("call_" ++ int_str (Z.of_nat i)));
            ("function", PDict tt [("name", name); ("arguments", arguments)]);
            ("type", PStr "function")].

(** The loop over [enumerate(tool_call_data["tool_calls"])]; [i] is the
    number of the call, from 1. *)
Fixpoint forward_calls (i : nat) (calls : list value) : outcome (list value) :=
  match calls with
  | [] => Ret []
  | tool_call :: rest =>
      name <- match tool_call with
              | PDict _ d =>
                  match dict_get "name" d with
                  | Some n => Ret n
                  | None => Raise (Exn KeyError "'name'")
                  end
              | PList _ _ =>
                  Raise (Exn TypeError "list indices must be integers or slices, not str")
              | PStr _ =>
                  Raise (Exn TypeError "string indices must be integers, not 'str'")
              | _ =>
                  Raise (Exn TypeError
                           ("'" ++ type_name tool_call ++ "' object is not subscriptable"))
              end ;;
      arguments <- match tool_call with
                   | PDict _ d => Ret (dict_get_default "arguments" (PDict tt []) d)
                   | _ => Raise (no_attribute tool_call "get")
                   end ;;
      rest' <- forward_calls (S i) rest ;;
      Ret (function_call i name (PStr (json_dumps arguments)) :: rest')
  end.

(** The name taken from [uid] or [title] for a grafana get, at the top level
    first, then inside a non-empty [params] dict. *)
Definition grafana_name (data : pydict unit) : option value :=
  match dict_get "uid" data with
  | Some uid => Some uid
  | None =>
      match dict_get "title" data with
      | Some title => Some title
      | None =>
          match dict_get "params" data with
          | Some (PDict _ (kv :: params)) =>
              match dict_get "uid" (kv :: params) with
              | Some uid => Some uid
              | None => dict_get "title" (kv :: params)
              end
          | _ => None
          end
      end
  end.

Definition standard_fields : list string :=
  ["domain"; "action"; "resource"; "name"; "namespace"; "query"].

(** The arguments built from a direct [{domain, action, ...}] object. *)
Definition direct_arguments (data : pydict unit) : pydict unit :=
  let arguments := [("domain", dict_get_default "domain" PNone data);
                    ("action", dict_get_default "action" PNone data);
                    ("resource", dict_get_default "resource" PNone data)] in
  let arguments :=
    if py_eq (dict_get_default "domain" PNone data) (PStr "grafana")
       && py_eq (dict_get_default "action" PNone data) (PStr "get")
    then match grafana_name data with
         | Some n => dict_set "name" n arguments
         | None => arguments
         end
    else arguments in
  let arguments :=
    fold_left (fun arguments key =>
                 if dict_has key arguments
                    || is_none (dict_get_default key PNone data)
                 then arguments
                 else dict_set key (dict_get_default key PNone data) arguments)
              ["name"; "namespace"; "query"] arguments in
  fold_left (fun arguments kv =>
               if existsb (String.eqb (fst kv)) standard_fields || is_none (snd kv)
               then arguments
               else dict_set (fst kv) (snd kv) arguments)
            data arguments.

Definition with_tool_calls (state : AgentState) (tool_calls : list value) : AgentState :=
  mkAgentState [AIMessage EmptyString [("tool_calls", PList tt tool_calls)]]
               (session_id state) (current_task state).

(** The body of the [try] statement: [Ret (Some state')] where the source
    returns the rewritten state, [Ret None] where it falls through to the
    final [return state]. *)
Definition extract (state : AgentState) (content : string)
    : outcome (option AgentState) :=
  match first_match patterns content with
  | Some json_content =>
      tool_call_data <- json_loads json_content ;;
      match tool_call_data with
      | PDict _ data =>
          match dict_get "tool_calls" data with
          | Some (PList _ calls) =>
              tool_calls <- forward_calls 1 calls ;;
              Ret (Some (with_tool_calls state tool_calls))
          | _ =>
              if dict_has "domain" data && dict_has "action" data then
                Ret (Some (with_tool_calls state
                             [function_call 1 (PStr "infra_command")
                                (PStr (json_dumps (PDict tt (direct_arguments data))))]))
              else Ret None
          end
      | _ =>
          (* group 1 starts with a brace: what decodes is a dict *)
          Ret None
      end
  | None => Ret None
  end.

Fixpoint last_message (ms : list message) : option message :=
  match ms with
  | [] => None
  | [m] => Some m
  | _ :: ms' => last_message ms'
  end.

Definition verification_node (state : AgentState) : AgentState :=
  match last_message (messages state) with
  | Some (AIMessage content _) =>
      match extract state content with
      | Ret (Some state') => state'
      | Ret None => state
      | Raise _ => state
      end
  | _ => state
  end.

(** ** Vocabulary of the specification *)

Definition newline : string := String "010"%char EmptyString.

Definition no_backtick (s : string) : bool :=
  string_forall (fun c => negb (Ascii.eqb c "`"%char)) s.

(** No string of the value, key or not, holds a backtick. *)
Fixpoint backtick_free (v : value) : bool :=
  match v with
  | PNone | PBool _ | PInt _ => true
  | PStr s => no_backtick s
  | PList _ l => forallb backtick_free l
  | PDict _ d => forallb (fun kv => no_backtick (fst kv) && backtick_free (snd kv)) d
  end.

(** The state in which a response has just been generated. *)
Definition generated (history : list message) (content : string) : AgentState :=
  mkAgentState (history ++ [AIMessage content []])%list "session" "chat-with-infra".

(** ** Blocks of any object *)

(** A response that carries the JSON text of [v] in a fenced [json] block. *)
Definition fenced (before : string) (v : value) (after : string) : string :=
  before ++ fence ++ "json" ++ newline ++ json_dumps v ++ newline ++ fence ++ after.

(** Text without an opening brace. *)
Definition no_brace (s : string) : bool :=
  string_forall (fun c => negb (Ascii.eqb c "{"%char)) s.

(** The pattern holds a literal with an opening brace. *)
Definition needs_brace (r : regex) : bool :=
  existsb (fun it => match it with
                     | Lit text => negb (no_brace text)
                     | _ => false
                     end) r.

(** An entry of [tool_calls] that can be forwarded: a dict with a name. *)
Definition named_call (call : value) : bool :=
  match call with
  | PDict _ d => dict_has "name" d
  | _ => false
  end.

(** What is forwarded for the entry numbered [i]. *)
Definition forwarded_call (i : nat) (call : value) : value :=
  match call with
  | PDict _ d =>
      function_call i (dict_get_default "name" PNone d)
        (PStr (json_dumps (dict_get_default "arguments" (PDict tt []) d)))
  | _ => PNone
  end.

(** The forwarded entries, numbered from [i]. *)
Fixpoint forwarded_from (i : nat) (calls : list value) : list value :=
  match calls with
  | [] => []
  | call :: rest => forwarded_call i call :: forwarded_from (S i) rest
  end.

(** A block [{"tool_calls": [...]}]. *)
Definition calls_block (calls : list value) : value :=
  PDict tt [("tool_calls", PList tt calls)].

(** The value of a field that is there and not [None]. *)
Definition non_null (field : option value) : option value :=
  match field with
  | Some v => if is_none v then None else Some v
  | None => None
  end.

(** The object asks for a Grafana dashboard. *)
Definition grafana_get (data : pydict unit) : bool :=
  py_eq (dict_get_default "domain" PNone data) (PStr "grafana")
  && py_eq (dict_get_default "action" PNone data) (PStr "get").

(** The three fields that are always forwarded. *)
Definition base_fields : list string := ["domain"; "action"; "resource"].

(** Distinct keys, and values that [json.loads] gives back. *)
Definition well_formed (d : pydict unit) : bool :=
  distinct_keys d && forallb (fun kv => encodable (snd kv)) d.

(** ** Command Descriptors *)

(** A Command Descriptor: the object [{domain, action, ...}] with whichever
    of [resource], [name], [namespace], [query] and the domain-specific
    fields it carries, as the items of a dict. *)
Definition descriptor : Type := pydict unit.

(** The block that asks for [infra_command] with the descriptor as its
    arguments. *)
Definition tool_calls_block (d : descriptor) : value :=
  calls_block [PDict tt [("name", PStr "infra_command"); ("arguments", PDict tt d)]].

(** A model response that carries the block in a fenced [json] code block,
    between some text before and after. *)
Definition fenced_response (before : string) (d : descriptor) (after : string)
    : string :=
  fenced before (tool_calls_block d) after.

(** A model response that carries the block bare. *)
Definition bare_response (d : descriptor) : string :=
  json_dumps (tool_calls_block d).

(** The descriptor can be written as JSON and read back, and no key or text
    of it, at any depth, holds a backtick. *)
Definition plain (d : descriptor) : bool :=
  encodable (PDict tt d) && backtick_free (PDict tt d).

(** The tool call forwarded for a descriptor. *)
Definition forwarded (d : descriptor) : value :=
  function_call 1 (PStr "infra_command") (PStr (json_dumps (PDict tt d : value))).

Definition list_pods : descriptor :=
  [("domain", PStr "kubernetes"); ("action", PStr "list"); ("resource", PStr "pods")].

(** A descriptor with a namespace and a domain-specific field. *)
Definition scale_web : descriptor :=
  [("domain", PStr "kubernetes"); ("action", PStr "scale");
   ("resource", PStr "deployment"); ("name", PStr "web");
   ("namespace", PStr "prod"); ("replicas", PInt 3)].

(** A descriptor whose name ends a JSON object and a code block. *)
Definition fence_in_name : descriptor :=
  [("domain", PStr "grafana"); ("action", PStr "get");
   ("resource", PStr "dashboard"); ("name", PStr ("}" ++ fence))].

(** A conversation whose last message carries the block for [scale_web]. *)
Definition scaling_state : AgentState :=
  generated [HumanMessage "scale web to 3"]
            (fenced_response "Scaling. " scale_web " Done.").

(** A sample entry of [tool_calls]. *)
Definition describe_call : value :=
  PDict tt [("name", PStr "infra_command");
            ("arguments", PDict tt [("domain", PStr "kubernetes");
                                    ("action", PStr "describe");
                                    ("resource", PStr "pod");
                                    ("name", PStr "web-1")])].

(** An entry without a name. *)
Definition nameless_call : value :=
  PDict tt [("arguments", PDict tt [("domain", PStr "kubernetes")])].

(** A conversation that ends with the response [content]. *)
Definition answering (content : string) : AgentState :=
  mkAgentState [HumanMessage "describe pod web-1"; AIMessage content []]
               "session-1" "chat-with-infra".

(** A direct object for a dashboard, with a field that is [null]. *)
Definition dashboard_request : pydict unit :=
  [("domain", PStr "grafana"); ("action", PStr "get");
   ("title", PStr "Node Exporter Full"); ("name", PStr "ignored");
   ("namespace", PNone); ("limit", PInt 5)].

End Verify.

(* ================================================================== *)
(** * The edges of the agent graph ([engine.create_agent_graph]) *)
(* ================================================================== *)

Module Graph.
Import Py Text Json Verify.
Local Open Scope string_scope.

(** Where the graph goes next. *)
Inductive next : Type := ToTools | ToEnd.

(** [should_continue]: the log line of the branch taken calls [len] on the
    tool calls. *)
Definition should_continue (state : AgentState) : outcome next :=
  match last_message (messages state) with
  | Some (AIMessage _ additional_kwargs) =>
      let tool_calls := dict_get_default "tool_calls" PNone additional_kwargs in
      if truthy tool_calls then
        _ <- Engine.py_len tool_calls ;;
        Ret ToTools
      else Ret ToEnd
  | _ => Ret ToEnd
  end.

(** [verification_continue]: to the tools when the last message carries
    tool calls. *)
Definition verification_continue (state : AgentState) : next :=
  match last_message (messages state) with
  | Some (AIMessage _ additional_kwargs) =>
      if truthy (dict_get_default "tool_calls" PNone additional_kwargs)
      then ToTools else ToEnd
  | _ => ToEnd
  end.

(** [AgentState.messages] is annotated with [operator.add]: the messages a
    node returns are appended to those of the state; the other keys are
    replaced. *)
Definition apply_update (state returned : AgentState) : AgentState :=
  mkAgentState (messages state ++ messages returned)%list
               (session_id returned) (current_task returned).

End Graph.

(* ================================================================== *)
(** * Properties *)
(* ================================================================== *)

Module PyProps.
Import Py.

(** ** Dictionaries *)

Lemma dict_get_set_same {T} (k : string) (v : pyval T) (d : pydict T) :
  dict_get k (dict_set k v d) = Some v.
Proof.
  induction d as [|[k' v'] d IH]; simpl.
  - now rewrite String.eqb_refl.
  - destruct (String.eqb k k') eqn:E; simpl; rewrite E; auto.
Qed.

Lemma dict_get_set_other {T} (k k' : string) (v : pyval T) (d : pydict T) :
  k <> k' -> dict_get k (dict_set k' v d) = dict_get k d.
Proof.
  intros Hne. induction d as [|[k0 v0] d IH]; simpl.
  - destruct (String.eqb k k') eqn:E; auto.
    apply String.eqb_eq in E. contradiction.
  - destruct (String.eqb k' k0) eqn:E; simpl.
    + apply String.eqb_eq in E. subst k0.
      destruct (String.eqb k k') eqn:E'; auto.
      apply String.eqb_eq in E'. contradiction.
    + destruct (String.eqb k k0); auto.
Qed.

Lemma dict_has_set_same {T} k (v : pyval T) d : dict_has k (dict_set k v d) = true.
Proof. unfold dict_has. now rewrite dict_get_set_same. Qed.

Lemma dict_has_set_other {T} k k' (v : pyval T) d :
  k <> k' -> dict_has k (dict_set k' v d) = dict_has k d.
Proof. intros H. unfold dict_has. now rewrite dict_get_set_other. Qed.

Lemma py_eq_str {T} (v : pyval T) (s : string) :
  py_eq v (PStr s) = true <-> v = PStr s.
Proof.
  destruct v; simpl; try (split; [discriminate|intros H; discriminate H]).
  rewrite String.eqb_eq. split; [now intros ->|now intros [= ->]].
Qed.

End PyProps.

Module JsonProps.
Import Py PyProps Text Json.
Local Open Scope string_scope.

(** ** Strings *)

Lemma append_assoc (a b c : string) : (a ++ b) ++ c = a ++ b ++ c.
Proof. induction a as [|x a IH]; simpl; [reflexivity | now rewrite IH]. Qed.

Lemma append_nil_r (a : string) : a ++ EmptyString = a.
Proof. induction a as [|x a IH]; simpl; [reflexivity | now rewrite IH]. Qed.

Lemma length_append (a b : string) :
  String.length (a ++ b) = String.length a + String.length b.
Proof. induction a as [|x a IH]; simpl; [reflexivity | now rewrite IH]. Qed.

Lemma prefix_append (p s : string) : String.prefix p (p ++ s) = true.
Proof.
  induction p as [|x p IH]; simpl; [now destruct s|].
  destruct (ascii_dec x x) as [_|N]; [exact IH | now contradiction N].
Qed.

Lemma substring_whole (s : string) : substring 0 (String.length s) s = s.
Proof. induction s as [|x s IH]; simpl; [reflexivity | now rewrite IH]. Qed.

Lemma substring_skip (p s : string) (m : nat) :
  substring (String.length p) m (p ++ s) = substring 0 m s.
Proof. induction p as [|x p IH]; simpl; [reflexivity | exact IH]. Qed.

Lemma after_prefix_append (p s : string) : after_prefix p (p ++ s) = Some s.
Proof.
  unfold after_prefix. rewrite prefix_append, substring_skip, length_append.
  replace (String.length p + String.length s - String.length p)
    with (String.length s) by lia.
  now rewrite substring_whole.
Qed.

(** ** Strings of JSON *)

Lemma parse_chars_escape_char (c : ascii) (rest : string) :
  parse_chars (json_escape_char c ++ rest)
  = match parse_chars rest with
    | Some (t, r) => Some (String c t, r)
    | None => None
    end.
Proof.
  destruct c as [[] [] [] [] [] [] [] []]; reflexivity.
Qed.

Lemma parse_chars_escape (s rest : string) :
  parse_chars (json_escape s ++ String dq rest) = Some (s, rest).
Proof.
  induction s as [|c s IH]; simpl; [reflexivity|].
  now rewrite append_assoc, parse_chars_escape_char, IH.
Qed.

(** ** Values of JSON *)

(** How the text of a value starts: with a character that is neither white
    space nor a closing bracket. *)
Lemma json_dumps_head (v : value) (rest : string) :
  textual v = true ->
  exists c r, json_dumps v ++ rest = String c r /\ opens_value c = true.
Proof.
  destruct v as [|[]| | | |]; simpl; try discriminate; intros _; eauto.
Qed.

Lemma skip_ws_head (c : ascii) (r : string) :
  opens_value c = true -> skip_ws (String c r) = String c r.
Proof.
  unfold opens_value. intros H. simpl.
  destruct (is_json_ws c); [discriminate H | reflexivity].
Qed.

Lemma dict_get_app {T} (k : string) (a b : pydict T) :
  dict_get k (a ++ b)%list
  = match dict_get k a with Some v => Some v | None => dict_get k b end.
Proof.
  induction a as [|[k' v'] a IH]; simpl; [reflexivity|].
  destruct (String.eqb k k'); [reflexivity | exact IH].
Qed.

Lemma dict_set_fresh {T} (k : string) (v : pyval T) (d : pydict T) :
  dict_has k d = false -> dict_set k v d = (d ++ [(k, v)])%list.
Proof.
  unfold dict_has. induction d as [|[k' v'] d IH]; simpl; [reflexivity|].
  destruct (String.eqb k k'); [discriminate|]. intros H. now rewrite IH.
Qed.

(** Bounds on the fuel: lengths of concatenations, then arithmetic on the
    inequalities at hand. *)
Ltac lengths :=
  repeat match goal with
         | H : context [String.length (_ ++ _)] |- _ => rewrite length_append in H
         | H : context [String.length (String _ _)] |- _ =>
             cbn [String.length] in H
         end;
  rewrite ?length_append; cbn [String.length];
  lia.

Lemma parse_elements_S fuel s acc :
  parse_elements (S fuel) s acc
  = match parse_value fuel s with
    | Some (v, r) =>
        match skip_ws r with
        | String c r' =>
            if Ascii.eqb c ","%char
            then parse_elements fuel (skip_ws r') (acc ++ [v])
            else if Ascii.eqb c "]"%char then Some (PList tt (acc ++ [v]), r')
            else None
        | EmptyString => None
        end
    | None => None
    end.
Proof. reflexivity. Qed.

(** The text of a non-empty sequence starts like the text of a value. *)
Lemma skip_ws_join {A} (text : A -> string) (x : A) (l : list A) (tail : string) :
  (exists c r, text x = String c r /\ opens_value c = true) ->
  skip_ws (join ", " (map text (x :: l)) ++ tail)
  = join ", " (map text (x :: l)) ++ tail.
Proof.
  intros [c [r [E Hc]]].
  destruct l as [|y l].
  - simpl join. rewrite E. now apply skip_ws_head.
  - change (join ", " (map text (x :: y :: l)))
      with (text x ++ ", " ++ join ", " (map text (y :: l))).
    rewrite E. now apply skip_ws_head.
Qed.

Lemma json_dumps_opens (v : value) :
  textual v = true ->
  exists c r, json_dumps v = String c r /\ opens_value c = true.
Proof.
  intros H. destruct (json_dumps_head v EmptyString H) as [c [r [E Hc]]].
  rewrite append_nil_r in E. eauto.
Qed.

Lemma parse_elements_join (l : list value) :
  forall x acc fuel rest,
    Forall round_trips (x :: l) ->
    forallb textual (x :: l) = true ->
    2 * String.length (join ", " (map json_dumps (x :: l)) ++ "]" ++ rest) + 1 < fuel ->
    parse_elements fuel (join ", " (map json_dumps (x :: l)) ++ "]" ++ rest) acc
    = Some (PList tt (acc ++ x :: l), rest).
Proof.
  induction l as [|y l IH]; intros x acc fuel rest HP Ht Hf.
  - destruct fuel as [|fuel]; [lia|].
    apply Forall_inv in HP. simpl in Ht. rewrite andb_true_r in Ht.
    change (join ", " (map json_dumps [x])) with (json_dumps x) in *.
    rewrite parse_elements_S, (HP Ht) by lengths.
    reflexivity.
  - destruct fuel as [|fuel]; [lia|].
    pose proof (Forall_inv HP) as Hx. apply Forall_inv_tail in HP.
    simpl in Ht. apply andb_true_iff in Ht. destruct Ht as [Htx Ht].
    change (join ", " (map json_dumps (x :: y :: l)))
      with (json_dumps x ++ ", " ++ join ", " (map json_dumps (y :: l))) in *.
    rewrite !append_assoc in *.
    rewrite parse_elements_S, (Hx Htx) by lengths.
    change (", " ++ join ", " (map json_dumps (y :: l)) ++ "]" ++ rest)
      with (String "," (String " " (join ", " (map json_dumps (y :: l)) ++ "]" ++ rest))).
    change (skip_ws (String "," ?r)) with (String "," r).
    cbv iota. change (Ascii.eqb "," ",") with true. cbv iota.
    change (skip_ws (String " " ?r)) with (skip_ws r).
    rewrite skip_ws_join
      by (apply json_dumps_opens; simpl in Ht; now apply andb_true_iff in Ht).
    rewrite IH; [now rewrite <- app_assoc | exact HP | exact Ht | lengths].
Qed.

Lemma parse_members_S fuel s acc :
  parse_members (S fuel) s acc
  = match s with
    | String c s' =>
        if Ascii.eqb c dq then
          match parse_chars s' with
          | Some (k, r) =>
              match skip_ws r with
              | String c1 r1 =>
                  if Ascii.eqb c1 ":"%char then
                    match parse_value fuel (skip_ws r1) with
                    | Some (v, r2) =>
                        match skip_ws r2 with
                        | String c2 r3 =>
                            if Ascii.eqb c2 ","%char
                            then parse_members fuel (skip_ws r3) (dict_set k v acc)
                            else if Ascii.eqb c2 "}"%char
                            then Some (PDict tt (dict_set k v acc), r3)
                            else None
                        | EmptyString => None
                        end
                    | None => None
                    end
                  else None
              | EmptyString => None
              end
          | None => None
          end
        else None
    | EmptyString => None
    end.
Proof. reflexivity. Qed.

Lemma member_text_opens (kv : string * value) :
  exists c r, member_text kv = String c r /\ opens_value c = true.
Proof. unfold member_text, json_string. simpl. eauto. Qed.

(** The text of one member, followed by [tail], up to the value parsed. *)
Lemma member_text_shape (kv : string * value) (tail : string) :
  member_text kv ++ tail
  = String dq (json_escape (fst kv)
               ++ String dq (String ":" (String " " (json_dumps (snd kv) ++ tail)))).
Proof.
  unfold member_text, json_string. simpl. now rewrite !append_assoc.
Qed.

Lemma parse_members_join (d : pydict unit) :
  forall kv acc fuel rest,
    Forall (fun kv => round_trips (snd kv)) (kv :: d) ->
    forallb (fun kv => textual (snd kv)) (kv :: d) = true ->
    distinct_keys (kv :: d) = true ->
    (forall k, In k (map fst (kv :: d)) -> dict_has k acc = false) ->
    2 * String.length (join ", " (map member_text (kv :: d)) ++ "}" ++ rest) + 1 < fuel ->
    parse_members fuel (join ", " (map member_text (kv :: d)) ++ "}" ++ rest) acc
    = Some (PDict tt (acc ++ kv :: d), rest).
Proof.
  induction d as [|kv' d IH]; intros [k x] acc fuel rest HP Ht Hd Hacc Hf.
  - destruct fuel as [|fuel]; [lia|].
    apply Forall_inv in HP. simpl in HP, Ht. rewrite andb_true_r in Ht.
    change (join ", " (map member_text [(k, x)])) with (member_text (k, x)) in *.
    rewrite member_text_shape in *. cbn [fst snd] in *.
    rewrite parse_members_S. change (Ascii.eqb dq dq) with true. cbv iota.
    rewrite parse_chars_escape.
    change (skip_ws (String ":" ?r)) with (String ":" r).
    cbv iota. change (Ascii.eqb ":" ":") with true. cbv iota.
    change (skip_ws (String " " ?r)) with (skip_ws r).
    destruct (json_dumps_head x ("}" ++ rest) Ht) as [c [r [E Hc]]].
    rewrite E, (skip_ws_head c r Hc), <- E.
    rewrite (HP Ht) by lengths.
    rewrite dict_set_fresh by (apply Hacc; simpl; auto).
    reflexivity.
  - destruct fuel as [|fuel]; [lia|].
    pose proof (Forall_inv HP) as Hx. apply Forall_inv_tail in HP.
    simpl in Hx. simpl in Ht. apply andb_true_iff in Ht. destruct Ht as [Htx Ht].
    change (distinct_keys ((k, x) :: kv' :: d))
      with (negb (dict_has k (kv' :: d)) && distinct_keys (kv' :: d)) in Hd.
    apply andb_true_iff in Hd. destruct Hd as [Hk Hd].
    apply negb_true_iff in Hk.
    change (join ", " (map member_text ((k, x) :: kv' :: d)))
      with (member_text (k, x) ++ ", " ++ join ", " (map member_text (kv' :: d))) in *.
    rewrite !append_assoc in *.
    rewrite member_text_shape in *. cbn [fst snd] in *.
    rewrite parse_members_S. change (Ascii.eqb dq dq) with true. cbv iota.
    rewrite parse_chars_escape.
    change (skip_ws (String ":" ?r)) with (String ":" r).
    cbv iota. change (Ascii.eqb ":" ":") with true. cbv iota.
    change (skip_ws (String " " ?r)) with (skip_ws r).
    set (tail := ", " ++ join ", " (map member_text (kv' :: d)) ++ "}" ++ rest) in *.
    destruct (json_dumps_head x tail Htx) as [c [r [E Hc]]].
    rewrite E, (skip_ws_head c r Hc), <- E.
    rewrite (Hx Htx) by (subst tail; lengths).
    subst tail.
    change (", " ++ join ", " (map member_text (kv' :: d)) ++ "}" ++ rest)
      with (String "," (String " " (join ", " (map member_text (kv' :: d)) ++ "}" ++ rest))).
    change (skip_ws (String "," ?r)) with (String "," r).
    cbv iota. change (Ascii.eqb "," ",") with true. cbv iota.
    change (skip_ws (String " " ?r)) with (skip_ws r).
    rewrite skip_ws_join by apply member_text_opens.
    rewrite dict_set_fresh by (apply Hacc; simpl; auto).
    rewrite IH; [now rewrite <- app_assoc | exact HP | exact Ht | exact Hd | | lengths].
    intros k' Hk'. unfold dict_has. rewrite dict_get_app.
    pose proof (Hacc k' (or_intror Hk')) as Ha. unfold dict_has in Ha.
    destruct (dict_get k' acc); [discriminate Ha|].
    simpl. destruct (String.eqb k' k) eqn:Ek; [|reflexivity].
    apply String.eqb_eq in Ek. subst k'.
    (* k is not a key of the rest *)
    exfalso. clear - Hk Hk'. unfold dict_has in Hk.
    induction (kv' :: d) as [|[k0 v0] m IHm]; [contradiction|].
    simpl in Hk, Hk'. destruct (String.eqb k k0) eqn:E0; [discriminate|].
    destruct Hk' as [->|Hk']; [now rewrite String.eqb_refl in E0 | auto].
Qed.

Lemma parse_value_S fuel c s' :
  parse_value (S fuel) (String c s')
  = if Ascii.eqb c dq then
      match parse_chars s' with
      | Some (t, r) => Some (PStr t, r)
      | None => None
      end
    else if Ascii.eqb c "{"%char then
      match skip_ws s' with
      | String c1 r1 =>
          if Ascii.eqb c1 "}"%char then Some (PDict tt [], r1)
          else parse_members fuel (String c1 r1) []
      | EmptyString => None
      end
    else if Ascii.eqb c "["%char then
      match skip_ws s' with
      | String c1 r1 =>
          if Ascii.eqb c1 "]"%char then Some (PList tt [], r1)
          else parse_elements fuel (String c1 r1) []
      | EmptyString => None
      end
    else if Ascii.eqb c "n"%char then
      match after_prefix "null" (String c s') with
      | Some r => Some (PNone, r)
      | None => None
      end
    else if Ascii.eqb c "t"%char then
      match after_prefix "true" (String c s') with
      | Some r => Some (PBool true, r)
      | None => None
      end
    else if Ascii.eqb c "f"%char then
      match after_prefix "false" (String c s') with
      | Some r => Some (PBool false, r)
      | None => None
      end
    else parse_number (String c s').
Proof. reflexivity. Qed.

Lemma opens_value_not (c : ascii) :
  opens_value c = true ->
  Ascii.eqb c "]"%char = false /\ Ascii.eqb c "}"%char = false.
Proof.
  unfold opens_value. intros H.
  apply andb_true_iff in H. destruct H as [H H2].
  apply andb_true_iff in H. destruct H as [_ H1].
  split; now apply negb_true_iff.
Qed.

(** Decoding undoes encoding, whatever follows the text. *)
Lemma parse_value_dumps (v : value) : round_trips v.
Proof.
  induction v as [|b|z|s|t l IH|t d IH] using pyval_nested_ind;
    intros Ht fuel rest Hf; (destruct fuel as [|fuel]; [lia|]).
  - change (json_dumps (PNone : value) ++ rest) with (String "n" ("ull" ++ rest)).
    rewrite parse_value_S. simpl Ascii.eqb. cbv iota.
    change (String "n" ("ull" ++ rest)) with ("null" ++ rest).
    now rewrite after_prefix_append.
  - destruct b.
    + change (json_dumps (PBool true : value) ++ rest)
        with (String "t" ("rue" ++ rest)).
      rewrite parse_value_S. simpl Ascii.eqb. cbv iota.
      change (String "t" ("rue" ++ rest)) with ("true" ++ rest).
      now rewrite after_prefix_append.
    + change (json_dumps (PBool false : value) ++ rest)
        with (String "f" ("alse" ++ rest)).
      rewrite parse_value_S. simpl Ascii.eqb. cbv iota.
      change (String "f" ("alse" ++ rest)) with ("false" ++ rest).
      now rewrite after_prefix_append.
  - discriminate Ht.
  - change (json_dumps (PStr s : value) ++ rest)
      with (String dq ((json_escape s ++ String dq EmptyString) ++ rest)).
    rewrite parse_value_S. change (Ascii.eqb dq dq) with true. cbv iota.
    rewrite append_assoc. change (String dq EmptyString ++ rest) with (String dq rest).
    now rewrite parse_chars_escape.
  - destruct t. simpl in Ht. destruct l as [|x l].
    + reflexivity.
    + change (json_dumps (PList tt (x :: l)) ++ rest)
        with (String "[" ((join ", " (map json_dumps (x :: l)) ++ "]") ++ rest)) in *.
      rewrite append_assoc in *.
      rewrite parse_value_S. simpl Ascii.eqb. cbv iota.
      assert (Hx : textual x = true) by (now apply andb_true_iff in Ht).
      rewrite skip_ws_join by (now apply json_dumps_opens).
      destruct (json_dumps_opens x Hx) as [c [r [E Hc]]].
      destruct (opens_value_not c Hc) as [Hn _].
      assert (Hs : exists r', join ", " (map json_dumps (x :: l)) ++ "]" ++ rest
                              = String c r').
      { destruct l as [|y l].
        - simpl join. rewrite E. simpl. eauto.
        - change (join ", " (map json_dumps (x :: y :: l)))
            with (json_dumps x ++ ", " ++ join ", " (map json_dumps (y :: l))).
          rewrite E. simpl. eauto. }
      destruct Hs as [r' Hs]. rewrite Hs, Hn, <- Hs.
      rewrite parse_elements_join; [reflexivity | exact IH | exact Ht | lengths].
  - destruct t. simpl in Ht. apply andb_true_iff in Ht. destruct Ht as [Hd Ht].
    destruct d as [|kv d].
    + reflexivity.
    + change (json_dumps (PDict tt (kv :: d)) ++ rest)
        with (String "{" ((join ", " (map member_text (kv :: d)) ++ "}") ++ rest)) in *.
      rewrite append_assoc in *.
      rewrite parse_value_S. simpl Ascii.eqb. cbv iota.
      rewrite skip_ws_join by apply member_text_opens.
      assert (Hs : exists r', join ", " (map member_text (kv :: d)) ++ "}" ++ rest
                              = String dq r').
      { destruct d as [|kv' d].
        - simpl join. unfold member_text, json_string. simpl. eauto.
        - change (join ", " (map member_text (kv :: kv' :: d)))
            with (member_text kv ++ ", " ++ join ", " (map member_text (kv' :: d))).
          unfold member_text at 1, json_string. simpl. eauto. }
      destruct Hs as [r' Hs]. rewrite Hs. change (Ascii.eqb dq "}") with false.
      cbv iota. rewrite <- Hs.
      rewrite parse_members_join;
        [reflexivity | exact IH | exact Ht | exact Hd | reflexivity | lengths].
Qed.

(** [json.loads(json.dumps(v))] is [v]. *)
Lemma json_loads_dumps (v : value) :
  textual v = true -> json_loads (json_dumps v) = Ret v.
Proof.
  intros Ht. unfold json_loads.
  destruct (json_dumps_opens v Ht) as [c [r [E Hc]]].
  rewrite E, (skip_ws_head c r Hc), <- E.
  rewrite <- (append_nil_r (json_dumps v)) at 2.
  rewrite parse_value_dumps; [reflexivity | exact Ht |].
  rewrite append_nil_r. lia.
Qed.

End JsonProps.

Module SelfHealingProps.
Import Py PyProps SelfHealing.

(** ** [get_all_policies] sorts the table *)

Lemma insert_by_priority_perm p l :
  Permutation (p :: l) (insert_by_priority p l).
Proof.
  induction l as [|q l IH]; simpl; auto.
  destruct (priority p <=? priority q)%Z; auto.
  rewrite perm_swap. now constructor.
Qed.

Lemma get_all_policies_perm rows : Permutation rows (get_all_policies rows).
Proof.
  induction rows as [|r rows IH]; simpl; auto.
  etransitivity; [|apply insert_by_priority_perm]. now constructor.
Qed.

Lemma insert_by_priority_sorted p l :
  StronglySorted prio_le l -> StronglySorted prio_le (insert_by_priority p l).
Proof.
  induction 1 as [|q l Hs IH Hall]; simpl.
  - repeat constructor.
  - destruct (priority p <=? priority q)%Z eqn:E.
    + apply Z.leb_le in E. constructor; [now constructor|].
      constructor; [exact E|].
      eapply Forall_impl; [|exact Hall].
      unfold prio_le. intros; lia.
    + apply Z.leb_gt in E. constructor; [exact IH|].
      eapply Permutation_Forall; [apply insert_by_priority_perm|].
      constructor; [unfold prio_le; lia | exact Hall].
Qed.

Lemma get_all_policies_sorted rows :
  StronglySorted prio_le (get_all_policies rows).
Proof.
  induction rows as [|r rows IH]; simpl.
  - constructor.
  - now apply insert_by_priority_sorted.
Qed.

Lemma get_all_policies_nil rows : get_all_policies rows = [] <-> rows = [].
Proof.
  split; intros H.
  - apply Permutation_nil. rewrite <- H. symmetry. apply get_all_policies_perm.
  - now subst.
Qed.

(** In a sorted list, what follows an element has no smaller priority. *)
Lemma sorted_split_le ps1 p ps2 q :
  StronglySorted prio_le (ps1 ++ p :: ps2) -> In q (p :: ps2) -> prio_le p q.
Proof.
  induction ps1 as [|a ps1 IH]; simpl; intros Hs Hin.
  - inversion Hs as [|? ? _ Hall]; subst.
    destruct Hin as [->|Hin]; [unfold prio_le; lia|].
    rewrite Forall_forall in Hall. auto.
  - inversion Hs; subst. auto.
Qed.

(** ** The two loops *)

Lemma policy_loop_none fresh ps labels annotations st :
  (forall q, In q ps -> _match_condition (condition q) labels annotations st = Ret false) ->
  policy_loop fresh ps labels annotations st = Ret None.
Proof.
  induction ps as [|p ps IH]; simpl; intros H; auto.
  rewrite (H p (or_introl eq_refl)). simpl. auto.
Qed.

Lemma policy_loop_first fresh ps1 p ps2 labels annotations st :
  (forall q, In q ps1 -> _match_condition (condition q) labels annotations st = Ret false) ->
  _match_condition (condition p) labels annotations st = Ret true ->
  policy_loop fresh (ps1 ++ p :: ps2) labels annotations st =
  (a <- build_action fresh p labels annotations ;; Ret (Some a)).
Proof.
  induction ps1 as [|q ps1 IH]; simpl; intros Hrej Hm.
  - now rewrite Hm.
  - rewrite (Hrej q (or_introl eq_refl)). simpl. auto.
Qed.

Lemma try_policy_inv st fresh item p b :
  try_policy st fresh item p = Ret b ->
  _match_condition (condition p) (item_labels fresh item)
                   (item_annotations fresh item) st = Ret b
  /\ exists r, py_get (item_labels fresh item) (PStr "alertname") = Ret r.
Proof.
  unfold try_policy.
  destruct (py_get (item_labels fresh item) (PStr "alertname")) eqn:E;
    simpl; intros H; [eauto | discriminate].
Qed.

Lemma fresh_at_S fresh k : fresh_at (S (S fresh)) k = fresh_at fresh (S k).
Proof. unfold fresh_at. lia. Qed.

Lemma alert_loop_none fresh ps items st :
  ps <> [] ->
  (forall k it q, nth_error items k = Some it -> In q ps ->
                  try_policy st (fresh_at fresh k) it q = Ret false) ->
  alert_loop fresh ps items st = Ret None.
Proof.
  intros Hne. revert fresh.
  induction items as [|it items IH]; intros fresh H; simpl; auto.
  assert (Hex : exists q0, In q0 ps).
  { destruct ps as [|q0 ps0]; [contradiction|]. exists q0. now left. }
  destruct Hex as [q0 Hq0].
  assert (H0 : forall q, In q ps -> try_policy st fresh it q = Ret false).
  { intros q Hq. specialize (H 0 it q eq_refl Hq).
    unfold fresh_at in H. now replace (fresh + 2 * 0) with fresh in H by lia. }
  destruct (try_policy_inv _ _ _ _ _ (H0 q0 Hq0)) as [_ [r Hr]].
  rewrite Hr. simpl bind at 1.
  rewrite policy_loop_none.
  - simpl. apply IH. intros k it' q Hk Hq.
    rewrite fresh_at_S. apply (H (S k)); auto.
  - intros q Hq. now destruct (try_policy_inv _ _ _ _ _ (H0 q Hq)).
Qed.

Lemma alert_loop_first fresh ps1 p ps2 before item after st :
  (forall k it q, nth_error before k = Some it -> In q (ps1 ++ p :: ps2) ->
                  try_policy st (fresh_at fresh k) it q = Ret false) ->
  (forall q, In q ps1 ->
             try_policy st (fresh_at fresh (List.length before)) item q = Ret false) ->
  try_policy st (fresh_at fresh (List.length before)) item p = Ret true ->
  alert_loop fresh (ps1 ++ p :: ps2) (before ++ item :: after) st =
  action_for fresh (List.length before) item p.
Proof.
  revert fresh.
  induction before as [|it before IH]; intros fresh Hbefore Hps1 Hp.
  - simpl List.length in *. unfold action_for.
    replace (fresh_at fresh 0) with fresh in * by (unfold fresh_at; lia).
    simpl app. simpl alert_loop.
    destruct (try_policy_inv _ _ _ _ _ Hp) as [Hm [r Hr]].
    rewrite Hr. simpl bind at 1.
    rewrite policy_loop_first; auto.
    + destruct (build_action _ _ _ _); reflexivity.
    + intros q Hq. now destruct (try_policy_inv _ _ _ _ _ (Hps1 q Hq)).
  - simpl app. simpl alert_loop.
    assert (H0 : forall q, In q (ps1 ++ p :: ps2) -> try_policy st fresh it q = Ret false).
    { intros q Hq. specialize (Hbefore 0 it q eq_refl Hq).
      unfold fresh_at in Hbefore.
      now replace (fresh + 2 * 0) with fresh in Hbefore by lia. }
    assert (Hp_in : In p (ps1 ++ p :: ps2)) by (apply in_or_app; right; now left).
    destruct (try_policy_inv _ _ _ _ _ (H0 p Hp_in)) as [_ [r Hr]].
    rewrite Hr. simpl bind at 1.
    rewrite policy_loop_none.
    + simpl bind. simpl List.length in *.
      rewrite IH.
      * unfold action_for. now rewrite fresh_at_S.
      * intros k it' q Hk Hq. rewrite fresh_at_S. apply (Hbefore (S k)); auto.
      * intros q Hq. rewrite fresh_at_S. auto.
      * rewrite fresh_at_S. auto.
    + intros q Hq. now destruct (try_policy_inv _ _ _ _ _ (H0 q Hq)).
Qed.

(** ** [build_action] *)

Lemma interpolate_value_ret value tl dl ta da :
  exists v, interpolate_value value (PDict tl dl) (PDict ta da) = Ret v.
Proof.
  destruct value; simpl; eauto.
  destruct (str_contains "${label." s); [unfold get_or; simpl; eauto|].
  destruct (str_contains "${annotation." s); unfold get_or; simpl; eauto.
Qed.

Lemma interpolate_loop_ret items tl dl ta da result :
  exists r, interpolate_loop items (PDict tl dl) (PDict ta da) result = Ret r.
Proof.
  revert result. induction items as [|[k v] items IH]; intros result; simpl; eauto.
  destruct (interpolate_value_ret v tl dl ta da) as [v' ->]. simpl. apply IH.
Qed.

(** What [build_action] returns when the labels and annotations are dicts
    and the template's [params], if any, is a dict. *)
Lemma build_action_ret fresh p tl dl ta da :
  params_ok p = true ->
  exists items,
    build_action fresh p (PDict tl dl) (PDict ta da) = Ret (PDict fresh items)
    /\ dict_get "policy_name" items = Some (PStr (name p))
    /\ dict_get "alert_labels" items = Some (PDict tl dl)
    /\ (forall k, k <> "policy_name" -> k <> "alert_labels" -> k <> "params" ->
                  dict_get k items = dict_get k (action p))
    /\ (dict_get "params" (action p) = None -> dict_get "params" items = None)
    /\ (forall v, dict_get "params" (action p) = Some v ->
                  exists ps, dict_get "params" items = Some (PDict (S fresh) ps)).
Proof.
  unfold params_ok, build_action. intros Hok.
  set (a1 := dict_set "policy_name" (PStr (name p)) (action p)).
  set (a2 := dict_set "alert_labels" (PDict tl dl) a1).
  assert (Hpar : dict_get "params" a2 = dict_get "params" (action p)).
  { unfold a2, a1. rewrite !dict_get_set_other by discriminate. reflexivity. }
  assert (Hname : dict_get "policy_name" a2 = Some (PStr (name p))).
  { unfold a2, a1. rewrite dict_get_set_other by discriminate.
    apply dict_get_set_same. }
  assert (Hlab : dict_get "alert_labels" a2 = Some (PDict tl dl)).
  { unfold a2. apply dict_get_set_same. }
  assert (Hother : forall k, k <> "policy_name" -> k <> "alert_labels" ->
                             dict_get k a2 = dict_get k (action p)).
  { intros k H1 H2. unfold a2, a1. now rewrite !dict_get_set_other. }
  rewrite Hpar. destruct (dict_get "params" (action p)) as [params|] eqn:Ep.
  - destruct params; try discriminate Hok.
    unfold _interpolate_params. simpl py_items. simpl bind at 2.
    destruct (interpolate_loop_ret d tl dl ta da []) as [r ->]. simpl.
    exists (dict_set "params" (PDict (S fresh) r) a2). split; [reflexivity|].
    repeat split.
    + now rewrite dict_get_set_other by discriminate.
    + now rewrite dict_get_set_other by discriminate.
    + intros k H1 H2 H3. rewrite dict_get_set_other by assumption. auto.
    + discriminate.
    + intros v _. exists r. apply dict_get_set_same.
  - exists a2. split; [reflexivity|].
    split; [exact Hname|]. split; [exact Hlab|].
    split; [intros k H1 H2 _; auto|].
    split; [intros _; now rewrite Hpar | discriminate].
Qed.

(** ** [evaluate_alert] *)

Lemma evaluate_alert_unfold rows fresh alert :
  rows <> [] ->
  evaluate_alert rows fresh alert =
  alert_loop fresh (get_all_policies rows) (alerts alert) (status alert).
Proof.
  intros Hne. unfold evaluate_alert.
  destruct (get_all_policies rows) eqn:E; auto.
  contradiction Hne. now apply (proj1 (get_all_policies_nil rows)).
Qed.

Lemma in_get_all_policies rows q : In q (get_all_policies rows) <-> In q rows.
Proof.
  split; apply Permutation_in;
    [symmetry|]; apply get_all_policies_perm.
Qed.

(** The first matching pair decides: hypotheses and conclusion shared by
    the statements about the action handed out. *)
Lemma evaluate_alert_first rows fresh alert before item after ps1 p ps2 :
  alerts alert = before ++ item :: after ->
  get_all_policies rows = ps1 ++ p :: ps2 ->
  (forall k it q, nth_error before k = Some it -> In q rows ->
     try_policy (status alert) (fresh_at fresh k) it q = Ret false) ->
  (forall q, In q ps1 ->
     try_policy (status alert) (fresh_at fresh (List.length before)) item q = Ret false) ->
  try_policy (status alert) (fresh_at fresh (List.length before)) item p = Ret true ->
  evaluate_alert rows fresh alert = action_for fresh (List.length before) item p.
Proof.
  intros Ha Hp Hbefore Hps1 Hm.
  rewrite evaluate_alert_unfold.
  - rewrite Ha, Hp. apply alert_loop_first; auto.
    intros k it q Hk Hq. apply Hbefore; auto.
    apply (proj1 (in_get_all_policies _ _)). now rewrite Hp.
  - intros ->. simpl in Hp. now destruct ps1.
Qed.

(** When the entry's labels and annotations are dicts and the template's
    [params] is a dict or absent, [action_for] is an action. *)
Lemma action_for_ret fresh k item p :
  is_dict (item_labels (fresh_at fresh k) item) = true ->
  is_dict (item_annotations (fresh_at fresh k) item) = true ->
  params_ok p = true ->
  exists items,
    action_for fresh k item p = Ret (Some (PDict (S (S (fresh_at fresh k))) items))
    /\ dict_get "policy_name" items = Some (PStr (name p))
    /\ dict_get "alert_labels" items = Some (item_labels (fresh_at fresh k) item)
    /\ (forall key, key <> "policy_name" -> key <> "alert_labels" -> key <> "params" ->
                    dict_get key items = dict_get key (action p))
    /\ (dict_get "params" (action p) = None -> dict_get "params" items = None)
    /\ (forall v, dict_get "params" (action p) = Some v ->
          exists ps, dict_get "params" items
                     = Some (PDict (S (S (S (fresh_at fresh k)))) ps)).
Proof.
  intros Hl Ha Hok. unfold action_for.
  destruct (item_labels (fresh_at fresh k) item) as [| | | | |tl dl];
    try discriminate Hl.
  destruct (item_annotations (fresh_at fresh k) item) as [| | | | |ta da];
    try discriminate Ha.
  destruct (build_action_ret (S (S (fresh_at fresh k))) p tl dl ta da Hok)
    as [items [E H]].
  exists items. rewrite E. simpl. auto.
Qed.

Lemma try_policy_labels_dict st fresh item p b :
  try_policy st fresh item p = Ret b -> is_dict (item_labels fresh item) = true.
Proof.
  intros H. destruct (try_policy_inv _ _ _ _ _ H) as [_ [r Hr]].
  destruct (item_labels fresh item); simpl in Hr; try discriminate. reflexivity.
Qed.

(** C1, as amended.  The policies being fetched in ascending priority
    order, [evaluate_alert] returns the action of the first policy, in that
    order, whose condition matches the first alert entry, in payload order,
    that some policy matches: of the policies matching that entry none has a
    lower priority number.  It returns [None] when the policy table is empty
    and when no (entry, policy) pair matches. *)
Theorem evaluate_alert_first_matching_pair
    (rows : list Policy) (fresh : objid) (alert : PrometheusAlert) :
  (rows = [] -> evaluate_alert rows fresh alert = Ret None)
  /\ ((forall k it q, nth_error (alerts alert) k = Some it -> In q rows ->
         try_policy (status alert) (fresh_at fresh k) it q = Ret false) ->
      evaluate_alert rows fresh alert = Ret None)
  /\ (forall before item after ps1 p ps2,
        alerts alert = before ++ item :: after ->
        get_all_policies rows = ps1 ++ p :: ps2 ->
        (forall k it q, nth_error before k = Some it -> In q rows ->
           try_policy (status alert) (fresh_at fresh k) it q = Ret false) ->
        (forall q, In q ps1 ->
           try_policy (status alert) (fresh_at fresh (List.length before)) item q
           = Ret false) ->
        try_policy (status alert) (fresh_at fresh (List.length before)) item p
        = Ret true ->
        evaluate_alert rows fresh alert = action_for fresh (List.length before) item p
        /\ (forall q, In q rows ->
              try_policy (status alert) (fresh_at fresh (List.length before)) item q
              = Ret true ->
              (priority p <= priority q)%Z)
        /\ (params_ok p = true ->
            is_dict (item_annotations (fresh_at fresh (List.length before)) item) = true ->
            exists id items,
              evaluate_alert rows fresh alert = Ret (Some (PDict id items))
              /\ dict_get "policy_name" items = Some (PStr (name p)))).
Proof.
  split; [|split].
  - intros ->. reflexivity.
  - intros H. destruct rows as [|r rows'] eqn:E; [reflexivity|].
    rewrite evaluate_alert_unfold by discriminate.
    apply alert_loop_none.
    + intros Hnil. apply (proj1 (get_all_policies_nil _)) in Hnil. discriminate.
    + intros k it q Hk Hq. apply H; auto. now apply (proj1 (in_get_all_policies _ _)).
  - intros before item after ps1 p ps2 Ha Hp Hbefore Hps1 Hm.
    pose proof (evaluate_alert_first _ _ _ _ _ _ _ _ _ Ha Hp Hbefore Hps1 Hm) as Hev.
    split; [exact Hev|]. split.
    + intros q Hq Hmq.
      apply (proj2 (in_get_all_policies _ _)) in Hq. rewrite Hp in Hq.
      apply in_app_or in Hq. destruct Hq as [Hq|Hq].
      * rewrite (Hps1 q Hq) in Hmq. discriminate.
      * pose proof (get_all_policies_sorted rows) as Hs. rewrite Hp in Hs.
        exact (sorted_split_le _ _ _ _ Hs Hq).
    + intros Hok Hann.
      destruct (action_for_ret fresh (List.length before) item p
                  (try_policy_labels_dict _ _ _ _ _ Hm) Hann Hok)
        as [items [E [Hn _]]].
      exists (S (S (fresh_at fresh (List.length before)))), items.
      rewrite Hev. auto.
Qed.

Lemma evaluate_alert_first_matching_pair_witness :
  evaluate_alert [cleanup_policy; restart_policy] 100 two_entries
  = action_for 100 0 (labels_of 1 "DiskFull") cleanup_policy.
Proof.
  destruct (evaluate_alert_first_matching_pair
              [cleanup_policy; restart_policy] 100 two_entries) as [_ [_ H]].
  destruct (H [] (labels_of 1 "DiskFull") [labels_of 2 "PodCrashLoop"]
              [restart_policy] cleanup_policy []) as [E _].
  - reflexivity.
  - reflexivity.
  - intros k it q Hk. destruct k; discriminate Hk.
  - intros q [<-|[]]. reflexivity.
  - reflexivity.
  - exact E.
Defined.

(** C1 as stated fails: [restart_policy] has the lowest priority number of
    the table and matches the second entry, yet the action returned is that
    of [cleanup_policy], which matches the first entry. *)
Lemma evaluate_alert_not_lowest_overall :
  let rows := [cleanup_policy; restart_policy] in
  In restart_policy rows
  /\ (forall q, In q rows -> (priority restart_policy <= priority q)%Z)
  /\ nth_error (alerts two_entries) 1 = Some (labels_of 2 "PodCrashLoop")
  /\ try_policy (status two_entries) (fresh_at 100 1)
                (labels_of 2 "PodCrashLoop") restart_policy = Ret true
  /\ evaluate_alert rows 100 two_entries
     = Ret (Some (PDict 102
                    [("tool", PStr "cleanup_disk");
                     ("policy_name", PStr "cleanup-on-diskfull");
                     ("alert_labels", PDict 1 [("alertname", PStr "DiskFull")])]))
  /\ evaluate_alert rows 100 two_entries
     <> action_for 100 1 (labels_of 2 "PodCrashLoop") restart_policy.
Proof.
  simpl. repeat split.
  - auto.
  - intros q [<-|[<-|[]]]; simpl; lia.
  - vm_compute. discriminate.
Qed.

(** C7, as amended.  On the first matching (entry, policy) pair
    [evaluate_alert] returns a shallow copy of the policy's action template:
    a new dict, different from every object of the stored template, holding
    the policy's name under ["policy_name"], the entry's labels under
    ["alert_labels"], under ["params"] (when the template has one) a new dict
    as well, and under every other key the very value of the template. *)
Theorem evaluate_alert_shallow_copy
    (rows : list Policy) (fresh : objid) (alert : PrometheusAlert)
    before item after ps1 p ps2 :
  alerts alert = before ++ item :: after ->
  get_all_policies rows = ps1 ++ p :: ps2 ->
  (forall k it q, nth_error before k = Some it -> In q rows ->
     try_policy (status alert) (fresh_at fresh k) it q = Ret false) ->
  (forall q, In q ps1 ->
     try_policy (status alert) (fresh_at fresh (List.length before)) item q = Ret false) ->
  try_policy (status alert) (fresh_at fresh (List.length before)) item p = Ret true ->
  params_ok p = true ->
  is_dict (item_annotations (fresh_at fresh (List.length before)) item) = true ->
  Forall (fun i => i < fresh) (obj_ids (template p)) ->
  exists id items,
    evaluate_alert rows fresh alert = Ret (Some (PDict id items))
    /\ ~ In id (obj_ids (template p))
    /\ dict_get "policy_name" items = Some (PStr (name p))
    /\ dict_get "alert_labels" items
       = Some (item_labels (fresh_at fresh (List.length before)) item)
    /\ (forall key, key <> "policy_name" -> key <> "alert_labels" -> key <> "params" ->
                    dict_get key items = dict_get key (action p))
    /\ (dict_get "params" (action p) = None -> dict_get "params" items = None)
    /\ (forall v, dict_get "params" (action p) = Some v ->
          exists ps, dict_get "params" items = Some (PDict (S id) ps)
                     /\ ~ In (S id) (obj_ids (template p))).
Proof.
  intros Ha Hp Hbefore Hps1 Hm Hok Hann Hfresh.
  pose proof (evaluate_alert_first _ _ _ _ _ _ _ _ _ Ha Hp Hbefore Hps1 Hm) as Hev.
  destruct (action_for_ret fresh (List.length before) item p
              (try_policy_labels_dict _ _ _ _ _ Hm) Hann Hok)
    as [items [E [Hn [Hl [Ho [Hnone Hpar]]]]]].
  rewrite Forall_forall in Hfresh.
  assert (Hnew : forall j, fresh <= j -> ~ In j (obj_ids (template p))).
  { intros j Hj Hin. apply Hfresh in Hin. lia. }
  exists (S (S (fresh_at fresh (List.length before)))), items.
  rewrite Hev. split; [exact E|].
  split; [apply Hnew; unfold fresh_at; lia|].
  repeat (split; [assumption|]).
  intros v Hv. destruct (Hpar v Hv) as [ps Hps]. exists ps.
  split; [exact Hps|]. apply Hnew. unfold fresh_at. lia.
Qed.

Lemma evaluate_alert_shallow_copy_witness :
  exists id items,
    evaluate_alert [scale_policy] 100 crashloop_alert = Ret (Some (PDict id items))
    /\ ~ In id (obj_ids (template scale_policy))
    /\ dict_get "policy_name" items = Some (PStr "scale-on-crashloop").
Proof.
  destruct (evaluate_alert_shallow_copy [scale_policy] 100 crashloop_alert
              [] (nth 0 (alerts crashloop_alert) []) [] [] scale_policy [])
    as [id [items [E [Hid [Hn _]]]]].
  - reflexivity.
  - reflexivity.
  - intros k it q Hk. destruct k; discriminate Hk.
  - intros q [].
  - reflexivity.
  - reflexivity.
  - reflexivity.
  - simpl. repeat constructor; lia.
  - exists id, items. auto.
Defined.

(** C7 as stated fails: the copy is not deep.  The list under
    [params["containers"]] and the dict under ["meta"] of the returned action
    are the objects 9 and 10 of the stored template. *)
Lemma evaluate_alert_copy_not_deep :
  evaluate_alert [scale_policy] 100 crashloop_alert
  = Ret (Some (PDict 102
                 [("tool", PStr "mcp_scale_deployment");
                  ("params", PDict 103 [("deployment_name", PStr "web-1");
                                        ("containers", PList 9 [PStr "web"])]);
                  ("meta", PDict 10 [("owner", PStr "ops")]);
                  ("policy_name", PStr "scale-on-crashloop");
                  ("alert_labels", PDict 11 [("alertname", PStr "PodCrashLoop");
                                             ("deployment", PStr "web-1")])]))
  /\ shares_object
       (PDict 102
          [("tool", PStr "mcp_scale_deployment");
           ("params", PDict 103 [("deployment_name", PStr "web-1");
                                 ("containers", PList 9 [PStr "web"])]);
           ("meta", PDict 10 [("owner", PStr "ops")]);
           ("policy_name", PStr "scale-on-crashloop");
           ("alert_labels", PDict 11 [("alertname", PStr "PodCrashLoop");
                                      ("deployment", PStr "web-1")])])
       (template scale_policy).
Proof.
  split; [reflexivity|].
  exists 9. split; simpl; auto 10.
Qed.

End SelfHealingProps.

Module EngineProps.
Import Py PyProps Text Json Engine.
Local Open Scope string_scope.

(** ** [is_server_error] *)

Lemma is_server_error_dict t d :
  is_server_error (PDict t d) =
  py_eq (dict_get_default "status" PNone d) (PStr "error")
  && existsb (fun marker => str_contains marker (lower (error_text d)))
             server_error_markers.
Proof.
  unfold is_server_error, error_text.
  destruct (truthy (dict_get_default "error" (PStr EmptyString) d));
    simpl; now rewrite ?orb_false_r, ?orb_assoc.
Qed.

(** C3, as amended.  A response is classified as a server-unavailability
    error exactly when it is a dict whose status field equals ["error"] and
    whose error text, converted to lower case, contains at least one of the
    seven fixed substrings; [{status: "error", error: "connection refused"}]
    is classified so, [{status: "error", error: "invalid argument"}] is
    not. *)
Theorem is_server_error_iff :
  (forall response : value,
     is_server_error response = true <->
     exists t d,
       response = PDict t d
       /\ dict_get_default "status" PNone d = PStr "error"
       /\ exists marker,
            In marker server_error_markers
            /\ str_contains marker (lower (error_text d)) = true)
  /\ is_server_error connection_refused = true
  /\ is_server_error invalid_argument = false.
Proof.
  split; [|split; reflexivity].
  intros response. split.
  - destruct response as [| | | | |t d]; try discriminate.
    rewrite is_server_error_dict, andb_true_iff, existsb_exists.
    intros [Hs [marker Hm]]. exists t, d.
    split; [reflexivity|]. split; [now apply py_eq_str|]. now exists marker.
  - intros [t [d [-> [Hs [marker Hm]]]]].
    rewrite is_server_error_dict, andb_true_iff, existsb_exists.
    split; [now apply py_eq_str|]. now exists marker.
Qed.

(** C3 as stated fails: the error text ["Connection refused"] contains none
    of the seven substrings, yet the response is classified as a
    server-unavailability error, the comparison being made on the lower-cased
    text. *)
Lemma is_server_error_ignores_case :
  is_server_error capitalised_refusal = true
  /\ error_text [("status", PStr "error"); ("error", PStr "Connection refused")]
     = "Connection refused"
  /\ forall marker, In marker server_error_markers ->
                    str_contains marker "Connection refused" = false.
Proof.
  split; [reflexivity|]. split; [reflexivity|].
  intros marker H. simpl in H.
  repeat (destruct H as [<-|H]; [reflexivity|]). destruct H.
Qed.

(** C10.  [is_server_error] is [False] on every value that is not a dict and
    on every dict whose ["error"] field is absent, [None] or the empty
    string (or any other falsy value), whatever its status field. *)
Theorem is_server_error_needs_error_text :
  (forall response : value,
     is_dict response = false -> is_server_error response = false)
  /\ (forall t d,
        dict_get "error" d = None
        \/ dict_get "error" d = Some PNone
        \/ dict_get "error" d = Some (PStr EmptyString) ->
        is_server_error (PDict t d) = false)
  /\ (forall t d,
        truthy (dict_get_default "error" (PStr EmptyString) d) = false ->
        is_server_error (PDict t d) = false).
Proof.
  split; [|split].
  - intros response H. destruct response; try reflexivity. discriminate H.
  - intros t d H. unfold is_server_error, dict_get_default.
    destruct H as [-> | [-> | ->]]; simpl; apply andb_false_r.
  - intros t d H. unfold is_server_error. rewrite H. simpl. apply andb_false_r.
Qed.

Lemma is_server_error_needs_error_text_witness :
  is_server_error (PStr "connection refused") = false
  /\ is_server_error (dict [("status", PStr "error")]) = false
  /\ is_server_error (dict [("status", PStr "error"); ("error", PNone)]) = false
  /\ is_server_error (dict [("status", PStr "error"); ("error", PStr EmptyString)])
     = false.
Proof.
  destruct is_server_error_needs_error_text as [H1 [H2 _]].
  split; [apply H1; reflexivity|].
  split; [apply H2; left; reflexivity|].
  split; [apply H2; right; left; reflexivity|].
  apply H2; right; right; reflexivity.
Defined.

(** ** The router *)

Lemma in_list_cases (x : value) (l : list string) :
  in_list x l = true -> exists s, In s l /\ x = PStr s.
Proof.
  unfold in_list. rewrite existsb_exists. intros [s [Hin He]].
  exists s. split; [exact Hin|]. now apply py_eq_str.
Qed.

Lemma in_list_false (x : value) (l : list string) (s : string) :
  in_list x l = false -> In s l -> py_eq x (PStr s) = false.
Proof.
  unfold in_list. intros H Hin.
  destruct (py_eq x (PStr s)) eqn:E; [|reflexivity].
  rewrite <- H. symmetry. apply existsb_exists. now exists s.
Qed.

(** The try statement never lets an exception out. *)
Lemma route_infra_command_catch B cmd w :
  route_infra_command B cmd w =
  match route_body B cmd w with
  | (w', Ret s) => (w', Ret s)
  | (w', Raise e) => (w', Ret ("Error executing command: " ++ exn_msg e))
  end.
Proof.
  unfold route_infra_command, catch.
  destruct (route_body B cmd w) as [w' [s|e]]; reflexivity.
Qed.

Lemma route_body_unknown_domain B cmd w :
  in_list (cmd_get "domain" cmd) domains = false ->
  route_body B cmd w = (w, Ret (not_supported cmd)).
Proof.
  intros H. unfold route_body.
  rewrite (in_list_false _ _ "kubernetes" H) by (simpl; auto).
  rewrite (in_list_false _ _ "prometheus" H) by (simpl; auto).
  rewrite (in_list_false _ _ "grafana" H) by (simpl; auto).
  rewrite (in_list_false _ _ "vmware" H) by (simpl; auto).
  rewrite (in_list_false _ _ "network" H) by (simpl; auto 6).
  reflexivity.
Qed.

Lemma route_body_vmware B cmd :
  cmd_get "domain" cmd = PStr "vmware" ->
  route_body B cmd =
  (returned <~ vmware_branch B cmd (cmd_get "action" cmd) (cmd_get "resource" cmd)
                 (cmd_get "name" cmd) ;;
   match returned with
   | Some s => ret s
   | None => ret (not_supported cmd)
   end).
Proof. intros H. unfold route_body. rewrite H. reflexivity. Qed.

Lemma route_body_kubernetes B cmd :
  cmd_get "domain" cmd = PStr "kubernetes" ->
  route_body B cmd =
  (returned <~ kubernetes_branch B cmd (cmd_get "action" cmd)
                 (cmd_get "resource" cmd) (cmd_get "name" cmd) (namespace_of cmd) ;;
   match returned with
   | Some s => ret s
   | None => ret (not_supported cmd)
   end).
Proof. intros H. unfold route_body. rewrite H. reflexivity. Qed.

Lemma route_body_grafana B cmd :
  cmd_get "domain" cmd = PStr "grafana" ->
  route_body B cmd =
  (returned <~ grafana_branch B (cmd_get "action" cmd) (cmd_get "resource" cmd)
                 (cmd_get "name" cmd) ;;
   match returned with
   | Some s => ret s
   | None => ret (not_supported cmd)
   end).
Proof. intros H. unfold route_body. rewrite H. reflexivity. Qed.

Lemma route_body_network B cmd :
  cmd_get "domain" cmd = PStr "network" ->
  route_body B cmd =
  (returned <~ network_branch B cmd (cmd_get "action" cmd) ;;
   match returned with
   | Some s => ret s
   | None => ret (not_supported cmd)
   end).
Proof. intros H. unfold route_body. rewrite H. reflexivity. Qed.

(** *** Client acquisition *)

Lemma get_esxi_cached B w n :
  esxi_client w = Some n -> get_esxi_mcp_client B w = (w, Ret tt).
Proof. intros H. unfold get_esxi_mcp_client. now rewrite H. Qed.

Lemma get_esxi_probe_ok B w r :
  esxi_client w = None ->
  http B (sent w) (Get VMware) = Ret r -> status_code r = 200%Z ->
  get_esxi_mcp_client B w = (with_esxi w (Some 1%Z), Ret tt).
Proof.
  intros Hc Hh Hs. unfold get_esxi_mcp_client. rewrite Hc.
  unfold mbind, esxi_start_server, catch, mbind, send. simpl.
  rewrite Hh, Hs. reflexivity.
Qed.

Lemma get_esxi_probe_failed B w :
  esxi_client w = None ->
  (forall r, http B (sent w) (Get VMware) = Ret r -> status_code r <> 200%Z) ->
  get_esxi_mcp_client B w
  = (with_esxi w None, Raise (Exn Exception "ESXi MCP server not accessible")).
Proof.
  intros Hc Hh. unfold get_esxi_mcp_client. rewrite Hc.
  unfold mbind, esxi_start_server, catch, mbind, send. simpl.
  destruct (http B (sent w) (Get VMware)) as [r|e] eqn:E; simpl.
  - specialize (Hh r eq_refl). apply Z.eqb_neq in Hh. rewrite Hh. reflexivity.
  - reflexivity.
Qed.

Lemma vmware_branch_info B cmd action resource name w :
  in_list action ["get"; "status"; "info"] = true ->
  in_list resource ["vms"; "vm"] = true ->
  vmware_branch B cmd action resource name w =
  match get_esxi_mcp_client B w with
  | (w', Ret _) => (w', Ret (Some vmware_unsupported))
  | (w', Raise e) => (w', Raise e)
  end.
Proof.
  intros Ha Hr.
  apply in_list_cases in Ha. destruct Ha as [a [Ha ->]].
  apply in_list_cases in Hr. destruct Hr as [r [Hr ->]].
  unfold vmware_branch, mbind.
  destruct (get_esxi_mcp_client B w) as [w' [[]|e]]; [|reflexivity].
  simpl in Ha, Hr.
  destruct Ha as [<-|[<-|[<-|[]]]]; destruct Hr as [<-|[<-|[]]]; reflexivity.
Qed.

(** C8, as amended.  For every command with domain ["vmware"], action
    ["get"], ["status"] or ["info"] and resource ["vm"] (or ["vms"]), once
    the ESXi client is there -- cached, or created with a liveness probe
    answered by 200 -- the router returns the capability-gap message that
    lists the supported operations; when the client cannot be created it
    returns the error of the acquisition.  In every case no [tools/call]
    goes out: the only request the router may send is the liveness [GET] of
    the client's creation. *)
Theorem vmware_info_unsupported (B : backend) (cmd : pydict unit) (w : world) :
  cmd_get "domain" cmd = PStr "vmware" ->
  in_list (cmd_get "action" cmd) ["get"; "status"; "info"] = true ->
  in_list (cmd_get "resource" cmd) ["vms"; "vm"] = true ->
  (forall n, esxi_client w = Some n ->
     route_infra_command B cmd w = (w, Ret vmware_unsupported))
  /\ (forall r, esxi_client w = None ->
        http B (sent w) (Get VMware) = Ret r -> status_code r = 200%Z ->
        route_infra_command B cmd w
        = (with_esxi w (Some 1%Z), Ret vmware_unsupported))
  /\ (esxi_client w = None ->
      (forall r, http B (sent w) (Get VMware) = Ret r -> status_code r <> 200%Z) ->
      route_infra_command B cmd w
      = (with_esxi w None,
         Ret "Error executing command: ESXi MCP server not accessible"))
  /\ (sent (fst (route_infra_command B cmd w)) = sent w
      \/ sent (fst (route_infra_command B cmd w)) = (sent w ++ [Get VMware])%list).
Proof.
  intros Hd Ha Hr.
  assert (E : route_infra_command B cmd w =
              match get_esxi_mcp_client B w with
              | (w', Ret _) => (w', Ret vmware_unsupported)
              | (w', Raise e) => (w', Ret ("Error executing command: " ++ exn_msg e))
              end).
  { rewrite route_infra_command_catch, route_body_vmware by assumption.
    unfold mbind. rewrite vmware_branch_info by assumption.
    destruct (get_esxi_mcp_client B w) as [w' [[]|e]]; reflexivity. }
  split; [|split; [|split]].
  - intros n Hn. rewrite E, (get_esxi_cached B w n Hn). reflexivity.
  - intros r Hc Hh Hs. rewrite E, (get_esxi_probe_ok B w r Hc Hh Hs). reflexivity.
  - intros Hc Hh. rewrite E, (get_esxi_probe_failed B w Hc Hh). reflexivity.
  - rewrite E. destruct (esxi_client w) as [n|] eqn:Hc.
    + left. rewrite (get_esxi_cached B w n Hc). reflexivity.
    + right. destruct (http B (sent w) (Get VMware)) as [r|e] eqn:Hh.
      * destruct (Z.eq_dec (status_code r) 200) as [Hs|Hs].
        -- rewrite (get_esxi_probe_ok B w r Hc Hh Hs). reflexivity.
        -- rewrite (get_esxi_probe_failed B w Hc).
           ++ reflexivity.
           ++ intros r' Hr'. rewrite Hh in Hr'. now injection Hr' as <-.
      * rewrite (get_esxi_probe_failed B w Hc).
        -- reflexivity.
        -- intros r' Hr'. rewrite Hh in Hr'. discriminate.
Qed.

(** *** Grafana *)










(** *** Kubernetes *)







Lemma kubernetes_health_ok B w r :
  http B (sent w) (Get Kubernetes) = Ret r -> status_code r = 200%Z ->
  kubernetes_health B w = (with_sent w [Get Kubernetes], Ret None).
Proof.
  intros Hh Hs. unfold kubernetes_health, catch, mbind, send.
  rewrite Hh, Hs. reflexivity.
Qed.



Lemma vmware_info_unsupported_witness :
  route_infra_command node_exporter_backend
    [("domain", PStr "vmware"); ("action", PStr "get"); ("resource", PStr "vm")]
    initial
  = (with_esxi initial (Some 1%Z), Ret vmware_unsupported).
Proof.
  destruct (vmware_info_unsupported node_exporter_backend
              [("domain", PStr "vmware"); ("action", PStr "get");
               ("resource", PStr "vm")] initial eq_refl eq_refl eq_refl)
    as [_ [H _]].
  apply (H (mkResponse 200 (Ret PNone) EmptyString)); reflexivity.
Defined.

(** C8 as stated fails: with no client cached and the ESXi server out of
    reach, the command [{domain: "vmware", action: "get", resource: "vm"}]
    is answered by the error of the client acquisition, after a liveness
    request was attempted. *)
Lemma vmware_info_needs_client :
  route_infra_command unreachable
    [("domain", PStr "vmware"); ("action", PStr "get"); ("resource", PStr "vm")]
    initial
  = (mkWorld [Get VMware] None None None,
     Ret "Error executing command: ESXi MCP server not accessible")
  /\ "Error executing command: ESXi MCP server not accessible" <> vmware_unsupported.
Proof. split; [reflexivity | discriminate]. Qed.

(** *** The router as a whole *)

Lemma in_list_none (x : value) (l : list string) (s : string) :
  in_list x l = false -> existsb (String.eqb s) l = true ->
  py_eq x (PStr s) = false.
Proof.
  intros H Hs. apply (in_list_false x l s H).
  apply existsb_exists in Hs. destruct Hs as [s' [Hin E]].
  apply String.eqb_eq in E. now subst s'.
Qed.

(** An action the branch does not test for falls out of its chain. *)
Lemma kubernetes_branch_untested B cmd action resource name namespace w r kube_resource :
  http B (sent w) (Get Kubernetes) = Ret r -> status_code r = 200%Z ->
  map_resource resource = Ret kube_resource ->
  in_list action kubernetes_actions = false ->
  kubernetes_branch B cmd action resource name namespace w
  = (with_sent w [Get Kubernetes], Ret None).
Proof.
  intros Hh Hs Hm H. unfold kubernetes_branch. unfold mbind at 1.
  rewrite (kubernetes_health_ok B w r Hh Hs).
  unfold mbind at 1, lift at 1. rewrite Hm.
  unfold in_list, kubernetes_client_call. cbn [existsb].
  rewrite !(fun s => in_list_none action kubernetes_actions s H) by reflexivity.
  reflexivity.
Qed.

Lemma grafana_branch_untested B action resource name w w1 :
  get_grafana_mcp_client B w = (w1, Ret tt) ->
  in_list action grafana_actions = false ->
  grafana_branch B action resource name w = (w1, Ret None).
Proof.
  intros Hc H. unfold grafana_branch. unfold mbind at 1. rewrite Hc.
  rewrite !(fun s => in_list_none action grafana_actions s H) by reflexivity.
  reflexivity.
Qed.

Lemma vmware_branch_untested B cmd action resource name w w1 :
  get_esxi_mcp_client B w = (w1, Ret tt) ->
  in_list action vmware_actions = false ->
  vmware_branch B cmd action resource name w = (w1, Ret None).
Proof.
  intros Hc H. unfold vmware_branch. unfold mbind at 1. rewrite Hc.
  unfold in_list. cbn [existsb].
  rewrite !(fun s => in_list_none action vmware_actions s H) by reflexivity.
  reflexivity.
Qed.

Lemma prometheus_branch_untested B cmd action query w w1 :
  get_prometheus_mcp_client B w = (w1, Ret tt) ->
  in_list action prometheus_actions = false ->
  py_in_dict action (prometheus_tools B) = Ret false ->
  prometheus_branch B cmd action query w
  = (w1, Ret (Some (unsupported_prometheus B action))).
Proof.
  intros Hc H Ht. unfold prometheus_branch. unfold mbind at 1. rewrite Hc.
  rewrite !(fun s => in_list_none action prometheus_actions s H) by reflexivity.
  unfold mbind at 1, lift at 1. rewrite Ht. reflexivity.
Qed.

Lemma route_body_prometheus B cmd :
  cmd_get "domain" cmd = PStr "prometheus" ->
  route_body B cmd =
  (returned <~ prometheus_branch B cmd (cmd_get "action" cmd) (cmd_get "query" cmd) ;;
   match returned with
   | Some s => ret s
   | None => ret (not_supported cmd)
   end).
Proof. intros H. unfold route_body. rewrite H. reflexivity. Qed.

(** The exception of a client that cannot be obtained leaves the branch,
    whatever the action. *)
Lemma route_client_failure B cmd w w' e :
  (cmd_get "domain" cmd = PStr "grafana"
   /\ get_grafana_mcp_client B w = (w', Raise e))
  \/ (cmd_get "domain" cmd = PStr "vmware"
      /\ get_esxi_mcp_client B w = (w', Raise e))
  \/ (cmd_get "domain" cmd = PStr "prometheus"
      /\ get_prometheus_mcp_client B w = (w', Raise e)) ->
  route_body B cmd w = (w', Raise e).
Proof.
  intros [[Hd Hc]|[[Hd Hc]|[Hd Hc]]].
  - rewrite route_body_grafana by exact Hd.
    unfold mbind at 1. unfold grafana_branch. unfold mbind at 1. now rewrite Hc.
  - rewrite route_body_vmware by exact Hd.
    unfold mbind at 1. unfold vmware_branch. unfold mbind at 1. now rewrite Hc.
  - rewrite route_body_prometheus by exact Hd.
    unfold mbind at 1. unfold prometheus_branch. unfold mbind at 1. now rewrite Hc.
Qed.

(** C2, as amended.  For every command the router returns a string and
    raises nothing.  An exception that leaves the body of the [try]
    statement is converted to ["Error executing command: "] followed by its
    message: so it is with the exception of a Grafana, ESXi or Prometheus
    client that cannot be obtained, whatever the action, and with the
    [TypeError] of the network scan (exceptions caught inside a branch or a
    client end in that handler's own string).  A command whose domain is
    none of the five yields ["Command not supported: "] followed by the
    command, and so does a command whose action its branch does not test
    for: in the [network] branch always, in the [kubernetes] branch once the
    health check has passed and the resource has been mapped, in the
    [grafana] and [vmware] branches once the client is there.  The
    [prometheus] branch answers an action that it does not test for and that
    is no key of its tool table with its own ["Error: Unsupported Prometheus
    action: ..."] string. *)
Theorem route_infra_command_never_raises
    (B : backend) (cmd : pydict unit) (w : world) :
  let domain := cmd_get "domain" cmd in
  let action := cmd_get "action" cmd in
  (exists w' s, route_infra_command B cmd w = (w', Ret s))
  /\ (forall w' e, route_body B cmd w = (w', Raise e) ->
        route_infra_command B cmd w
        = (w', Ret ("Error executing command: " ++ exn_msg e)))
  /\ (forall w' e,
        (domain = PStr "grafana" /\ get_grafana_mcp_client B w = (w', Raise e))
        \/ (domain = PStr "vmware" /\ get_esxi_mcp_client B w = (w', Raise e))
        \/ (domain = PStr "prometheus"
            /\ get_prometheus_mcp_client B w = (w', Raise e)) ->
        route_infra_command B cmd w
        = (w', Ret ("Error executing command: " ++ exn_msg e)))
  /\ (domain = PStr "network" -> action = PStr "scan" ->
        route_infra_command B cmd w
        = (w, Ret ("Error executing command: " ++ tool_call_error B)))
  /\ (in_list domain domains = false ->
        route_infra_command B cmd w = (w, Ret (not_supported cmd)))
  /\ (domain = PStr "network" -> py_eq action (PStr "scan") = false ->
        route_infra_command B cmd w = (w, Ret (not_supported cmd)))
  /\ (domain = PStr "kubernetes" ->
      in_list action kubernetes_actions = false ->
      forall r kube_resource,
        http B (sent w) (Get Kubernetes) = Ret r -> status_code r = 200%Z ->
        map_resource (cmd_get "resource" cmd) = Ret kube_resource ->
        route_infra_command B cmd w
        = (with_sent w [Get Kubernetes], Ret (not_supported cmd)))
  /\ (domain = PStr "grafana" ->
      in_list action grafana_actions = false ->
      forall w', get_grafana_mcp_client B w = (w', Ret tt) ->
        route_infra_command B cmd w = (w', Ret (not_supported cmd)))
  /\ (domain = PStr "vmware" ->
      in_list action vmware_actions = false ->
      forall w', get_esxi_mcp_client B w = (w', Ret tt) ->
        route_infra_command B cmd w = (w', Ret (not_supported cmd)))
  /\ (domain = PStr "prometheus" ->
      in_list action prometheus_actions = false ->
      py_in_dict action (prometheus_tools B) = Ret false ->
      forall w', get_prometheus_mcp_client B w = (w', Ret tt) ->
        route_infra_command B cmd w
        = (w', Ret (unsupported_prometheus B action))).
Proof.
  intros domain action. subst domain action.
  repeat match goal with |- _ /\ _ => split end.
  - rewrite route_infra_command_catch.
    destruct (route_body B cmd w) as [w' [s|e]]; eauto.
  - intros w' e H. now rewrite route_infra_command_catch, H.
  - intros w' e H.
    now rewrite route_infra_command_catch, (route_client_failure B cmd w w' e H).
  - intros Hd Ha. rewrite route_infra_command_catch, route_body_network by assumption.
    unfold mbind, network_branch. rewrite Ha. reflexivity.
  - intros H. now rewrite route_infra_command_catch, route_body_unknown_domain.
  - intros Hd Ha. rewrite route_infra_command_catch, route_body_network by assumption.
    unfold mbind, network_branch. now rewrite Ha.
  - intros Hd Ha r kube_resource Hh Hs Hm.
    rewrite route_infra_command_catch, route_body_kubernetes by assumption.
    unfold mbind.
    now rewrite (kubernetes_branch_untested B cmd _ _ _ _ w r kube_resource Hh Hs Hm Ha).
  - intros Hd Ha w' Hc.
    rewrite route_infra_command_catch, route_body_grafana by assumption.
    unfold mbind. now rewrite (grafana_branch_untested B _ _ _ w w' Hc Ha).
  - intros Hd Ha w' Hc.
    rewrite route_infra_command_catch, route_body_vmware by assumption.
    unfold mbind. now rewrite (vmware_branch_untested B cmd _ _ _ w w' Hc Ha).
  - intros Hd Ha Ht w' Hc.
    rewrite route_infra_command_catch, route_body_prometheus by assumption.
    unfold mbind.
    now rewrite (prometheus_branch_untested B cmd _ _ w w' Hc Ha Ht).
Qed.

(** The theorem at five commands: an unknown domain, a vmware listing with
    the server out of reach, a network scan, and an action that the
    kubernetes and the prometheus branch do not test for. *)
Lemma route_infra_command_never_raises_witness :
  route_infra_command unreachable
    [("domain", PStr "dns"); ("action", PStr "get")] initial
  = (initial, Ret (not_supported [("domain", PStr "dns"); ("action", PStr "get")]))
  /\ route_infra_command unreachable
       [("domain", PStr "vmware"); ("action", PStr "list"); ("resource", PStr "vms")]
       initial
     = (mkWorld [Get VMware] None None None,
        Ret "Error executing command: ESXi MCP server not accessible")
  /\ route_infra_command node_exporter_backend
       [("domain", PStr "network"); ("action", PStr "scan")] initial
     = (initial,
        Ret "Error executing command: 'StructuredTool' object is not callable")
  /\ route_infra_command node_exporter_backend
       [("domain", PStr "kubernetes"); ("action", PStr "drain");
        ("resource", PStr "node")] initial
     = (mkWorld [Get Kubernetes] None None None,
        Ret (not_supported [("domain", PStr "kubernetes"); ("action", PStr "drain");
                            ("resource", PStr "node")]))
  /\ route_infra_command node_exporter_backend
       [("domain", PStr "prometheus"); ("action", PStr "alerts")] initial
     = (mkWorld [Get Prometheus] None None (Some 1%Z),
        Ret "Error: Unsupported Prometheus action: alerts. Available actions: []").
Proof.
  split; [|split; [|split; [|split]]].
  - destruct (route_infra_command_never_raises unreachable
                [("domain", PStr "dns"); ("action", PStr "get")] initial)
      as [_ [_ [_ [_ [H _]]]]].
    apply H. reflexivity.
  - destruct (route_infra_command_never_raises unreachable
                [("domain", PStr "vmware"); ("action", PStr "list");
                 ("resource", PStr "vms")] initial)
      as [_ [_ [H _]]].
    apply (H (mkWorld [Get VMware] None None None)
             (Exn Exception "ESXi MCP server not accessible")).
    right. left. split; reflexivity.
  - destruct (route_infra_command_never_raises node_exporter_backend
                [("domain", PStr "network"); ("action", PStr "scan")] initial)
      as [_ [_ [_ [H _]]]].
    apply H; reflexivity.
  - destruct (route_infra_command_never_raises node_exporter_backend
                [("domain", PStr "kubernetes"); ("action", PStr "drain");
                 ("resource", PStr "node")] initial)
      as [_ [_ [_ [_ [_ [_ [H _]]]]]]].
    apply (H eq_refl eq_refl (mkResponse 200 (Ret PNone) EmptyString) (PStr "nodes"));
      reflexivity.
  - destruct (route_infra_command_never_raises node_exporter_backend
                [("domain", PStr "prometheus"); ("action", PStr "alerts")] initial)
      as [_ [_ [_ [_ [_ [_ [_ [_ [_ H]]]]]]]]].
    apply (H eq_refl eq_refl eq_refl (mkWorld [Get Prometheus] None None (Some 1%Z))).
    reflexivity.
Defined.

(** C2 as stated fails: the transport exception raised by the health probe
    inside the kubernetes branch is converted by the probe's own handler to
    a string that does not begin with ["Error executing command: "]. *)
Lemma route_infra_command_other_error_prefix :
  http unreachable [] (Get Kubernetes)
  = Raise (Exn Exception "All connection attempts failed")
  /\ route_infra_command unreachable
       [("domain", PStr "kubernetes"); ("action", PStr "list");
        ("resource", PStr "pods")] initial
     = (mkWorld [Get Kubernetes] None None None,
        Ret "Error: Kubernetes MCP server not accessible: All connection attempts failed")
  /\ String.prefix "Error executing command: "
       "Error: Kubernetes MCP server not accessible: All connection attempts failed"
     = false.
Proof. repeat split. Qed.

(** Nor does every untested action end in ["Command not supported"]: the
    prometheus branch has a string of its own. *)
Lemma route_prometheus_unsupported_action :
  in_list (PStr "alerts" : value) prometheus_actions = false
  /\ route_infra_command node_exporter_backend
       [("domain", PStr "prometheus"); ("action", PStr "alerts")]
       (mkWorld [] None None (Some 1%Z))
     = (mkWorld [] None None (Some 1%Z),
        Ret "Error: Unsupported Prometheus action: alerts. Available actions: []").
Proof. split; reflexivity. Qed.






(** Through [infra_command] an omitted namespace arrives as [None], which is
    not ["default"]: it is forwarded, as null. *)
Lemma infra_command_forwards_null_namespace :
  map call_arguments
    (sent (fst (infra_command node_exporter_backend (PStr "kubernetes")
                  (PStr "list") (PStr "pods") PNone PNone PNone initial)))
  = [None; Some ("kubectl_get",
                 dict [("resourceType", PStr "pods"); ("namespace", PNone)])].
Proof. reflexivity. Qed.





(** A title that is [null] ends the search with the exception of
    [None.lower()], which leaves the branch: the name matches no title, and
    the answer is not the not-found string. *)
Lemma grafana_get_null_title :
  find (title_matches "node exporter") [dict [("title", PNone); ("uid", PStr "abc123")]]
  = None
  /\ snd (route_infra_command untitled_backend
            (get_dashboard_cmd "node exporter") initial)
     = Ret "Error executing command: 'NoneType' object has no attribute 'lower'".
Proof. split; reflexivity. Qed.

(** The [$] of the pattern also matches before a final newline: such a name
    is fetched as a UID, newline included, without any listing. *)
Lemma grafana_get_trailing_newline :
  looks_like_uid ("abc123" ++ String "010"%char EmptyString) = true
  /\ map call_arguments
       (sent (fst (route_infra_command node_exporter_backend
                     (get_dashboard_cmd ("abc123" ++ String "010"%char EmptyString))
                     initial)))
     = [None;
        Some ("get_dashboard",
              dict [("uid", PStr ("abc123" ++ String "010"%char EmptyString))])].
Proof. split; reflexivity. Qed.

End EngineProps.

Module WorkerProps.
Import Py PyProps Text Json Worker.
Local Open Scope string_scope.

(** The loop stops on [KeyboardInterrupt] only. *)
Lemma worker_turn_goes_on rejected tools p st :
  p <> Interrupt -> snd (worker_turn rejected tools p st) = true.
Proof.
  destruct p; simpl; try reflexivity.
  - now destruct (json_loads task_json).
  - intros H. now contradiction H.
Qed.

Lemma worker_loop_step rejected tools p pops st :
  p <> Interrupt ->
  worker_loop rejected tools (p :: pops) st
  = worker_loop rejected tools pops (fst (worker_turn rejected tools p st)).
Proof.
  intros H. simpl. pose proof (worker_turn_goes_on rejected tools p st H) as E.
  destruct (worker_turn rejected tools p st) as [st' b]. simpl in E. now subst b.
Qed.

(** A tool name that is no key of the table: the row is made of text, the
    table takes it. *)
Lemma process_task_unknown rejected tools t d st name :
  dict_get_default "tool" PNone d = PStr name ->
  existsb (String.eqb name) TOOL_MAP = false ->
  process_task rejected tools (PDict t d) st
  = (mkState (job_log st
              ++ [mkJob (PStr name)
                        (PStr (py_str (dict_get_default "params" (PDict tt []) d)))
                        (PStr "error")
                        (PStr ("Unknown tool: " ++ name))])%list
             (invoked st),
     Ret tt).
Proof.
  intros Ht Hn. unfold process_task, wbind, lift. simpl. rewrite Ht.
  cbn [tool_lookup]. rewrite Hn. reflexivity.
Qed.

(** A message whose [tool] is no text, or that has none: the table does
    not take the row, nothing is logged, and the loop goes on. *)
Lemma worker_turn_tool_not_text rejected tools task_json t d st :
  json_loads task_json = Ret (PDict t d) ->
  tool_lookup (dict_get_default "tool" PNone d) = Ret None ->
  is_str (dict_get_default "tool" PNone d) = false ->
  worker_turn rejected tools (Message task_json) st = (st, true).
Proof.
  intros Hj Hl Hs. cbn [worker_turn]. rewrite Hj.
  unfold process_task, wbind, lift. simpl. rewrite Hl.
  unfold log_job, storable. cbn [job_action]. rewrite Hs. reflexivity.
Qed.

Lemma process_task_handler_fails rejected tools t d st name kwargs e tp :
  dict_get_default "tool" PNone d = PStr name ->
  tool_lookup (PStr name) = Ret (Some name) ->
  dict_get_default "params" (PDict tt []) d = PDict tp kwargs ->
  tools (invoked st) name kwargs = Raise e ->
  process_task rejected tools (PDict t d) st
  = (mkState (job_log st
              ++ [mkJob (PStr name) (PStr (py_repr (PDict tp kwargs))) (PStr "error")
                        (PStr ("Error executing " ++ name ++ ": " ++ exn_msg e))])%list
             (invoked st ++ [(name, kwargs)])%list,
     Ret tt).
Proof.
  intros Ht Hl Hp Hr. unfold process_task, wbind, lift. simpl.
  rewrite Ht, Hl, Hp. unfold catch, call_tool, wbind. simpl. now rewrite Hr.
Qed.

(** A payload that begins no JSON value does not decode. *)
Lemma no_json_raises (payload : string) :
  no_json payload = true -> json_loads payload = Raise decode_error.
Proof.
  unfold no_json, json_loads. intros H.
  replace (2 * String.length payload + 2) with (S (2 * String.length payload + 1))
    by lia.
  destruct (skip_ws payload) as [|c rest]; [reflexivity|].
  apply negb_true_iff in H. unfold begins_value in H.
  apply orb_false_iff in H. destruct H as [Hd H].
  cbn [existsb] in H.
  repeat (apply orb_false_iff in H; destruct H as [? H]).
  cbn [parse_value]. unfold parse_number, parse_int.
  destruct (Ascii.eqb c "0") eqn:E0.
  - apply Ascii.eqb_eq in E0. subst c. discriminate Hd.
  - rewrite Hd.
    repeat match goal with
           | E : Ascii.eqb c _ = false |- _ => rewrite ?E; clear E
           end.
    reflexivity.
Qed.

(** C6.  When the worker dequeues an action descriptor whose tool name is
    not a key of the tool table, it appends one job log row with status
    ["error"], invokes no handler, and the loop goes on with the next
    messages.  No message ends the loop, whatever it holds: not an unknown
    tool, not a payload that is no JSON -- which changes nothing --, not a
    handler that raises, which yields one row with status ["error"]. *)
Theorem unknown_tool_logged_loop_continues
    (rejected : job -> exn) (tools : handlers) (st : state) (pops : list pop) :
  (forall task_json t d name,
     json_loads task_json = Ret (PDict t d) ->
     dict_get_default "tool" PNone d = PStr name ->
     existsb (String.eqb name) TOOL_MAP = false ->
     exists row,
       worker_turn rejected tools (Message task_json) st
       = (mkState (job_log st ++ [row])%list (invoked st), true)
       /\ job_status row = PStr "error"
       /\ job_action row = PStr name
       /\ worker_loop rejected tools (Message task_json :: pops) st
          = worker_loop rejected tools pops
              (mkState (job_log st ++ [row])%list (invoked st)))
  /\ (forall task_json,
        snd (worker_turn rejected tools (Message task_json) st) = true
        /\ worker_loop rejected tools (Message task_json :: pops) st
           = worker_loop rejected tools pops
               (fst (worker_turn rejected tools (Message task_json) st)))
  /\ (forall task_json,
        no_json task_json = true ->
        worker_turn rejected tools (Message task_json) st = (st, true))
  /\ (forall task_json t d name tp kwargs e,
        json_loads task_json = Ret (PDict t d) ->
        dict_get_default "tool" PNone d = PStr name ->
        tool_lookup (PStr name) = Ret (Some name) ->
        dict_get_default "params" (PDict tt []) d = PDict tp kwargs ->
        tools (invoked st) name kwargs = Raise e ->
        exists row,
          worker_turn rejected tools (Message task_json) st
          = (mkState (job_log st ++ [row])%list (invoked st ++ [(name, kwargs)])%list,
             true)
          /\ job_status row = PStr "error"
          /\ worker_loop rejected tools (Message task_json :: pops) st
             = worker_loop rejected tools pops
                 (mkState (job_log st ++ [row])%list
                          (invoked st ++ [(name, kwargs)])%list)).
Proof.
  split; [|split; [|split]].
  - intros task_json t d name Hj Ht Hn.
    eexists. split; [|split; [|split]].
    + simpl. rewrite Hj, (process_task_unknown rejected tools t d st name Ht Hn).
      reflexivity.
    + reflexivity.
    + reflexivity.
    + rewrite worker_loop_step by discriminate. simpl.
      now rewrite Hj, (process_task_unknown rejected tools t d st name Ht Hn).
  - intros task_json. split.
    + apply worker_turn_goes_on. discriminate.
    + apply worker_loop_step. discriminate.
  - intros task_json Hj. simpl. now rewrite (no_json_raises task_json Hj).
  - intros task_json t d name tp kwargs e Hj Ht Hl Hp Hr.
    eexists. split; [|split].
    + simpl. rewrite Hj,
        (process_task_handler_fails rejected tools t d st name kwargs e tp Ht Hl Hp Hr).
      reflexivity.
    + reflexivity.
    + rewrite worker_loop_step by discriminate. simpl.
      now rewrite Hj,
        (process_task_handler_fails rejected tools t d st name kwargs e tp Ht Hl Hp Hr).
Qed.

(** An unknown tool, then a payload that is no JSON, then a handler that
    raises, then a task that succeeds: three rows, the last one a success,
    and the loop is still running. *)
Lemma unknown_tool_logged_loop_continues_witness :
  (exists row,
     worker_turn sample_rejected sample_tools
       (Message (task "mcp_reboot_host" [])) empty_state
     = (mkState [row] [], true)
     /\ job_status row = PStr "error")
  /\ worker_turn sample_rejected sample_tools (Message "restart web-1") empty_state
     = (empty_state, true)
  /\ map job_status
       (job_log (fst (worker_loop sample_rejected sample_tools
                        [Message (task "mcp_reboot_host" []);
                         Message "restart web-1";
                         Message (task "mcp_restart_vm" [("vm_name", PStr "db-01")]);
                         Message (task "mcp_restart_pod" [("pod_name", PStr "web-1")])]
                        empty_state)))
     = [PStr "error"; PStr "error"; PStr "success"]
  /\ snd (worker_loop sample_rejected sample_tools
            [Message (task "mcp_reboot_host" []);
             Message "restart web-1";
             Message (task "mcp_restart_vm" [("vm_name", PStr "db-01")]);
             Message (task "mcp_restart_pod" [("pod_name", PStr "web-1")])]
            empty_state) = true.
Proof.
  destruct (unknown_tool_logged_loop_continues sample_rejected sample_tools
              empty_state [])
    as [Hunknown [_ [Hbad _]]].
  split; [|split; [|split]].
  - destruct (Hunknown (task "mcp_reboot_host" []) tt
                [("tool", PStr "mcp_reboot_host"); ("params", PDict tt []);
                 ("policy_name", PStr "sample")] "mcp_reboot_host"
                eq_refl eq_refl eq_refl)
      as [row [E [Hs _]]].
    exists row. split; [exact E | exact Hs].
  - apply Hbad. reflexivity.
  - reflexivity.
  - reflexivity.
Defined.

End WorkerProps.

Module VerifyProps.
Import Py PyProps Text Json JsonProps Verify.
Local Open Scope string_scope.

(** ** The fenced pattern *)

Lemma drop_prefix_append (p s : string) : drop_prefix p (p ++ s) = s.
Proof.
  unfold drop_prefix. rewrite substring_skip, length_append.
  replace (String.length p + String.length s - String.length p)
    with (String.length s) by lia.
  apply substring_whole.
Qed.

Lemma match_here_lit text r s inside group :
  match_here (Lit text :: r) (text ++ s) inside group
  = match_here r s inside (if inside then group ++ text else group).
Proof. simpl. now rewrite prefix_append, drop_prefix_append. Qed.

Lemma match_here_lit_unfold text r s inside group :
  match_here (Lit text :: r) s inside group
  = if prefix text s
    then match_here r (drop_prefix text s) inside
           (if inside then group ++ text else group)
    else None.
Proof. reflexivity. Qed.

Lemma match_here_close r s inside group :
  match_here (GroupClose :: r) s inside group = match_here r s false group.
Proof. reflexivity. Qed.

Lemma match_here_open r s inside group :
  match_here (GroupOpen :: r) s inside group = match_here r s true EmptyString.
Proof. reflexivity. Qed.

Lemma match_here_star k r s inside group :
  match_here (Star k :: r) s inside group
  = match s with
    | String c s' =>
        if in_class k c then
          match match_here (Star k :: r) s' inside
                  (if inside then group ++ String c EmptyString else group) with
          | Some g => Some g
          | None => match_here r s inside group
          end
        else match_here r s inside group
    | EmptyString => match_here r s inside group
    end.
Proof. destruct s; reflexivity. Qed.

Lemma match_here_lazy k r s inside group :
  match_here (LazyStar k :: r) s inside group
  = match match_here r s inside group with
    | Some g => Some g
    | None =>
        match s with
        | String c s' =>
            if in_class k c
            then match_here (LazyStar k :: r) s' inside
                   (if inside then group ++ String c EmptyString else group)
            else None
        | EmptyString => None
        end
    end.
Proof. destruct s; reflexivity. Qed.

Lemma no_backtick_cons c s :
  no_backtick (String c s) = true -> c <> "`"%char /\ no_backtick s = true.
Proof.
  unfold no_backtick. simpl. intros H. apply andb_true_iff in H.
  destruct H as [Hc Hs]. split; [|exact Hs].
  apply negb_true_iff in Hc. now apply Ascii.eqb_neq.
Qed.

Lemma no_backtick_append a b :
  no_backtick (a ++ b) = no_backtick a && no_backtick b.
Proof.
  unfold no_backtick. induction a as [|c a IH]; simpl; [reflexivity|].
  now rewrite IH, andb_assoc.
Qed.

Lemma lit_fails_at text c s r inside group :
  String.prefix text (String c s) = false ->
  match_here (Lit text :: r) (String c s) inside group = None.
Proof. intros H. rewrite match_here_lit_unfold. now rewrite H. Qed.

(** A literal that begins with a backtick does not match before another
    character. *)
Lemma fence_fails_at c s r inside group :
  c <> "`"%char -> match_here (Lit fence :: r) (String c s) inside group = None.
Proof.
  intros H. apply lit_fails_at. unfold fence. cbn [prefix].
  destruct (ascii_dec "`" c) as [E|_]; [now contradiction H | reflexivity].
Qed.

(** White space then a fence cannot be found before the closing brace of a
    text without backtick. *)
Lemma spaces_fence_fails x tail inside group :
  no_backtick x = true ->
  match_here [Star Space; Lit fence] (x ++ String "}" tail) inside group = None.
Proof.
  revert group. induction x as [|c x IH]; intros group H.
  - reflexivity.
  - apply no_backtick_cons in H. destruct H as [Hc Hx].
    rewrite match_here_star. cbn [append].
    rewrite IH by exact Hx. rewrite fence_fails_at by exact Hc.
    now destruct (in_class Space c).
Qed.

Lemma closing_fails_inside c x tail group :
  no_backtick x = true ->
  match_here closing (String c (x ++ String "}" tail)) true group = None.
Proof.
  intros H. unfold closing.
  destruct (ascii_dec "}" c) as [E|N].
  - subst c.
    change (String "}" (x ++ String "}" tail)) with ("}" ++ x ++ String "}" tail).
    rewrite match_here_lit, match_here_close.
    now apply spaces_fence_fails.
  - apply lit_fails_at. cbn [prefix].
    destruct (ascii_dec "}" c) as [E|_]; [now contradiction N | reflexivity].
Qed.

Lemma fence_after_newline after group :
  match_here [Star Space; Lit fence] (newline ++ fence ++ after) false group
  = Some group.
Proof.
  rewrite match_here_star. unfold newline. cbn [append].
  change (in_class Space "010") with true. cbv iota.
  rewrite match_here_star. unfold fence at 1. cbn [append].
  change (in_class Space "`") with false. cbv iota.
  change (String "`" (String "`" (String "`" after))) with (fence ++ after).
  now rewrite match_here_lit.
Qed.

Lemma closing_matches after group :
  match_here closing ("}" ++ newline ++ fence ++ after) true group
  = Some (group ++ "}").
Proof.
  unfold closing. rewrite match_here_lit, match_here_close.
  apply fence_after_newline.
Qed.

(** The lazy star stops at the last brace before the closing fence. *)
Lemma lazy_reaches_last_brace body after group :
  no_backtick body = true ->
  match_here (LazyStar AnyChar :: closing)
             (body ++ "}" ++ newline ++ fence ++ after) true group
  = Some (group ++ body ++ "}").
Proof.
  revert group. induction body as [|c body IH]; intros group H.
  - rewrite match_here_lazy. cbn [append].
    change (String "}" (newline ++ fence ++ after))
      with ("}" ++ newline ++ fence ++ after).
    now rewrite closing_matches.
  - apply no_backtick_cons in H. destruct H as [_ Hb].
    rewrite match_here_lazy.
    change ((String c body) ++ "}" ++ newline ++ fence ++ after)
      with (String c (body ++ String "}" (newline ++ fence ++ after))).
    rewrite closing_fails_inside by exact Hb.
    cbn [in_class]. cbv iota.
    change (String "}" (newline ++ fence ++ after))
      with ("}" ++ newline ++ fence ++ after).
    rewrite IH by exact Hb.
    now rewrite append_assoc.
Qed.

Lemma star_stops k r c s inside group :
  in_class k c = false ->
  match_here (Star k :: r) (String c s) inside group
  = match_here r (String c s) inside group.
Proof. intros H. rewrite match_here_star. now rewrite H. Qed.

Lemma fenced_json_matches body after :
  no_backtick body = true ->
  match_here fenced_json
    (fence ++ "json" ++ newline ++ "{" ++ body ++ "}" ++ newline ++ fence ++ after)
    false EmptyString
  = Some ("{" ++ body ++ "}").
Proof.
  intros H. unfold fenced_json.
  rewrite match_here_lit.
  remember (body ++ "}" ++ newline ++ fence ++ after) as tail eqn:Et.
  change ("json" ++ newline ++ "{" ++ tail)
    with (String "j" ("son" ++ newline ++ "{" ++ tail)).
  rewrite star_stops by reflexivity.
  change (String "j" ("son" ++ newline ++ "{" ++ tail))
    with ("json" ++ newline ++ "{" ++ tail).
  rewrite match_here_lit.
  rewrite match_here_star. unfold newline at 1. cbn [append].
  change (in_class Space "010") with true. cbv iota.
  rewrite star_stops by reflexivity.
  rewrite match_here_open.
  change (String "{" tail) with ("{" ++ tail).
  rewrite match_here_lit. subst tail.
  fold closing.
  rewrite lazy_reaches_last_brace by exact H.
  reflexivity.
Qed.

(** Text without backtick before the fence is skipped. *)
Lemma search_skips before r s :
  no_backtick before = true ->
  search (Lit fence :: r) (before ++ fence ++ s)
  = search (Lit fence :: r) (fence ++ s).
Proof.
  induction before as [|c before IH]; intros H; [reflexivity|].
  apply no_backtick_cons in H. destruct H as [Hc Hb].
  cbn [append search].
  rewrite fence_fails_at by exact Hc.
  now apply IH.
Qed.

Lemma search_fenced_json_skips before s :
  no_backtick before = true ->
  search fenced_json (before ++ fence ++ s) = search fenced_json (fence ++ s).
Proof. apply search_skips. Qed.

Lemma search_here r s g :
  match_here r s false EmptyString = Some g -> search r s = Some g.
Proof. intros H. destruct s; simpl; now rewrite H. Qed.

(** ** Text without backtick *)

Lemma no_backtick_escape_char (c : ascii) :
  no_backtick (json_escape_char c) = negb (Ascii.eqb c "`").
Proof. destruct c as [[] [] [] [] [] [] [] []]; reflexivity. Qed.

Lemma no_backtick_escape (s : string) :
  no_backtick s = true -> no_backtick (json_escape s) = true.
Proof.
  induction s as [|c s IH]; intros H; [reflexivity|].
  cbn [json_escape]. rewrite no_backtick_append, no_backtick_escape_char.
  unfold no_backtick in H. cbn [string_forall] in H.
  apply andb_true_iff in H. destruct H as [Hc Hs].
  rewrite Hc. now apply IH.
Qed.

Lemma no_backtick_json_string (s : string) :
  no_backtick s = true -> no_backtick (json_string s) = true.
Proof.
  intros H. unfold json_string.
  change (String dq (json_escape s ++ String dq EmptyString))
    with (String dq EmptyString ++ json_escape s ++ String dq EmptyString).
  rewrite !no_backtick_append, no_backtick_escape by exact H.
  reflexivity.
Qed.

Lemma no_backtick_join (sep : string) (pieces : list string) :
  no_backtick sep = true ->
  Forall (fun p => no_backtick p = true) pieces ->
  no_backtick (join sep pieces) = true.
Proof.
  intros Hsep H. induction H as [|p pieces Hp H IH]; [reflexivity|].
  destruct pieces as [|q pieces]; [exact Hp|].
  change (join sep (p :: q :: pieces)) with (p ++ sep ++ join sep (q :: pieces)).
  now rewrite !no_backtick_append, Hp, Hsep, IH.
Qed.

Lemma no_backtick_dumps (v : value) :
  textual v = true -> backtick_free v = true -> no_backtick (json_dumps v) = true.
Proof.
  induction v as [|b|z|s|t l IH|t d IH] using pyval_nested_ind; intros Ht Hb.
  - reflexivity.
  - now destruct b.
  - discriminate Ht.
  - now apply no_backtick_json_string.
  - cbn [json_dumps]. rewrite !no_backtick_append.
    rewrite no_backtick_join; [reflexivity | reflexivity |].
    cbn [textual backtick_free] in Ht, Hb.
    rewrite forallb_forall in Ht, Hb. rewrite Forall_forall in IH.
    apply Forall_forall. intros p Hp. apply in_map_iff in Hp.
    destruct Hp as [x [<- Hx]]. now apply IH; [|apply Ht|apply Hb].
  - cbn [json_dumps]. rewrite !no_backtick_append.
    rewrite no_backtick_join; [reflexivity | reflexivity |].
    cbn [textual backtick_free] in Ht, Hb.
    apply andb_true_iff in Ht. destruct Ht as [_ Ht].
    rewrite forallb_forall in Ht, Hb. rewrite Forall_forall in IH.
    apply Forall_forall. intros p Hp. apply in_map_iff in Hp.
    destruct Hp as [[k x] [<- Hx]]. cbn [fst snd].
    specialize (Hb _ Hx). cbn [fst snd] in Hb.
    apply andb_true_iff in Hb. destruct Hb as [Hk Hbx].
    rewrite !no_backtick_append, no_backtick_json_string by exact Hk.
    cbn [andb]. pose proof (IH _ Hx (Ht _ Hx) Hbx) as Hv. cbn [snd] in Hv.
    now rewrite Hv.
Qed.

(** ** The round trip through [verification_node] *)

Lemma last_message_app (history : list message) (m : message) :
  last_message (history ++ [m])%list = Some m.
Proof.
  induction history as [|x history IH]; [reflexivity|].
  cbn [List.app last_message]. rewrite IH.
  now destruct (history ++ [m])%list eqn:E; [destruct history; discriminate E|].
Qed.

End VerifyProps.

(** ** [json.loads] after [json.dumps], numbers included *)

Module JsonNumberProps.
Import Py PyProps Text Json JsonProps.
Local Open Scope string_scope.

(** ** Numbers *)

Lemma ends_number_stops (rest : string) :
  ends_number rest = true ->
  starts_with_digit rest = false /\ float_follows rest = false.
Proof.
  destruct rest as [|c r]; [auto|]. cbn [ends_number starts_with_digit float_follows].
  intros H. repeat (apply andb_true_iff in H; destruct H as [H ?]).
  repeat match goal with
         | H : negb _ = true |- _ => apply negb_true_iff in H
         end.
  split; [assumption|].
  repeat match goal with H : _ = false |- _ => rewrite H end. reflexivity.
Qed.

Lemma take_digits_stop (rest : string) (acc : Z) :
  starts_with_digit rest = false -> take_digits rest acc = (acc, rest).
Proof. destruct rest as [|c r]; cbn; [reflexivity|]. now intros ->. Qed.

(** The value of the digit at hand. *)
Ltac digit_value :=
  match goal with
  | |- context [Z.of_nat (nat_of_ascii ?c - 48)] =>
      let v := eval vm_compute in (Z.of_nat (nat_of_ascii c - 48)) in
      change (Z.of_nat (nat_of_ascii c - 48)) with v
  end.

Lemma take_digits_acc (d : Decimal.uint) :
  forall (p : positive) (rest : string),
    starts_with_digit rest = false ->
    take_digits (NilEmpty.string_of_uint d ++ rest) (Z.pos p)
    = (Z.pos (Pos.of_uint_acc d p), rest).
Proof.
  induction d; intros p rest Hr; cbn [NilEmpty.string_of_uint append Pos.of_uint_acc];
    try (now apply take_digits_stop);
    cbn [take_digits];
    match goal with
    | |- context [is_digit ?c] => change (is_digit c) with true
    end; cbv iota; digit_value;
    match goal with
    | |- take_digits _ ?a = (Z.pos (Pos.of_uint_acc _ ?q), _) =>
        replace a with (Z.pos q) by lia
    end; now apply IHd.
Qed.

Lemma unorm_D0_inv (l l' : Decimal.uint) :
  Decimal.unorm l = Decimal.D0 l' -> l' = Decimal.Nil.
Proof.
  induction l; cbn [Decimal.unorm]; intros H; try discriminate H; auto.
  now injection H as <-.
Qed.

Lemma to_uint_head (p : positive) :
  match Pos.to_uint p with
  | Decimal.Nil | Decimal.D0 _ => False
  | _ => True
  end.
Proof.
  pose proof (DecimalPos.Unsigned.to_of (Pos.to_uint p)) as H.
  rewrite DecimalPos.Unsigned.of_to in H. cbn [N.to_uint] in H.
  destruct (Pos.to_uint p) eqn:E; auto.
  - now apply (DecimalPos.Unsigned.to_uint_nonnil p).
  - symmetry in H. rewrite DecimalFacts.unorm_D0 in H.
    pose proof (unorm_D0_inv _ _ H) as ->.
    now apply (DecimalPos.Unsigned.to_uint_nonzero p).
Qed.

(** The digits of a positive number decode to it. *)
Lemma parse_int_digits (p : positive) (rest : string) :
  starts_with_digit rest = false ->
  exists c s,
    NilZero.string_of_uint (Pos.to_uint p) ++ rest = String c s
    /\ is_digit c = true /\ Ascii.eqb c "0" = false
    /\ take_digits (String c s) 0 = (Z.pos p, rest).
Proof.
  intros Hr. pose proof (to_uint_head p) as Hh.
  pose proof (DecimalPos.Unsigned.of_to p) as Hv.
  destruct (Pos.to_uint p) as [|d|d|d|d|d|d|d|d|d|d]; try contradiction;
    cbn [Pos.of_uint] in Hv; injection Hv as Hv;
    cbn [NilZero.string_of_uint NilEmpty.string_of_uint append];
    (eexists; eexists; split; [reflexivity|]; split; [reflexivity|];
     split; [reflexivity|]);
    cbn [take_digits];
    match goal with
    | |- context [is_digit ?c] => change (is_digit c) with true
    end; cbv iota; digit_value;
    match goal with
    | |- take_digits _ ?a = _ =>
        match type of Hv with
        | Pos.of_uint_acc _ ?q = _ => replace a with (Z.pos q) by lia
        end
    end;
    rewrite take_digits_acc by exact Hr; now rewrite Hv.
Qed.

Lemma parse_number_int_str (z : Z) (rest : string) :
  ends_number rest = true ->
  parse_number (int_str z ++ rest) = Some (PInt z, rest).
Proof.
  intros H. destruct (ends_number_stops rest H) as [Hd Hf].
  unfold parse_number, int_str. destruct z as [|p|p]; cbn [Z.to_int NilZero.string_of_int].
  - cbn. now rewrite Hf.
  - destruct (parse_int_digits p rest Hd) as [c [s [E [Hc [H0 Ht]]]]].
    rewrite E. unfold parse_int.
    assert (Hm : Ascii.eqb c "-" = false).
    { destruct c as [[] [] [] [] [] [] [] []]; try reflexivity; discriminate Hc. }
    rewrite Hm, H0, Hc, Ht, Hf. reflexivity.
  - destruct (parse_int_digits p rest Hd) as [c [s [E [Hc [H0 Ht]]]]].
    change (String "-" (NilZero.string_of_uint (Pos.to_uint p)) ++ rest)
      with (String "-" (NilZero.string_of_uint (Pos.to_uint p) ++ rest)).
    rewrite E. unfold parse_int. change (Ascii.eqb "-" "-") with true. cbv iota.
    rewrite H0, Hc, Ht, Hf. reflexivity.
Qed.

Lemma int_str_head (z : Z) :
  exists c s, int_str z = String c s
              /\ (is_digit c = true \/ c = "-"%char).
Proof.
  unfold int_str. destruct z as [|p|p]; cbn [Z.to_int NilZero.string_of_int].
  - cbn. eauto.
  - destruct (parse_int_digits p EmptyString eq_refl) as [c [s [E [Hc _]]]].
    rewrite append_nil_r in E. eauto.
  - eauto.
Qed.

(** ** Values with numbers *)

Lemma digit_opens (c : ascii) :
  is_digit c = true \/ c = "-"%char ->
  opens_value c = true
  /\ Ascii.eqb c dq = false /\ Ascii.eqb c "{" = false /\ Ascii.eqb c "[" = false
  /\ Ascii.eqb c "n" = false /\ Ascii.eqb c "t" = false /\ Ascii.eqb c "f" = false.
Proof.
  intros [H| ->]; [|repeat split; reflexivity].
  destruct c as [[] [] [] [] [] [] [] []]; try discriminate H;
    repeat split; reflexivity.
Qed.

Lemma encoded_head (v : value) (rest : string) :
  encodable v = true ->
  exists c r, json_dumps v ++ rest = String c r /\ opens_value c = true.
Proof.
  destruct v as [|[]|z| | |]; simpl; intros _; eauto.
  destruct (int_str_head z) as [c [s [E Hc]]]. rewrite E.
  exists c, (s ++ rest). split; [reflexivity|]. now apply digit_opens.
Qed.

Lemma encoded_opens (v : value) :
  encodable v = true ->
  exists c r, json_dumps v = String c r /\ opens_value c = true.
Proof.
  intros H. destruct (encoded_head v EmptyString H) as [c [r [E Hc]]].
  rewrite append_nil_r in E. eauto.
Qed.

Lemma decode_elements (l : list value) :
  forall x acc fuel rest,
    Forall decodes_back (x :: l) ->
    forallb encodable (x :: l) = true ->
    2 * String.length (join ", " (map json_dumps (x :: l)) ++ "]" ++ rest) + 1 < fuel ->
    parse_elements fuel (join ", " (map json_dumps (x :: l)) ++ "]" ++ rest) acc
    = Some (PList tt (acc ++ x :: l), rest).
Proof.
  induction l as [|y l IH]; intros x acc fuel rest HP Ht Hf.
  - destruct fuel as [|fuel]; [lia|].
    apply Forall_inv in HP. simpl in Ht. rewrite andb_true_r in Ht.
    change (join ", " (map json_dumps [x])) with (json_dumps x) in *.
    rewrite parse_elements_S, (HP Ht) by (reflexivity || lengths).
    reflexivity.
  - destruct fuel as [|fuel]; [lia|].
    pose proof (Forall_inv HP) as Hx. apply Forall_inv_tail in HP.
    simpl in Ht. apply andb_true_iff in Ht. destruct Ht as [Htx Ht].
    change (join ", " (map json_dumps (x :: y :: l)))
      with (json_dumps x ++ ", " ++ join ", " (map json_dumps (y :: l))) in *.
    rewrite !append_assoc in *.
    rewrite parse_elements_S, (Hx Htx) by (reflexivity || lengths).
    change (", " ++ join ", " (map json_dumps (y :: l)) ++ "]" ++ rest)
      with (String "," (String " " (join ", " (map json_dumps (y :: l)) ++ "]" ++ rest))).
    change (skip_ws (String "," ?r)) with (String "," r).
    cbv iota. change (Ascii.eqb "," ",") with true. cbv iota.
    change (skip_ws (String " " ?r)) with (skip_ws r).
    rewrite skip_ws_join
      by (apply encoded_opens; simpl in Ht; now apply andb_true_iff in Ht).
    rewrite IH; [now rewrite <- app_assoc | exact HP | exact Ht | lengths].
Qed.

Lemma decode_members (d : pydict unit) :
  forall kv acc fuel rest,
    Forall (fun kv => decodes_back (snd kv)) (kv :: d) ->
    forallb (fun kv => encodable (snd kv)) (kv :: d) = true ->
    distinct_keys (kv :: d) = true ->
    (forall k, In k (map fst (kv :: d)) -> dict_has k acc = false) ->
    2 * String.length (join ", " (map member_text (kv :: d)) ++ "}" ++ rest) + 1 < fuel ->
    parse_members fuel (join ", " (map member_text (kv :: d)) ++ "}" ++ rest) acc
    = Some (PDict tt (acc ++ kv :: d), rest).
Proof.
  induction d as [|kv' d IH]; intros [k x] acc fuel rest HP Ht Hd Hacc Hf.
  - destruct fuel as [|fuel]; [lia|].
    apply Forall_inv in HP. simpl in HP, Ht. rewrite andb_true_r in Ht.
    change (join ", " (map member_text [(k, x)])) with (member_text (k, x)) in *.
    rewrite member_text_shape in *. cbn [fst snd] in *.
    rewrite parse_members_S. change (Ascii.eqb dq dq) with true. cbv iota.
    rewrite parse_chars_escape.
    change (skip_ws (String ":" ?r)) with (String ":" r).
    cbv iota. change (Ascii.eqb ":" ":") with true. cbv iota.
    change (skip_ws (String " " ?r)) with (skip_ws r).
    destruct (encoded_head x ("}" ++ rest) Ht) as [c [r [E Hc]]].
    rewrite E, (skip_ws_head c r Hc), <- E.
    rewrite (HP Ht) by (reflexivity || lengths).
    rewrite dict_set_fresh by (apply Hacc; simpl; auto).
    reflexivity.
  - destruct fuel as [|fuel]; [lia|].
    pose proof (Forall_inv HP) as Hx. apply Forall_inv_tail in HP.
    simpl in Hx. simpl in Ht. apply andb_true_iff in Ht. destruct Ht as [Htx Ht].
    change (distinct_keys ((k, x) :: kv' :: d))
      with (negb (dict_has k (kv' :: d)) && distinct_keys (kv' :: d)) in Hd.
    apply andb_true_iff in Hd. destruct Hd as [Hk Hd].
    apply negb_true_iff in Hk.
    change (join ", " (map member_text ((k, x) :: kv' :: d)))
      with (member_text (k, x) ++ ", " ++ join ", " (map member_text (kv' :: d))) in *.
    rewrite !append_assoc in *.
    rewrite member_text_shape in *. cbn [fst snd] in *.
    rewrite parse_members_S. change (Ascii.eqb dq dq) with true. cbv iota.
    rewrite parse_chars_escape.
    change (skip_ws (String ":" ?r)) with (String ":" r).
    cbv iota. change (Ascii.eqb ":" ":") with true. cbv iota.
    change (skip_ws (String " " ?r)) with (skip_ws r).
    set (tail := ", " ++ join ", " (map member_text (kv' :: d)) ++ "}" ++ rest) in *.
    destruct (encoded_head x tail Htx) as [c [r [E Hc]]].
    rewrite E, (skip_ws_head c r Hc), <- E.
    rewrite (Hx Htx) by (reflexivity || (subst tail; lengths)).
    subst tail.
    change (", " ++ join ", " (map member_text (kv' :: d)) ++ "}" ++ rest)
      with (String "," (String " " (join ", " (map member_text (kv' :: d)) ++ "}" ++ rest))).
    change (skip_ws (String "," ?r)) with (String "," r).
    cbv iota. change (Ascii.eqb "," ",") with true. cbv iota.
    change (skip_ws (String " " ?r)) with (skip_ws r).
    rewrite skip_ws_join by apply member_text_opens.
    rewrite dict_set_fresh by (apply Hacc; simpl; auto).
    rewrite IH; [now rewrite <- app_assoc | exact HP | exact Ht | exact Hd | | lengths].
    intros k' Hk'. unfold dict_has. rewrite dict_get_app.
    pose proof (Hacc k' (or_intror Hk')) as Ha. unfold dict_has in Ha.
    destruct (dict_get k' acc); [discriminate Ha|].
    simpl. destruct (String.eqb k' k) eqn:Ek; [|reflexivity].
    apply String.eqb_eq in Ek. subst k'.
    exfalso. clear - Hk Hk'. unfold dict_has in Hk.
    induction (kv' :: d) as [|[k0 v0] m IHm]; [contradiction|].
    simpl in Hk, Hk'. destruct (String.eqb k k0) eqn:E0; [discriminate|].
    destruct Hk' as [->|Hk']; [now rewrite String.eqb_refl in E0 | auto].
Qed.

(** Decoding undoes encoding, numbers included, before anything that ends
    a number. *)
Lemma decode_value (v : value) : decodes_back v.
Proof.
  induction v as [|b|z|s|t l IH|t d IH] using pyval_nested_ind;
    intros Ht fuel rest Hr Hf; (destruct fuel as [|fuel]; [lia|]).
  - apply (parse_value_dumps PNone eq_refl). exact Hf.
  - apply (parse_value_dumps (PBool b) eq_refl). exact Hf.
  - destruct (int_str_head z) as [c [s [E Hc]]].
    destruct (digit_opens c Hc) as [_ [H1 [H2 [H3 [H4 [H5 H6]]]]]].
    cbn [json_dumps]. rewrite E. cbn [append].
    rewrite parse_value_S, H1, H2, H3, H4, H5, H6.
    change (String c (s ++ rest)) with (String c s ++ rest). rewrite <- E.
    now apply parse_number_int_str.
  - apply (parse_value_dumps (PStr s) eq_refl). exact Hf.
  - destruct t. simpl in Ht. destruct l as [|x l].
    + reflexivity.
    + change (json_dumps (PList tt (x :: l)) ++ rest)
        with (String "[" ((join ", " (map json_dumps (x :: l)) ++ "]") ++ rest)) in *.
      rewrite append_assoc in *.
      rewrite parse_value_S. simpl Ascii.eqb. cbv iota.
      assert (Hx : encodable x = true) by (now apply andb_true_iff in Ht).
      rewrite skip_ws_join by (now apply encoded_opens).
      destruct (encoded_opens x Hx) as [c [r [E Hc]]].
      destruct (opens_value_not c Hc) as [Hn _].
      assert (Hs : exists r', join ", " (map json_dumps (x :: l)) ++ "]" ++ rest
                              = String c r').
      { destruct l as [|y l].
        - simpl join. rewrite E. simpl. eauto.
        - change (join ", " (map json_dumps (x :: y :: l)))
            with (json_dumps x ++ ", " ++ join ", " (map json_dumps (y :: l))).
          rewrite E. simpl. eauto. }
      destruct Hs as [r' Hs]. rewrite Hs, Hn, <- Hs.
      rewrite decode_elements; [reflexivity | exact IH | exact Ht | lengths].
  - destruct t. simpl in Ht. apply andb_true_iff in Ht. destruct Ht as [Hd Ht].
    destruct d as [|kv d].
    + reflexivity.
    + change (json_dumps (PDict tt (kv :: d)) ++ rest)
        with (String "{" ((join ", " (map member_text (kv :: d)) ++ "}") ++ rest)) in *.
      rewrite append_assoc in *.
      rewrite parse_value_S. simpl Ascii.eqb. cbv iota.
      rewrite skip_ws_join by apply member_text_opens.
      assert (Hs : exists r', join ", " (map member_text (kv :: d)) ++ "}" ++ rest
                              = String dq r').
      { destruct d as [|kv' d].
        - simpl join. unfold member_text, json_string. simpl. eauto.
        - change (join ", " (map member_text (kv :: kv' :: d)))
            with (member_text kv ++ ", " ++ join ", " (map member_text (kv' :: d))).
          unfold member_text at 1, json_string. simpl. eauto. }
      destruct Hs as [r' Hs]. rewrite Hs. change (Ascii.eqb dq "}") with false.
      cbv iota. rewrite <- Hs.
      rewrite decode_members;
        [reflexivity | exact IH | exact Ht | exact Hd | reflexivity | lengths].
Qed.

(** [json.loads(json.dumps(v))] is [v], numbers included. *)
Lemma json_loads_encoded (v : value) :
  encodable v = true -> json_loads (json_dumps v) = Ret v.
Proof.
  intros Ht. unfold json_loads.
  destruct (encoded_opens v Ht) as [c [r [E Hc]]].
  rewrite E, (skip_ws_head c r Hc), <- E.
  rewrite <- (append_nil_r (json_dumps v)) at 2.
  rewrite decode_value; [reflexivity | exact Ht | reflexivity |].
  rewrite append_nil_r. lia.
Qed.

End JsonNumberProps.

(** ** Conditions and placeholders of the policy evaluator *)

Module InterpolationProps.
Import Py PyProps Text Json JsonProps SelfHealing SelfHealingProps.
Local Open Scope string_scope.

(** ** [split] around a marker *)

Lemma dollar_marker_fails (m s : string) (c : ascii) :
  Ascii.eqb c "$" = false -> String.prefix (String "$" m) (String c s) = false.
Proof.
  intros H. cbn [String.prefix].
  destruct (ascii_dec "$" c) as [<-|]; [discriminate H | reflexivity].
Qed.

Lemma split_go_plain (m a : string) :
  forall s cur,
    no_dollar a = true ->
    split_go (String "$" m) (a ++ s) 0 cur
    = split_go (String "$" m) s 0 (cur ++ a).
Proof.
  induction a as [|c a IH]; intros s cur H.
  - now rewrite append_nil_r.
  - unfold no_dollar in H. cbn [string_forall] in H.
    apply andb_true_iff in H. destruct H as [Hc Ha].
    apply negb_true_iff in Hc.
    cbn [append split_go]. rewrite (dollar_marker_fails m _ c Hc).
    rewrite (IH s _ Ha), append_assoc. reflexivity.
Qed.

Lemma split_go_skip (sep a : string) :
  forall s cur,
    split_go sep (a ++ s) (String.length a) cur = split_go sep s 0 cur.
Proof.
  induction a as [|c a IH]; intros s cur; [reflexivity|].
  cbn [append String.length split_go]. apply IH.
Qed.

Lemma split_go_marker (m s cur : string) :
  split_go (String "$" m) (String "$" m ++ s) 0 cur
  = cur :: split_go (String "$" m) s 0 EmptyString.
Proof.
  change (String "$" m ++ s) with (String "$" (m ++ s)).
  cbn [split_go].
  change (String "$" (m ++ s)) with (String "$" m ++ s).
  rewrite prefix_append.
  replace (String.length (String "$" m) - 1) with (String.length m)
    by (cbn [String.length]; lia).
  now rewrite split_go_skip.
Qed.

Lemma split_go_head (sep : string) (s : string) :
  forall cur, exists tail rest,
    split_go sep s 0 cur = (cur ++ tail) :: rest.
Proof.
  induction s as [|c s IH]; intros cur.
  - exists EmptyString, []. cbn. now rewrite append_nil_r.
  - cbn [split_go]. destruct (String.prefix sep (String c s)).
    + exists EmptyString. eexists. now rewrite append_nil_r.
    + destruct (IH (cur ++ String c EmptyString)) as [tail [rest E]].
      exists (String c tail), rest. rewrite E, append_assoc. reflexivity.
Qed.

Lemma split_close (key t : string) :
  forall cur,
    no_closing_brace key = true ->
    exists rest,
      split_go "}" (key ++ String "}" t) 0 cur = (cur ++ key) :: rest.
Proof.
  induction key as [|c key IH]; intros cur H.
  - cbn [append split_go].
    change (String "}" t) with ("}" ++ t). rewrite prefix_append.
    eexists. now rewrite append_nil_r.
  - unfold no_closing_brace in H. cbn [string_forall] in H.
    apply andb_true_iff in H. destruct H as [Hc Hk].
    apply negb_true_iff in Hc.
    cbn [append split_go String.prefix].
    destruct (ascii_dec "}" c) as [<-|]; [discriminate Hc|].
    destruct (IH (cur ++ String c EmptyString) Hk) as [rest E].
    exists rest. rewrite E, append_assoc. reflexivity.
Qed.

Lemma str_contains_append (m a s : string) :
  str_contains m (a ++ m ++ s) = true.
Proof.
  induction a as [|c a IH].
  - cbn [append]. destruct (m ++ s) eqn:E; cbn [str_contains];
      rewrite <- E, prefix_append; reflexivity.
  - cbn [append str_contains]. rewrite IH.
    now destruct (String.prefix m (String c (a ++ m ++ s))).
Qed.

Lemma placeholder_key_found (before key after : string) :
  no_dollar before = true -> no_dollar key = true ->
  no_closing_brace key = true ->
  placeholder_key "${label." (label_placeholder before key after) = key.
Proof.
  intros Hb Hk Hc. unfold placeholder_key, label_placeholder, split.
  rewrite split_go_plain by exact Hb. rewrite split_go_marker.
  cbn [nth]. rewrite split_go_plain by exact Hk.
  change ("}" ++ after) with (String "}" after).
  cbn [split_go]. rewrite dollar_marker_fails by reflexivity.
  destruct (split_go_head "${label." after ((EmptyString ++ key) ++ "}"))
    as [tail [rest E]].
  rewrite E. cbn [nth append].
  rewrite append_assoc. change ("}" ++ tail) with (String "}" tail).
  destruct (split_close key tail EmptyString Hc) as [rest' E'].
  rewrite E'. reflexivity.
Qed.

(** X18. A parameter that holds a label placeholder is replaced as a whole
    by the label, the text before and after the placeholder included; when
    the alert has no such label the parameter keeps its text. *)
Theorem interpolate_label_placeholder
    (before key after : string) (tl : objid) (dl : pydict objid)
    (annotations : val) :
  no_dollar before = true -> no_dollar key = true ->
  no_closing_brace key = true ->
  interpolate_value (PStr (label_placeholder before key after))
                    (PDict tl dl) annotations
  = Ret (match dict_get key dl with
         | Some v => v
         | None => PStr (label_placeholder before key after)
         end).
Proof.
  intros Hb Hk Hc. unfold interpolate_value.
  assert (E : str_contains "${label." (label_placeholder before key after) = true)
    by apply str_contains_append.
  rewrite E. rewrite placeholder_key_found by assumption.
  reflexivity.
Qed.

Lemma interpolate_label_placeholder_witness :
  interpolate_value (PStr "app-${label.deployment}-blue")
                    (PDict 11 [("alertname", PStr "PodCrashLoop");
                               ("deployment", PStr "web-1")])
                    (PDict 12 [])
  = Ret (PStr "web-1").
Proof.
  apply (interpolate_label_placeholder "app-" "deployment" "-blue" 11
           [("alertname", PStr "PodCrashLoop"); ("deployment", PStr "web-1")]
           (PDict 12 [])).
  - reflexivity.
  - reflexivity.
  - reflexivity.
Defined.

(** ** [_interpolate_params] keeps the keys *)

Lemma interpolate_value_plain (v labels annotations : val) :
  has_placeholder v = false -> interpolate_value v labels annotations = Ret v.
Proof.
  destruct v; try reflexivity. cbn [has_placeholder interpolate_value].
  intros H. apply orb_false_iff in H. destruct H as [-> ->]. reflexivity.
Qed.

Lemma interpolate_loop_keys (items : pydict objid) tl dl ta da :
  forall acc,
    (forall k, In k (map fst items) -> dict_has k acc = false) ->
    NoDup (map fst items) ->
    exists result,
      interpolate_loop items (PDict tl dl) (PDict ta da) acc
      = Ret (acc ++ result)%list
      /\ map fst result = map fst items
      /\ (forall k v, In (k, v) items -> has_placeholder v = false ->
                      In (k, v) result).
Proof.
  induction items as [|[k v] items IH]; intros acc Hacc Hn.
  - exists []. cbn. rewrite app_nil_r. auto.
  - cbn [map fst] in Hn. inversion Hn as [|? ? Hk Hn']; subst.
    cbn [interpolate_loop].
    destruct (interpolate_value_ret v tl dl ta da) as [v' Ev]. rewrite Ev.
    cbn [bind]. rewrite dict_set_fresh by (apply Hacc; now left).
    destruct (IH (acc ++ [(k, v')])%list) as [result [E [Hkeys Hplain]]].
    + intros k' Hk'. unfold dict_has. rewrite dict_get_app.
      pose proof (Hacc k' (or_intror Hk')) as Ha. unfold dict_has in Ha.
      destruct (dict_get k' acc); [discriminate Ha|]. cbn [dict_get].
      destruct (String.eqb k' k) eqn:Ek; [|reflexivity].
      apply String.eqb_eq in Ek. subst k'. contradiction.
    + exact Hn'.
    + exists ((k, v') :: result).
      split; [refine (eq_trans E _); now rewrite <- app_assoc|].
      split; [cbn [map fst]; now rewrite Hkeys|].
      intros k0 v0 [[= <- <-]|Hin] Hp.
      * left. rewrite interpolate_value_plain in Ev by exact Hp.
        now injection Ev as <-.
      * right. now apply Hplain.
Qed.

(** X19. [_interpolate_params] returns a new dict with the keys of
    [params] in their order; a value without a placeholder, and every value
    that is no string, is carried over as it is. *)
Theorem interpolate_params_keeps_keys
    (fresh t : objid) (items : pydict objid) (tl : objid) (dl : pydict objid)
    (ta : objid) (da : pydict objid) :
  NoDup (map fst items) ->
  exists result,
    _interpolate_params fresh (PDict t items) (PDict tl dl) (PDict ta da)
    = Ret (PDict fresh result)
    /\ map fst result = map fst items
    /\ (forall k v, In (k, v) items -> has_placeholder v = false ->
                    In (k, v) result).
Proof.
  intros Hn. unfold _interpolate_params. cbn [py_items bind].
  destruct (interpolate_loop_keys items tl dl ta da [] (fun _ _ => eq_refl) Hn)
    as [result [E H]].
  exists result. rewrite E. cbn [bind app]. auto.
Qed.

Lemma interpolate_params_keeps_keys_witness :
  exists result,
    _interpolate_params 103
      (PDict 8 [("deployment_name", PStr "${label.deployment}");
                ("containers", PList 9 [PStr "web"])])
      (PDict 11 [("alertname", PStr "PodCrashLoop"); ("deployment", PStr "web-1")])
      (PDict 12 [])
    = Ret (PDict 103 result)
    /\ map fst result = ["deployment_name"; "containers"]
    /\ In ("containers", PList 9 [PStr "web"]) result.
Proof.
  destruct (interpolate_params_keeps_keys 103 8
              [("deployment_name", PStr "${label.deployment}");
               ("containers", PList 9 [PStr "web"])]
              11 [("alertname", PStr "PodCrashLoop"); ("deployment", PStr "web-1")]
              12 [])
    as [result [E [Hk Hp]]].
  - repeat constructor; simpl; intuition discriminate.
  - exists result. split; [exact E|]. split; [exact Hk|].
    apply Hp; [simpl; auto | reflexivity].
Defined.

(** ** Conditions *)

Lemma labels_loop_all (items : pydict objid) (tl : objid) (dl : pydict objid) :
  labels_loop items (PDict tl dl)
  = Ret (forallb (fun kv => py_eq (dict_get_default (fst kv) PNone dl) (snd kv))
                 items).
Proof.
  induction items as [|[k v] items IH]; [reflexivity|].
  cbn [labels_loop py_get bind forallb fst snd]. unfold dict_get_default.
  destruct (py_eq match dict_get k dl with Some v0 => v0 | None => PNone end v);
    cbn [negb andb]; [exact IH | reflexivity].
Qed.

(** X20. A condition that is not of the [label]/[value] form: with
    [labels] it matches exactly when every listed label of the alert has the
    listed value, annotations and status playing no role; with neither
    [labels] nor [status], only [expression] for instance, it never
    matches. *)
Theorem match_condition_formats
    (condition : pydict objid) (labels annotations : val) (status : string) :
  dict_has "label" condition && dict_has "value" condition = false ->
  (forall t items tl dl,
     dict_get "labels" condition = Some (PDict t items) ->
     labels = PDict tl dl ->
     _match_condition condition labels annotations status
     = Ret (forallb (fun kv => py_eq (dict_get_default (fst kv) PNone dl) (snd kv))
                    items))
  /\ (dict_has "labels" condition = false ->
      dict_has "status" condition = false ->
      _match_condition condition labels annotations status = Ret false).
Proof.
  intros Hf. split.
  - intros t items tl dl Hl ->. unfold _match_condition. rewrite Hf.
    unfold dict_has, dict_get_default. rewrite Hl. cbn [py_items bind].
    apply labels_loop_all.
  - intros Hl Hs. unfold _match_condition. rewrite Hf, Hl, Hs.
    now destruct (dict_has "expression" condition).
Qed.

Lemma match_condition_formats_witness :
  _match_condition (condition restart_policy)
    (PDict 2 [("alertname", PStr "PodCrashLoop")]) (PDict 12 []) "firing"
  = Ret true
  /\ _match_condition [("expression", PStr "status == 'firing'")]
       (PDict 2 [("alertname", PStr "PodCrashLoop")]) (PDict 12 []) "firing"
     = Ret false.
Proof.
  split.
  - apply (proj1 (match_condition_formats (condition restart_policy)
                    (PDict 2 [("alertname", PStr "PodCrashLoop")]) (PDict 12 [])
                    "firing" eq_refl)
             3 [("alertname", PStr "PodCrashLoop")] 2
             [("alertname", PStr "PodCrashLoop")]).
    + reflexivity.
    + reflexivity.
  - apply (proj2 (match_condition_formats [("expression", PStr "status == 'firing'")]
                    (PDict 2 [("alertname", PStr "PodCrashLoop")]) (PDict 12 [])
                    "firing" eq_refl)).
    + reflexivity.
    + reflexivity.
Defined.

(** ** An entry that is no alert *)

(** X21. With at least one policy stored, an alert whose first entry has
    [labels] that are no dict makes [evaluate_alert] raise instead of
    skipping the entry. *)
Theorem evaluate_alert_malformed_entry
    (rows : list Policy) (fresh : objid) (alert : PrometheusAlert)
    (item : pydict objid) (rest : list (pydict objid)) (labels : val) :
  rows <> [] ->
  alerts alert = item :: rest ->
  dict_get "labels" item = Some labels ->
  is_dict labels = false ->
  evaluate_alert rows fresh alert = Raise (no_attribute labels "get").
Proof.
  intros Hr Ha Hl Hd. rewrite evaluate_alert_unfold by exact Hr. rewrite Ha.
  cbn [alert_loop]. unfold item_labels, dict_get_default. rewrite Hl.
  destruct labels; try discriminate Hd; reflexivity.
Qed.

Lemma evaluate_alert_malformed_entry_witness :
  evaluate_alert [restart_policy] 100
    (mkAlert "firing" [[("labels", PStr "PodCrashLoop")]])
  = Raise (no_attribute (PStr "PodCrashLoop" : val) "get").
Proof.
  apply (evaluate_alert_malformed_entry [restart_policy] 100
           (mkAlert "firing" [[("labels", PStr "PodCrashLoop")]])
           [("labels", PStr "PodCrashLoop")] [] (PStr "PodCrashLoop")).
  - discriminate.
  - reflexivity.
  - reflexivity.
  - reflexivity.
Defined.

End InterpolationProps.

(** ** The router and its clients *)

Module ClientProps.
Import Py PyProps Text Json JsonProps JsonNumberProps Engine EngineProps Clients.
Local Open Scope string_scope.

Section Confinement.

Variable B : backend.

Variable domain : value.

Lemma confined_refl w : (confined domain) w w.
Proof.
  split; [|reflexivity]. exists []. now rewrite app_nil_r.
Qed.

Lemma confined_trans w1 w2 w3 : (confined domain) w1 w2 -> (confined domain) w2 w3 -> (confined domain) w1 w3.
Proof.
  intros [[l1 [E1 F1]] C1] [[l2 [E2 F2]] C2]. split.
  - exists (l1 ++ l2)%list. rewrite E2, E1, app_assoc, forallb_app, F1, F2. auto.
  - intros d H. now rewrite C2, C1.
Qed.

Lemma respects_ret {A} (a : A) : respects (confined domain) (ret a).
Proof. intros w. apply confined_refl. Qed.

Lemma respects_raise {A} (e : exn) : respects (confined domain) (@raise A e).
Proof. intros w. apply confined_refl. Qed.

Lemma respects_lift {A} (o : outcome A) : respects (confined domain) (lift o).
Proof. intros w. apply confined_refl. Qed.

Lemma respects_bind {A C} (m : M A) (k : A -> M C) :
  respects (confined domain) m -> (forall a, respects (confined domain) (k a)) -> respects (confined domain) (mbind m k).
Proof.
  intros Hm Hk w. unfold mbind. specialize (Hm w).
  destruct (m w) as [w1 [a|e]]; simpl in *; [|exact Hm].
  eapply confined_trans; [exact Hm | apply Hk].
Qed.

Lemma respects_catch {A} (m : M A) (h : exn -> M A) :
  respects (confined domain) m -> (forall e, respects (confined domain) (h e)) -> respects (confined domain) (catch m h).
Proof.
  intros Hm Hh w. unfold catch. specialize (Hm w).
  destruct (m w) as [w1 [a|e]]; simpl in *; [exact Hm|].
  eapply confined_trans; [exact Hm | apply Hh].
Qed.

Lemma respects_catch_classes {A} handled (m : M A) (h : exn -> M A) :
  respects (confined domain) m -> (forall e, respects (confined domain) (h e)) ->
  respects (confined domain) (catch_classes handled m h).
Proof.
  intros Hm Hh w. unfold catch_classes. specialize (Hm w).
  destruct (m w) as [w1 [a|e]]; simpl in *; [exact Hm|].
  destruct (handled (exn_cls e)); simpl; [|exact Hm].
  eapply confined_trans; [exact Hm | apply Hh].
Qed.

Lemma respects_send (r : request) :
  allowed domain r = true -> respects (confined domain) (send B r).
Proof.
  intros H w. unfold send. simpl. split; [|reflexivity].
  exists [r]. simpl. now rewrite H.
Qed.

(** A computation that reads the state it starts from. *)
Lemma respects_at {A} (m : M A) (w : world) :
  respects (confined domain) m -> (confined domain) w (fst (m w)).
Proof. intros H. apply H. Qed.

Ltac step :=
  match goal with
  | |- respects _ (mbind _ _) => apply respects_bind; [|intros ?]
  | |- respects _ (ret _) => apply respects_ret
  | |- respects _ (raise _) => apply respects_raise
  | |- respects _ (lift _) => apply respects_lift
  | |- respects _ (catch _ _) => apply respects_catch; [|intros ?]
  | |- respects _ (catch_classes _ _ _) => apply respects_catch_classes; [|intros ?]
  | |- respects _ (send _ _) => apply respects_send; assumption
  | |- respects _ (if ?c then _ else _) => destruct c
  | |- respects _ (match ?x with _ => _ end) => destruct x
  | |- respects _ (fun w => _) =>
      let w := fresh "w" in
      intro w; cbv beta;
      match goal with |- confined _ w (fst (?m w)) => apply (respects_at m w) end
  | H : respects _ ?m |- respects _ ?m => exact H
  end.

Lemma confined_world (w w' : world) (l : list request) :
  sent w' = (sent w ++ l)%list -> forallb (allowed domain) l = true ->
  (forall d, allowed domain (Get d) = false -> cache d w' = cache d w) ->
  (confined domain) w w'.
Proof. intros E F C. split; [exists l; auto | exact C]. Qed.

Lemma respects_esxi_bump :
  py_eq domain (PStr "vmware") = true -> respects (confined domain) esxi_bump.
Proof.
  intros H w.
  apply (confined_world _ _ []);
    [simpl; now rewrite app_nil_r | reflexivity
    | intros [] Hd; simpl in *; congruence].
Qed.

Lemma respects_grafana_bump :
  py_eq domain (PStr "grafana") = true -> respects (confined domain) grafana_bump.
Proof.
  intros H w.
  apply (confined_world _ _ []);
    [simpl; now rewrite app_nil_r | reflexivity
    | intros [] Hd; simpl in *; congruence].
Qed.

Lemma respects_prometheus_bump :
  py_eq domain (PStr "prometheus") = true -> respects (confined domain) prometheus_bump.
Proof.
  intros H w.
  apply (confined_world _ _ []);
    [simpl; now rewrite app_nil_r | reflexivity
    | intros [] Hd; simpl in *; congruence].
Qed.

Lemma respects_esxi_call_method method params :
  py_eq domain (PStr "vmware") = true ->
  respects (confined domain) (esxi_call_method B method params).
Proof.
  intros H. unfold esxi_call_method. repeat step.
  apply respects_esxi_bump; assumption.
Qed.

Lemma respects_get_esxi :
  py_eq domain (PStr "vmware") = true -> respects (confined domain) (get_esxi_mcp_client B).
Proof.
  intros H w. unfold get_esxi_mcp_client.
  destruct (esxi_client w) eqn:Ec; [apply confined_refl|].
  unfold mbind, esxi_start_server, catch, mbind, send, ret. simpl.
  destruct (http B (sent w) (Get VMware)) as [r|e]; simpl;
    [destruct (status_code r =? 200)%Z; simpl|];
    (apply (confined_world _ _ [Get VMware]);
     [reflexivity | simpl; now rewrite H
     | intros [] Hd; simpl in *; congruence]).
Qed.

Lemma respects_get_grafana :
  py_eq domain (PStr "grafana") = true -> respects (confined domain) (get_grafana_mcp_client B).
Proof.
  intros H w. unfold get_grafana_mcp_client.
  destruct (grafana_client w) eqn:Ec; [apply confined_refl|].
  unfold mbind, grafana_start_server, catch, mbind, send, ret. simpl.
  match goal with
  | |- context [http B (sent w) ?r] =>
      destruct (http B (sent w) r) as [r'|e]; simpl;
        [destruct (initialize_ok r'); simpl|];
        (apply (confined_world _ _ [r]);
         [reflexivity | simpl; now rewrite H
         | intros [] Hd; simpl in *; congruence])
  end.
Qed.

Lemma respects_get_prometheus :
  py_eq domain (PStr "prometheus") = true ->
  respects (confined domain) (get_prometheus_mcp_client B).
Proof.
  intros H w. unfold get_prometheus_mcp_client.
  destruct (prometheus_client w) eqn:Ec; [apply confined_refl|].
  unfold mbind, prometheus_start_server, catch, mbind, send, ret. simpl.
  destruct (http B (sent w) (Get Prometheus)) as [r|e]; simpl;
    [destruct (status_code r =? 200)%Z; simpl|];
    (apply (confined_world _ _ [Get Prometheus]);
     [reflexivity | simpl; now rewrite H
     | intros [] Hd; simpl in *; congruence]).
Qed.

Lemma respects_grafana_execute_tool tool parameters :
  py_eq domain (PStr "grafana") = true ->
  respects (confined domain) (grafana_execute_tool B tool parameters).
Proof.
  intros H. unfold grafana_execute_tool. repeat step.
  apply respects_grafana_bump; assumption.
Qed.

Lemma respects_prometheus_call_method method params :
  py_eq domain (PStr "prometheus") = true ->
  respects (confined domain) (prometheus_call_method B method params).
Proof.
  intros H. unfold prometheus_call_method. repeat step.
  apply respects_prometheus_bump; assumption.
Qed.

Lemma respects_prometheus_execute_tool tool parameters :
  py_eq domain (PStr "prometheus") = true ->
  respects (confined domain) (prometheus_execute_tool B tool parameters).
Proof.
  intros H. unfold prometheus_execute_tool. repeat step.
  now apply respects_prometheus_call_method.
Qed.

Lemma respects_kubernetes_branch cmd action resource name namespace :
  py_eq domain (PStr "kubernetes") = true ->
  respects (confined domain) (kubernetes_branch B cmd action resource name namespace).
Proof.
  intros H. unfold kubernetes_branch, kubernetes_health, kubernetes_post.
  repeat step.
Qed.

Lemma respects_prometheus_branch cmd action query :
  py_eq domain (PStr "prometheus") = true ->
  respects (confined domain) (prometheus_branch B cmd action query).
Proof.
  intros H. unfold prometheus_branch.
  repeat first [ apply respects_get_prometheus; assumption
               | apply respects_prometheus_execute_tool; assumption
               | step ].
Qed.

Lemma respects_unwrap_listing with_len result :
  respects (confined domain) (unwrap_listing with_len result).
Proof. unfold unwrap_listing. repeat step. Qed.

Lemma respects_grafana_get_by_name name :
  py_eq domain (PStr "grafana") = true ->
  respects (confined domain) (grafana_get_by_name B name).
Proof.
  intros H. unfold grafana_get_by_name.
  repeat first [ apply respects_grafana_execute_tool; assumption | step ].
Qed.

Lemma respects_grafana_branch action resource name :
  py_eq domain (PStr "grafana") = true ->
  respects (confined domain) (grafana_branch B action resource name).
Proof.
  intros H. unfold grafana_branch.
  repeat first [ apply respects_get_grafana; assumption
               | apply respects_grafana_execute_tool; assumption
               | apply respects_unwrap_listing
               | apply respects_grafana_get_by_name; assumption
               | step ].
Qed.

Lemma respects_vmware_branch cmd action resource name :
  py_eq domain (PStr "vmware") = true ->
  respects (confined domain) (vmware_branch B cmd action resource name).
Proof.
  intros H. unfold vmware_branch.
  repeat first [ apply respects_get_esxi; assumption
               | apply respects_esxi_call_method; assumption
               | step ].
Qed.

Lemma respects_network_branch cmd action :
  py_eq domain (PStr "network") = true ->
  respects (confined domain) (network_branch B cmd action).
Proof. intros H. unfold network_branch. repeat step. Qed.

End Confinement.

(** X1. [route_infra_command] talks only to the server of the command's
    domain: the requests it adds to the history are all for that domain (the
    earlier ones stay), and the cached clients of the other servers are left
    as they were; so a command of an unknown domain makes no request. *)
Theorem route_confined B cmd w :
  confined (cmd_get "domain" cmd) w (fst (route_infra_command B cmd w)).
Proof.
  apply respects_at. unfold route_infra_command, route_body.
  apply respects_catch; [|intros; apply respects_ret].
  apply respects_bind; [|intros [s|]; apply respects_ret].
  destruct (py_eq (cmd_get "domain" cmd) (PStr "kubernetes")) eqn:Ek;
    [now apply respects_kubernetes_branch|].
  destruct (py_eq (cmd_get "domain" cmd) (PStr "prometheus")) eqn:Ep;
    [now apply respects_prometheus_branch|].
  destruct (py_eq (cmd_get "domain" cmd) (PStr "grafana")) eqn:Eg;
    [now apply respects_grafana_branch|].
  destruct (py_eq (cmd_get "domain" cmd) (PStr "vmware")) eqn:Ev;
    [now apply respects_vmware_branch|].
  destruct (py_eq (cmd_get "domain" cmd) (PStr "network")) eqn:En;
    [now apply respects_network_branch|].
  apply respects_ret.
Qed.

(** ** One exchange of [call_method] *)

(** X2. [ESXiMCPClient.call_method] never raises and makes exactly one
    POST, carrying the current request id and the parameters, an empty dict
    when they are [None].  When the server answers 200 with a body that
    decodes, the body is the result and the id goes up by one; otherwise the
    id stays and the result is an error dict naming the method. *)
Theorem esxi_call_method_exchange (B : backend) method params (w : world) :
  let request :=
    Post VMware (jsonrpc_tools_call method (or_empty params) (PInt (esxi_id w))) in
  exists result,
    esxi_call_method B method params w
    = (mkWorld (sent w ++ [request]) (grafana_client w)
               (if answered B w request
                then option_map (fun n => (n + 1)%Z) (esxi_client w)
                else esxi_client w)
               (prometheus_client w),
       Ret result)
    /\ (answered B w request = true ->
        exists response, http B (sent w) request = Ret response
                         /\ status_code response = 200%Z
                         /\ json response = Ret result)
    /\ (answered B w request = false -> reports_error "method" method result).
Proof.
  intros request. unfold esxi_call_method, catch, mbind, send, answered.
  fold request. cbn [sent grafana_client esxi_client prometheus_client].
  destruct (http B (sent w) request) as [r|e] eqn:Eh.
  - unfold lift, read_response, decoded.
    destruct (status_code r =? 200)%Z eqn:Es.
    + destruct (json r) as [v|e] eqn:Ej.
      * cbn. eexists. split; [reflexivity|]. split; [|discriminate].
        intros _. exists r. apply Z.eqb_eq in Es. auto.
      * destruct (exn_cls e) eqn:Ec; cbn;
          (eexists; split; [reflexivity|]; split; [discriminate|]; intros _;
           eexists; split; [reflexivity|]; split; reflexivity).
    + cbn. eexists. split; [reflexivity|]. split; [discriminate|]. intros _.
      eexists. split; [reflexivity|]. split; reflexivity.
  - cbn. eexists. split; [reflexivity|]. split; [discriminate|]. intros _.
    eexists. split; [reflexivity|]. split; reflexivity.
Qed.

Lemma esxi_call_method_exchange_witness :
  exists result,
    esxi_call_method refusing "listVMs" PNone connected
    = (mkWorld [Post VMware (jsonrpc_tools_call "listVMs" (dict []) (PInt 1))]
               (Some 1%Z) (Some 1%Z) (Some 1%Z),
       Ret result)
    /\ reports_error "method" "listVMs" result.
Proof.
  destruct (esxi_call_method_exchange refusing "listVMs" PNone connected)
    as [result [E [_ H]]].
  exists result. split; [exact E|]. apply H. reflexivity.
Defined.

(** ** Answers other than 200 *)

Lemma is_server_error_http_status label name code txt :
  is_server_error
    (dict [("status", PStr "error");
           ("error", PStr ("HTTP " ++ int_str code ++ ": " ++ txt));
           (label, PStr name)]) = true.
Proof.
  unfold dict. rewrite is_server_error_dict.
  change (py_eq (dict_get_default "status" PNone
                   [("status", PStr "error");
                    ("error", PStr ("HTTP " ++ int_str code ++ ": " ++ txt));
                    (label, PStr name)]) (PStr "error")) with true.
  change (error_text [("status", PStr "error");
                      ("error", PStr ("HTTP " ++ int_str code ++ ": " ++ txt));
                      (label, PStr name)])
    with ("HTTP " ++ int_str code ++ ": " ++ txt).
  change (lower ("HTTP " ++ int_str code ++ ": " ++ txt))
    with ("http " ++ lower (int_str code ++ ": " ++ txt)).
  unfold server_error_markers. cbn [existsb andb].
  change (str_contains "http" ("http " ++ lower (int_str code ++ ": " ++ txt)))
    with true.
  now rewrite !orb_true_r.
Qed.

Lemma read_response_refused label name r :
  status_code r <> 200%Z ->
  exists result, read_response label name r = Ret result
                 /\ is_server_error result = true.
Proof.
  intros H. unfold read_response. apply Z.eqb_neq in H. rewrite H.
  eexists. split; [reflexivity|]. apply is_server_error_http_status.
Qed.

(** X3. When the ESXi server answers [listVMs] with a status other than
    200, the router does not hand the error dict to the caller: it answers
    that the VMware MCP server is not accessible. *)
Theorem vmware_list_refused_is_unavailable
    (B : backend) (cmd : pydict unit) (w : world) (n : Z) (r : http_response) :
  cmd_get "domain" cmd = PStr "vmware" ->
  cmd_get "action" cmd = PStr "list" ->
  in_list (cmd_get "resource" cmd) ["vms"; "vm"] = true ->
  esxi_client w = Some n ->
  http B (sent w) (Post VMware (jsonrpc_tools_call "listVMs" (dict []) (PInt n)))
  = Ret r ->
  status_code r <> 200%Z ->
  route_infra_command B cmd w
  = (with_sent w [Post VMware (jsonrpc_tools_call "listVMs" (dict []) (PInt n))],
     Ret vmware_unavailable).
Proof.
  intros Hd Ha Hr Hc Hh Hs.
  rewrite route_infra_command_catch, route_body_vmware by exact Hd.
  unfold mbind at 1. unfold vmware_branch. unfold mbind at 1.
  rewrite (get_esxi_cached B w n Hc). rewrite Ha, Hr.
  change (py_eq (PStr "list") (PStr "list")) with true. cbv iota.
  unfold mbind at 1.
  unfold esxi_call_method, catch, mbind at 1, send, esxi_id.
  change (or_empty (dict [])) with (dict []). rewrite Hc, Hh.
  unfold lift, read_response, decoded.
  apply Z.eqb_neq in Hs. rewrite Hs. cbn [andb]. cbn [mbind ret].
  unfold mbind, ret. rewrite is_server_error_http_status.
  unfold with_sent. now rewrite Hc.
Qed.

Lemma vmware_list_refused_is_unavailable_witness :
  route_infra_command refusing list_vms_cmd connected
  = (with_sent connected
       [Post VMware (jsonrpc_tools_call "listVMs" (dict []) (PInt 1))],
     Ret vmware_unavailable).
Proof.
  apply (vmware_list_refused_is_unavailable refusing list_vms_cmd connected 1%Z
           (mkResponse 503 (Raise decode_error) "Service Unavailable")).
  - reflexivity.
  - reflexivity.
  - reflexivity.
  - reflexivity.
  - reflexivity.
  - discriminate.
Defined.

(** ** Validation before a call goes out *)

Lemma missing_loop_names (names : list string) (parameters : pydict unit) :
  missing_loop (map PStr names) parameters
  = Ret (map PStr (filter (fun n => negb (dict_has n parameters)) names)).
Proof.
  induction names as [|n names IH]; [reflexivity|].
  cbn [map missing_loop py_in_dict bind filter]. rewrite IH. cbn [bind].
  now destruct (dict_has n parameters).
Qed.

Lemma validate_tool_declared tools tool names parameters :
  declares tools tool names ->
  validate_tool tools tool parameters
  = match missing_names names parameters with
    | [] => Ret None
    | missing =>
        Ret (Some (dict [("status", PStr "error");
                         ("error", PStr ("Missing required parameters: "
                                         ++ py_repr (plist (map PStr missing))));
                         ("tool", PStr tool);
                         ("required_parameters", plist (map PStr names))]))
    end.
Proof.
  intros [[] [config [[] [schema [[] [Ht [Hs Hr]]]]]]].
  unfold validate_tool. rewrite Ht.
  cbn [py_get_default]. unfold dict_get_default at 1. rewrite Hs.
  cbn [bind py_get_default]. unfold dict_get_default at 1. rewrite Hr.
  cbn [bind py_iter]. rewrite missing_loop_names. cbn [bind].
  fold (missing_names names parameters).
  unfold dict_get_default. rewrite Hr.
  now destruct (missing_names names parameters).
Qed.

(** X4. [GrafanaMCPClient.execute_tool] validates before it sends: for a
    tool that is not configured, and for a call that lacks a required
    parameter, it returns an error dict and no request goes out; with every
    required parameter given it posts one [tools/call]. *)
Theorem grafana_execute_tool_validates
    (B : backend) (tool : string) (parameters : pydict unit) (w : world) :
  (dict_get tool (grafana_tools B) = None ->
   grafana_execute_tool B tool parameters w
   = (w, Ret (dict [("status", PStr "error");
                    ("error", PStr ("Tool '" ++ tool
                                    ++ "' not found in MCP configuration"));
                    ("available_tools", keys_list (grafana_tools B))])))
  /\ (forall names,
        declares (grafana_tools B) tool names ->
        missing_names names parameters <> [] ->
        grafana_execute_tool B tool parameters w
        = (w, Ret (dict [("status", PStr "error");
                         ("error", PStr ("Missing required parameters: "
                                         ++ py_repr (plist (map PStr (missing_names names parameters)))));
                         ("tool", PStr tool);
                         ("required_parameters", plist (map PStr names))])))
  /\ (forall names,
        declares (grafana_tools B) tool names ->
        missing_names names parameters = [] ->
        sent (fst (grafana_execute_tool B tool parameters w))
        = (sent w ++ [Post Grafana (jsonrpc_tools_call tool (dict parameters)
                                      (PInt (grafana_id w)))])%list).
Proof.
  split; [|split].
  - intros H. unfold grafana_execute_tool, validate_tool. rewrite H. reflexivity.
  - intros names Hd Hm.
    unfold grafana_execute_tool. rewrite (validate_tool_declared _ _ names) by exact Hd.
    destruct (missing_names names parameters) as [|m ms] eqn:Em;
      [now contradiction Hm | reflexivity].
  - intros names Hd Hm.
    unfold grafana_execute_tool. rewrite (validate_tool_declared _ _ names) by exact Hd.
    rewrite Hm.
    unfold mbind at 1. unfold lift at 1.
    unfold catch, mbind, send. cbn [sent].
    match goal with
    | |- context [http B (sent w) ?r] => destruct (http B (sent w) r) as [r'|e]
    end; [|reflexivity].
    unfold lift. destruct (read_response "tool" tool r') as [v|e]; [|reflexivity].
    destruct (decoded r'); reflexivity.
Qed.

Lemma grafana_execute_tool_validates_witness :
  grafana_execute_tool schema_backend "list_panels" [] connected
  = (connected,
     Ret (dict [("status", PStr "error");
                ("error", PStr "Tool 'list_panels' not found in MCP configuration");
                ("available_tools", plist [PStr "get_dashboard"])]))
  /\ grafana_execute_tool schema_backend "get_dashboard" [] connected
     = (connected,
        Ret (dict [("status", PStr "error");
                   ("error", PStr "Missing required parameters: ['uid']");
                   ("tool", PStr "get_dashboard");
                   ("required_parameters", plist [PStr "uid"])]))
  /\ sent (fst (grafana_execute_tool schema_backend "get_dashboard"
                  [("uid", PStr "abc123")] connected))
     = [Post Grafana (jsonrpc_tools_call "get_dashboard"
                        (dict [("uid", PStr "abc123")]) (PInt 1))].
Proof.
  assert (Hd : declares (grafana_tools schema_backend) "get_dashboard" ["uid"]).
  { exists tt. eexists. exists tt. eexists. exists tt.
    split; [reflexivity|]. split; reflexivity. }
  split; [|split].
  - apply (proj1 (grafana_execute_tool_validates schema_backend "list_panels" []
                    connected)).
    reflexivity.
  - apply (proj1 (proj2 (grafana_execute_tool_validates schema_backend
                           "get_dashboard" [] connected)) ["uid"] Hd).
    discriminate.
  - apply (proj2 (proj2 (grafana_execute_tool_validates schema_backend
                           "get_dashboard" [("uid", PStr "abc123")] connected))
             ["uid"] Hd).
    reflexivity.
Defined.

(** ** The client singletons *)

(** X5. [get_grafana_mcp_client]: a cached client is returned without any
    request; the first call sends [initialize] and caches the client only if
    the server accepts, a failed client is not cached and the call raises;
    after a call that succeeded the next one costs nothing. *)
Theorem get_grafana_mcp_client_singleton (B : backend) (w : world) :
  (forall n, grafana_client w = Some n ->
             get_grafana_mcp_client B w = (w, Ret tt))
  /\ (grafana_client w = None -> initialized B w = true ->
      get_grafana_mcp_client B w
      = (mkWorld (sent w ++ [initialize_request]) (Some 1%Z) (esxi_client w)
                 (prometheus_client w), Ret tt))
  /\ (grafana_client w = None -> initialized B w = false ->
      get_grafana_mcp_client B w
      = (mkWorld (sent w ++ [initialize_request]) None (esxi_client w)
                 (prometheus_client w),
         Raise (Exn Exception "Grafana MCP server not accessible")))
  /\ (forall w', get_grafana_mcp_client B w = (w', Ret tt) ->
                 get_grafana_mcp_client B w' = (w', Ret tt)).
Proof.
  assert (Hcached : forall w0 n, grafana_client w0 = Some n ->
                                 get_grafana_mcp_client B w0 = (w0, Ret tt)).
  { intros w0 n H. unfold get_grafana_mcp_client. now rewrite H. }
  assert (Hnew : grafana_client w = None ->
                 get_grafana_mcp_client B w
                 = if initialized B w
                   then (mkWorld (sent w ++ [initialize_request]) (Some 1%Z)
                                 (esxi_client w) (prometheus_client w), Ret tt)
                   else (mkWorld (sent w ++ [initialize_request]) None
                                 (esxi_client w) (prometheus_client w),
                         Raise (Exn Exception "Grafana MCP server not accessible"))).
  { intros H. unfold get_grafana_mcp_client, initialized. rewrite H.
    unfold mbind, grafana_start_server, catch, mbind, send, ret.
    cbn [sent grafana_client esxi_client prometheus_client].
    fold initialize_request.
    destruct (http B (sent w) initialize_request) as [r|e]; [|reflexivity].
    now destruct (initialize_ok r). }
  split; [apply Hcached|]. split; [|split].
  - intros Hc Hi. now rewrite Hnew, Hi.
  - intros Hc Hi. now rewrite Hnew, Hi.
  - intros w' H. destruct (grafana_client w) as [n|] eqn:Hc.
    + rewrite (Hcached w n Hc) in H. injection H as <-. now apply (Hcached w n).
    + rewrite Hnew in H by reflexivity.
      destruct (initialized B w); [|discriminate H].
      injection H as <-. now apply (Hcached _ 1%Z).
Qed.

Lemma get_grafana_mcp_client_singleton_witness :
  get_grafana_mcp_client node_exporter_backend initial
  = (mkWorld [initialize_request] (Some 1%Z) None None, Ret tt)
  /\ get_grafana_mcp_client node_exporter_backend
       (mkWorld [initialize_request] (Some 1%Z) None None)
     = (mkWorld [initialize_request] (Some 1%Z) None None, Ret tt)
  /\ get_grafana_mcp_client unreachable initial
     = (mkWorld [initialize_request] None None None,
        Raise (Exn Exception "Grafana MCP server not accessible")).
Proof.
  split; [|split].
  - apply (proj1 (proj2 (get_grafana_mcp_client_singleton node_exporter_backend
                           initial))); reflexivity.
  - apply (proj1 (get_grafana_mcp_client_singleton node_exporter_backend
                    (mkWorld [initialize_request] (Some 1%Z) None None)) 1%Z).
    reflexivity.
  - apply (proj1 (proj2 (proj2 (get_grafana_mcp_client_singleton unreachable
                                  initial)))); reflexivity.
Defined.

(** ** The kubernetes branch *)

(** X6. When the health check of the Kubernetes server fails, by status or
    by exception, the command is answered with an error string and nothing
    but the health check has been sent. *)
Theorem kubernetes_unhealthy_sends_nothing
    (B : backend) (cmd : pydict unit) (w : world) :
  cmd_get "domain" cmd = PStr "kubernetes" ->
  (forall r, http B (sent w) (Get Kubernetes) = Ret r ->
             status_code r <> 200%Z ->
             route_infra_command B cmd w
             = (with_sent w [Get Kubernetes],
                Ret ("Error: Kubernetes MCP server health check failed (status "
                     ++ int_str (status_code r) ++ ")")))
  /\ (forall e, http B (sent w) (Get Kubernetes) = Raise e ->
                route_infra_command B cmd w
                = (with_sent w [Get Kubernetes],
                   Ret ("Error: Kubernetes MCP server not accessible: "
                        ++ exn_msg e))).
Proof.
  intros Hd. split.
  - intros r Hh Hs.
    rewrite route_infra_command_catch, route_body_kubernetes by exact Hd.
    unfold mbind at 1. unfold kubernetes_branch. unfold mbind at 1.
    unfold kubernetes_health, catch, mbind, send. rewrite Hh.
    apply Z.eqb_neq in Hs. rewrite Hs. reflexivity.
  - intros e Hh.
    rewrite route_infra_command_catch, route_body_kubernetes by exact Hd.
    unfold mbind at 1. unfold kubernetes_branch. unfold mbind at 1.
    unfold kubernetes_health, catch, mbind, send. rewrite Hh.
    reflexivity.
Qed.

Lemma kubernetes_unhealthy_sends_nothing_witness :
  route_infra_command refusing describe_pod_cmd initial
  = (with_sent initial [Get Kubernetes],
     Ret "Error: Kubernetes MCP server health check failed (status 503)")
  /\ route_infra_command unreachable describe_pod_cmd initial
     = (with_sent initial [Get Kubernetes],
        Ret "Error: Kubernetes MCP server not accessible: All connection attempts failed").
Proof.
  split.
  - apply (proj1 (kubernetes_unhealthy_sends_nothing refusing describe_pod_cmd
                    initial eq_refl)
             (mkResponse 503 (Raise decode_error) "Service Unavailable")).
    + reflexivity.
    + discriminate.
  - apply (proj2 (kubernetes_unhealthy_sends_nothing unreachable describe_pod_cmd
                    initial eq_refl)
             (Exn Exception "All connection attempts failed")).
    reflexivity.
Defined.

(** X7. With a healthy server, the seventeen kubernetes actions that go
    through [client.call_method] all end in the same error string: [client]
    is the [httpx.AsyncClient] of the health check, which has no such
    method.  Only the health check has been sent. *)
Theorem kubernetes_call_method_missing
    (B : backend) (cmd : pydict unit) (w : world) (r : http_response) :
  cmd_get "domain" cmd = PStr "kubernetes" ->
  in_list (cmd_get "action" cmd) call_method_actions = true ->
  hashable (cmd_get "resource" cmd) = true ->
  http B (sent w) (Get Kubernetes) = Ret r ->
  status_code r = 200%Z ->
  route_infra_command B cmd w
  = (with_sent w [Get Kubernetes],
     Ret "Error executing command: 'AsyncClient' object has no attribute 'call_method'").
Proof.
  intros Hd Ha Hr Hh Hs.
  rewrite route_infra_command_catch, route_body_kubernetes by exact Hd.
  unfold mbind at 1. unfold kubernetes_branch. unfold mbind at 1.
  rewrite (kubernetes_health_ok B w r Hh Hs).
  apply in_list_cases in Ha. destruct Ha as [a [Ha Ea]]. rewrite Ea.
  destruct (cmd_get "resource" cmd) as [| | |res| |] eqn:Er; try discriminate Hr;
    cbn [map_resource];
    simpl in Ha;
    repeat (destruct Ha as [<-|Ha]; [reflexivity|]);
    contradiction.
Qed.

Lemma kubernetes_call_method_missing_witness :
  route_infra_command node_exporter_backend describe_pod_cmd initial
  = (with_sent initial [Get Kubernetes],
     Ret "Error executing command: 'AsyncClient' object has no attribute 'call_method'").
Proof.
  apply (kubernetes_call_method_missing node_exporter_backend describe_pod_cmd
           initial (mkResponse 200 (Ret PNone) EmptyString)).
  - reflexivity.
  - reflexivity.
  - reflexivity.
  - reflexivity.
  - reflexivity.
Defined.

(** ** The prometheus branch *)

(** X8. A prometheus [query] command whose query is missing or empty is
    answered with an error string and never reaches the server: with a
    cached client nothing is sent, without one only the connectivity check
    of the new client. *)
Theorem prometheus_query_needs_text
    (B : backend) (cmd : pydict unit) (w : world) :
  cmd_get "domain" cmd = PStr "prometheus" ->
  cmd_get "action" cmd = PStr "query" ->
  truthy (cmd_get "query" cmd) = false ->
  (forall n, prometheus_client w = Some n ->
             route_infra_command B cmd w
             = (w, Ret "Error: Missing required parameter 'query' for Prometheus query"))
  /\ (prometheus_client w = None ->
      exists answer c,
        route_infra_command B cmd w
        = (mkWorld (sent w ++ [Get Prometheus]) (grafana_client w) (esxi_client w) c,
           Ret answer)
        /\ (answer = "Error: Missing required parameter 'query' for Prometheus query"
            \/ answer = "Error executing command: Prometheus MCP server not accessible")).
Proof.
  intros Hd Ha Hq.
  assert (E : route_infra_command B cmd w
              = match get_prometheus_mcp_client B w with
                | (w', Ret _) =>
                    (w', Ret "Error: Missing required parameter 'query' for Prometheus query")
                | (w', Raise e) => (w', Ret ("Error executing command: " ++ exn_msg e))
                end).
  { rewrite route_infra_command_catch. unfold route_body. rewrite Hd.
    change (py_eq (PStr "prometheus") (PStr "kubernetes")) with false.
    change (py_eq (PStr "prometheus") (PStr "prometheus")) with true.
    cbv iota. unfold mbind at 1. unfold prometheus_branch. unfold mbind at 1.
    destruct (get_prometheus_mcp_client B w) as [w' [[]|e]]; [|reflexivity].
    rewrite Ha, Hq. reflexivity. }
  split.
  - intros n Hc. rewrite E. unfold get_prometheus_mcp_client. now rewrite Hc.
  - intros Hc. rewrite E. unfold get_prometheus_mcp_client. rewrite Hc.
    unfold mbind, prometheus_start_server, catch, mbind, send, ret.
    cbn [sent grafana_client esxi_client prometheus_client].
    destruct (http B (sent w) (Get Prometheus)) as [r|e];
      [destruct (status_code r =? 200)%Z|];
      (eexists; eexists; split; [reflexivity|]; auto).
Qed.

Lemma prometheus_query_needs_text_witness :
  route_infra_command node_exporter_backend empty_query_cmd connected
  = (connected, Ret "Error: Missing required parameter 'query' for Prometheus query")
  /\ exists answer c,
       route_infra_command unreachable empty_query_cmd initial
       = (mkWorld [Get Prometheus] None None c, Ret answer)
       /\ (answer = "Error: Missing required parameter 'query' for Prometheus query"
           \/ answer = "Error executing command: Prometheus MCP server not accessible").
Proof.
  split.
  - apply (proj1 (prometheus_query_needs_text node_exporter_backend
                    empty_query_cmd connected eq_refl eq_refl eq_refl) 1%Z).
    reflexivity.
  - apply (proj2 (prometheus_query_needs_text unreachable empty_query_cmd
                    initial eq_refl eq_refl eq_refl)).
    reflexivity.
Defined.

Lemma route_vmware_call B cmd w method params :
  cmd_get "domain" cmd = PStr "vmware" ->
  (forall w', vmware_branch B cmd (cmd_get "action" cmd) (cmd_get "resource" cmd)
                (cmd_get "name" cmd) w'
              = (_ <~ get_esxi_mcp_client B ;;
                 result <~ esxi_call_method B method (dict params) ;;
                 ret (Some (json_dumps result))) w') ->
  route_infra_command B cmd w = reported (esxi_tool B method params w).
Proof.
  intros Hd Hb.
  rewrite route_infra_command_catch, route_body_vmware by exact Hd.
  unfold mbind at 1. rewrite Hb. unfold esxi_tool, mbind.
  destruct (get_esxi_mcp_client B w) as [w1 [[]|e]]; [|reflexivity].
  destruct (esxi_call_method B method (dict params) w1) as [w2 [v|e]]; reflexivity.
Qed.

(** X9. For [power_on], [power_off], [delete], [create] and [clone] the
    vmware branch of the router does what the wrappers of
    [mcp_esxi_client.py] do, with the defaults of the router ([cpu] 2,
    [memory] 4096, [template_name] from [name], [new_name] from
    [target_name]); an exception of the wrapper becomes the error string of
    the router. *)
Theorem vmware_router_agrees_with_wrappers (B : backend) (cmd : pydict unit) (w : world) :
  cmd_get "domain" cmd = PStr "vmware" ->
  let name := cmd_get "name" cmd in
  (cmd_get "action" cmd = PStr "power_on" ->
   route_infra_command B cmd w = reported (mcp_esxi_power_on B name w))
  /\ (cmd_get "action" cmd = PStr "power_off" ->
      route_infra_command B cmd w = reported (mcp_esxi_power_off B name w))
  /\ (cmd_get "action" cmd = PStr "delete" ->
      route_infra_command B cmd w = reported (mcp_esxi_delete_vm B name w))
  /\ (cmd_get "action" cmd = PStr "create" ->
      route_infra_command B cmd w
      = reported (mcp_esxi_create_vm B name
                    (dict_get_default "cpu" (PInt 2) cmd)
                    (dict_get_default "memory" (PInt 4096) cmd)
                    (cmd_get "datastore" cmd) (cmd_get "network" cmd) w))
  /\ (cmd_get "action" cmd = PStr "clone" ->
      route_infra_command B cmd w
      = reported (mcp_esxi_clone_vm B
                    (dict_get_default "template_name" name cmd)
                    (dict_get_default "new_name" (cmd_get "target_name" cmd) cmd) w)).
Proof.
  intros Hd name. repeat split; intros Ha;
    (apply route_vmware_call; [exact Hd|]; intros w';
     unfold vmware_branch; rewrite Ha; reflexivity).
Qed.

Lemma vmware_router_agrees_with_wrappers_witness :
  route_infra_command node_exporter_backend power_on_cmd initial
  = reported (mcp_esxi_power_on node_exporter_backend (PStr "db-01") initial).
Proof.
  apply (proj1 (vmware_router_agrees_with_wrappers node_exporter_backend
                  power_on_cmd initial eq_refl)).
  reflexivity.
Defined.

(** ** Listings pass through *)

(** X10. Listing the dashboards: when the server answers with MCP content
    whose text decodes to a list, the router returns that list as
    [json.dumps] writes it, which need not be the text received, and the
    request id of the client goes up by one. *)
Theorem grafana_list_dashboards_unwrapped
    (B : backend) (cmd : pydict unit) (w : world) (n : Z)
    (r : http_response) (result : value) (text : string)
    (dashboards : list value) :
  cmd_get "domain" cmd = PStr "grafana" ->
  cmd_get "action" cmd = PStr "list" ->
  in_list (cmd_get "resource" cmd) ["dashboards"; "dashboard"] = true ->
  grafana_client w = Some n ->
  validate_tool (grafana_tools B) "list_dashboards" [] = Ret None ->
  http B (sent w)
       (Post Grafana (jsonrpc_tools_call "list_dashboards" (dict []) (PInt n)))
  = Ret r ->
  status_code r = 200%Z ->
  json r = Ret result ->
  is_server_error result = false ->
  mcp_text result = Some (PStr text) ->
  json_loads text = Ret (plist dashboards) ->
  route_infra_command B cmd w
  = (mkWorld (sent w ++ [Post Grafana (jsonrpc_tools_call "list_dashboards"
                                         (dict []) (PInt n))])
             (Some (n + 1)%Z) (esxi_client w) (prometheus_client w),
     Ret (json_dumps (plist dashboards))).
Proof.
  intros Hd Ha Hr Hc Hv Hh Hs Hj He Ht Hx.
  rewrite route_infra_command_catch, route_body_grafana by exact Hd.
  unfold mbind at 1. unfold grafana_branch. unfold mbind at 1.
  unfold get_grafana_mcp_client. rewrite Hc, Ha, Hr.
  change (py_eq (PStr "list") (PStr "list")) with true. cbv iota.
  unfold mbind at 1. unfold grafana_execute_tool. unfold mbind at 1.
  rewrite Hv. unfold lift at 1.
  unfold catch, mbind at 1, send, grafana_id. rewrite Hc, Hh.
  unfold lift, read_response, decoded. rewrite Hs, Hj.
  cbn [Z.eqb Pos.eqb andb]. unfold mbind, grafana_bump, ret.
  cbn [sent grafana_client esxi_client prometheus_client option_map].
  rewrite He. unfold unwrap_listing, catch_classes, mbind, lift. rewrite Ht.
  cbn [loads_value]. rewrite Hx.
  reflexivity.
Qed.

(** The compact listing comes back with the spaces of [json.dumps]. *)
Lemma grafana_list_dashboards_unwrapped_witness :
  route_infra_command compact_backend list_dashboards_cmd connected
  = (mkWorld [Post Grafana (jsonrpc_tools_call "list_dashboards" (dict []) (PInt 1))]
             (Some 2%Z) (Some 1%Z) (Some 1%Z),
     Ret (json_dumps node_exporter_dashboards))
  /\ json_dumps node_exporter_dashboards <> compact_listing.
Proof.
  split.
  - apply (grafana_list_dashboards_unwrapped compact_backend
             list_dashboards_cmd connected 1%Z
             (mkResponse 200 (Ret (mcp_content compact_listing)) EmptyString)
             (mcp_content compact_listing) compact_listing
             [dict [("title", PStr "Node Exporter Full"); ("uid", PStr "abc123")]]).
    + reflexivity.
    + reflexivity.
    + reflexivity.
    + reflexivity.
    + reflexivity.
    + reflexivity.
    + reflexivity.
    + reflexivity.
    + reflexivity.
    + reflexivity.
    + reflexivity.
  - discriminate.
Defined.

End ClientProps.

(** ** The job log of the worker *)

Module AuditProps.
Import Py PyProps Text Json JsonProps Worker WorkerProps.
Local Open Scope string_scope.

Lemma grows_by_refl st : grows_by st st [] [].
Proof. split; now rewrite app_nil_r. Qed.

Lemma tool_lookup_some (v : value) (name : string) :
  tool_lookup v = Ret (Some name) -> v = PStr name.
Proof.
  destruct v as [| | |t| |]; cbn [tool_lookup]; try discriminate.
  destruct (existsb (String.eqb t) TOOL_MAP); intros [=]. now subst.
Qed.

Lemma process_task_grows rejected (tools : handlers) (task_data : value) (st : state) :
  exists rows calls,
    grows_by st (fst (process_task rejected tools task_data st)) rows calls
    /\ List.length calls <= List.length rows <= 1.
Proof.
  unfold process_task, wbind, lift, get_default.
  destruct task_data as [| | | | |t d];
    try (exists [], []; split; [apply grows_by_refl | simpl; lia]).
  destruct (tool_lookup (dict_get_default "tool" PNone d)) as [[name|]|e] eqn:El.
  - apply tool_lookup_some in El. rewrite El.
    unfold catch, wbind, call_tool, lift.
    destruct (dict_get_default "params" (PDict tt []) d) as [| | | | |tp kwargs];
      try (eexists [_], []; split; [split; [reflexivity | simpl; now rewrite app_nil_r]
                                   | simpl; lia]).
    cbn [fst snd job_log invoked].
    destruct (tools (invoked st) name kwargs) as [result|e];
      [|eexists [_], [_]; split; [split; reflexivity | simpl; lia]].
    destruct (match result with PStr text => json_loads text | _ => Ret result end)
      as [data|e];
      [|eexists [_], [_]; split; [split; reflexivity | simpl; lia]].
    destruct data as [| | | | |tr r];
      try (eexists [_], [_]; split; [split; reflexivity | simpl; lia]).
    cbn [bind].
    unfold ret, log_job.
    destruct (truthy (dict_get_default "vm_name" PNone kwargs));
      [|destruct (truthy (dict_get_default "pod_name" PNone kwargs))];
      match goal with
      | |- context [storable ?row] => destruct (storable row)
      end;
      eexists [_], [_]; (split; [split; reflexivity | simpl; lia]).
  - unfold log_job.
    match goal with
    | |- context [storable ?row] => destruct (storable row)
    end.
    + eexists [_], []. split; [split; [reflexivity | simpl; now rewrite app_nil_r]
                              | simpl; lia].
    + exists [], []. split; [apply grows_by_refl | simpl; lia].
  - exists [], []. split; [apply grows_by_refl | simpl; lia].
Qed.

Lemma worker_turn_grows rejected (tools : handlers) (p : pop) (st : state) :
  exists rows calls,
    grows_by st (fst (worker_turn rejected tools p st)) rows calls
    /\ List.length calls <= List.length rows <= messages_in [p].
Proof.
  destruct p as [|task_json|e|]; cbn [worker_turn];
    try (exists [], []; split; [apply grows_by_refl | simpl; lia]).
  destruct (json_loads task_json) as [task_data|e];
    [|exists [], []; split; [apply grows_by_refl | simpl; lia]].
  exact (process_task_grows rejected tools task_data st).
Qed.

(** X11. Whatever the queue delivers and whatever the handlers do, the
    worker only appends to the job log: no row is changed or removed, there
    is at most one row per message, and no handler is invoked without a row
    being logged for it. *)
Theorem worker_loop_audit
    (rejected : job -> exn) (tools : handlers) (pops : list pop) (st : state) :
  exists rows calls,
    grows_by st (fst (worker_loop rejected tools pops st)) rows calls
    /\ List.length calls <= List.length rows <= messages_in pops.
Proof.
  revert st. induction pops as [|p pops IH]; intros st.
  - exists [], []. split; [apply grows_by_refl | simpl; lia].
  - destruct (worker_turn_grows rejected tools p st)
      as [rows1 [calls1 [[Hr1 Hc1] Hn1]]].
    cbn [worker_loop].
    destruct (worker_turn rejected tools p st) as [st1 go] eqn:E.
    cbn [fst] in Hr1, Hc1.
    assert (Hm : messages_in (p :: pops) = messages_in [p] + messages_in pops).
    { unfold messages_in. cbn [filter]. destruct p; simpl; lia. }
    destruct go.
    + destruct (IH st1) as [rows2 [calls2 [[Hr2 Hc2] Hn2]]].
      exists (rows1 ++ rows2)%list, (calls1 ++ calls2)%list. split.
      * split; [now rewrite Hr2, Hr1, app_assoc | now rewrite Hc2, Hc1, app_assoc].
      * rewrite !length_app. lia.
    + exists rows1, calls1. split; [split; assumption | lia].
Qed.

(** ** A task that succeeds *)

(** X12. A task whose handler returns a dict, or the JSON text of one, is
    logged once.  When the table takes the row -- the result is text, and so
    are the status it holds (["unknown"] when it has none) and the target,
    the first truthy one of [vm_name], [pod_name] and [deployment_name]
    (["unknown"] when there is none) -- the task is logged with that status
    and that target.  When it does not, as for a result that is a dict, the
    insert fails and the task is logged with status ["error"]. *)
Theorem process_task_success
    (rejected : job -> exn) (tools : handlers) (st : state)
    (t : unit) (d : pydict unit)
    (name : string) (tp : unit) (kwargs : pydict unit)
    (result : value) (tr : unit) (r : pydict unit) :
  let row := mkJob (PStr name) (target_of kwargs)
                   (dict_get_default "status" (PStr "unknown") r) result in
  dict_get_default "tool" PNone d = PStr name ->
  In name TOOL_MAP ->
  dict_get_default "params" (PDict tt []) d = PDict tp kwargs ->
  tools (invoked st) name kwargs = Ret result ->
  result_data result = Ret (PDict tr r) ->
  process_task rejected tools (PDict t d) st
  = (mkState (job_log st
              ++ [if storable row then row
                  else mkJob (PStr name) (PStr (py_repr (PDict tp kwargs)))
                             (PStr "error")
                             (PStr ("Error executing " ++ name ++ ": "
                                    ++ exn_msg (rejected row)))])%list
             (invoked st ++ [(name, kwargs)])%list,
     Ret tt).
Proof.
  intros row Ht Hin Hp Hr Hd.
  assert (Hl : tool_lookup (PStr name) = Ret (Some name)).
  { cbn [tool_lookup].
    replace (existsb (String.eqb name) TOOL_MAP) with true; [reflexivity|].
    symmetry. apply existsb_exists. exists name. split; [exact Hin|].
    apply String.eqb_refl. }
  assert (Hrow : row = mkJob (PStr name)
                   (if truthy (dict_get_default "vm_name" PNone kwargs)
                    then dict_get_default "vm_name" PNone kwargs
                    else if truthy (dict_get_default "pod_name" PNone kwargs)
                         then dict_get_default "pod_name" PNone kwargs
                         else py_or (dict_get_default "deployment_name" PNone kwargs)
                                    (PStr "unknown"))
                   (dict_get_default "status" (PStr "unknown") r) result).
  { unfold row, target_of, py_or. cbn [map find].
    destruct (truthy (dict_get_default "vm_name" PNone kwargs)); [reflexivity|].
    destruct (truthy (dict_get_default "pod_name" PNone kwargs)); [reflexivity|].
    destruct (truthy (dict_get_default "deployment_name" PNone kwargs)); reflexivity. }
  unfold process_task, wbind, lift, get_default. rewrite Ht, Hl, Hp.
  unfold catch, wbind, call_tool, lift. rewrite Hr.
  unfold result_data in Hd. rewrite Hd. cbn [bind].
  unfold ret, log_job. cbn [fst snd job_log invoked].
  destruct (truthy (dict_get_default "vm_name" PNone kwargs));
    [|destruct (truthy (dict_get_default "pod_name" PNone kwargs))];
    rewrite Hrow; cbv zeta;
    match goal with
    | |- context [storable ?x] => destruct (storable x)
    end; reflexivity.
Qed.

Lemma process_task_success_witness :
  process_task sample_rejected sample_tools
    (PDict tt [("tool", PStr "mcp_restart_pod");
               ("params", PDict tt [("pod_name", PStr "web-1")])])
    empty_state
  = (mkState [mkJob (PStr "mcp_restart_pod") (PStr "web-1") (PStr "success")
                    (PStr (json_dumps (PDict tt [("status", PStr "success")] : value)))]
             [("mcp_restart_pod", [("pod_name", PStr "web-1")])],
     Ret tt).
Proof.
  apply (process_task_success sample_rejected sample_tools empty_state tt
           [("tool", PStr "mcp_restart_pod");
            ("params", PDict tt [("pod_name", PStr "web-1")])]
           "mcp_restart_pod" tt [("pod_name", PStr "web-1")]
           (PStr (json_dumps (PDict tt [("status", PStr "success")] : value))) tt
           [("status", PStr "success")]).
  - reflexivity.
  - simpl. auto.
  - reflexivity.
  - reflexivity.
  - reflexivity.
Defined.

(** ** What is no task *)

(** X13. A message that is valid JSON but no object is dropped: nothing
    is logged, no handler is invoked, and the loop goes on. *)
Theorem worker_drops_non_objects
    (rejected : job -> exn) (tools : handlers) (st : state)
    (task_json : string) (task_data : value) :
  json_loads task_json = Ret task_data ->
  is_dict task_data = false ->
  worker_turn rejected tools (Message task_json) st = (st, true).
Proof.
  intros Hj Hd. cbn [worker_turn]. rewrite Hj.
  destruct task_data; try discriminate Hd; reflexivity.
Qed.

Lemma worker_drops_non_objects_witness :
  worker_turn sample_rejected sample_tools (Message "[1, 2]") empty_state
  = (empty_state, true).
Proof.
  apply (worker_drops_non_objects sample_rejected sample_tools empty_state "[1, 2]"
           (PList tt [PInt 1; PInt 2])).
  - vm_compute. reflexivity.
  - reflexivity.
Defined.

End AuditProps.

(** ** The worker with the entries of [TOOL_MAP] *)

Module ToolsProps.
Import Py PyProps Text Json JsonProps JsonNumberProps Worker WorkerProps Tools.
Local Open Scope string_scope.

(** X14. [mcp_get_grafana_dashboard] and [mcp_scale_deployment] are plain
    functions, so awaiting what they return fails: whatever the parameters
    and whatever the functions do, such a task is logged with status
    ["error"]. *)
Theorem plain_functions_always_fail
    (rejected : job -> exn) (bodies : handlers) (st : state)
    (t : unit) (d : pydict unit) (name : string) :
  dict_get_default "tool" PNone d = PStr name ->
  In name ["mcp_get_grafana_dashboard"; "mcp_scale_deployment"] ->
  exists row calls,
    process_task rejected (tool_table bodies) (PDict t d) st
    = (mkState (job_log st ++ [row])%list (invoked st ++ calls)%list, Ret tt)
    /\ job_action row = PStr name
    /\ job_status row = PStr "error".
Proof.
  intros Ht Hin.
  assert (Hl : tool_lookup (PStr name) = Ret (Some name)).
  { cbn [In] in Hin. destruct Hin as [<-|[<-|[]]]; reflexivity. }
  assert (Hs : forall calls kwargs, exists e,
               tool_table bodies calls name kwargs = Raise e).
  { intros calls kwargs. unfold tool_table.
    cbn [In] in Hin. destruct Hin as [<-|[<-|[]]]; cbn [String.eqb Ascii.eqb Bool.eqb];
      cbn [is_coroutine_function existsb String.eqb Ascii.eqb Bool.eqb orb];
      match goal with |- context [bodies ?c ?n ?k] => destruct (bodies c n k) end;
      eauto. }
  unfold process_task, wbind, lift, get_default. rewrite Ht, Hl.
  unfold catch, wbind, call_tool, lift.
  destruct (dict_get_default "params" (PDict tt []) d) as [| | | | |tp kwargs];
    try (eexists; exists []; rewrite app_nil_r; split; [reflexivity|];
         split; reflexivity).
  destruct (Hs (invoked st) kwargs) as [e He]. rewrite He.
  eexists; eexists. split; [reflexivity|]. split; reflexivity.
Qed.

Lemma plain_functions_always_fail_witness :
  exists row calls,
    process_task sample_rejected (tool_table sample_tools)
      (PDict tt [("tool", PStr "mcp_scale_deployment");
                 ("params", PDict tt [("deployment_name", PStr "web");
                                      ("replicas", PInt 3)])])
      empty_state
    = (mkState [row] calls, Ret tt)
    /\ job_action row = PStr "mcp_scale_deployment"
    /\ job_status row = PStr "error".
Proof.
  destruct (plain_functions_always_fail sample_rejected sample_tools empty_state tt
              [("tool", PStr "mcp_scale_deployment");
               ("params", PDict tt [("deployment_name", PStr "web");
                                    ("replicas", PInt 3)])]
              "mcp_scale_deployment")
    as [row [calls H]].
  - reflexivity.
  - simpl. auto.
  - exists row, calls. exact H.
Defined.

(** X15. A task for [mcp_restart_vm] with a non-empty [vm_name] is logged
    with that name as target and status ["success"]; the result it logs is
    JSON text that decodes to the answer of the tool. *)
Theorem restart_vm_task_succeeds
    (rejected : job -> exn) (bodies : handlers) (st : state)
    (t : unit) (d : pydict unit) (tp : unit) (vm : string) :
  dict_get_default "tool" PNone d = PStr "mcp_restart_vm" ->
  dict_get_default "params" (PDict tt []) d = PDict tp [("vm_name", PStr vm)] ->
  vm <> EmptyString ->
  exists text,
    process_task rejected (tool_table bodies) (PDict t d) st
    = (mkState (job_log st
                ++ [mkJob (PStr "mcp_restart_vm") (PStr vm) (PStr "success")
                          (PStr text)])%list
               (invoked st ++ [("mcp_restart_vm", [("vm_name", PStr vm)])])%list,
       Ret tt)
    /\ json_loads text
       = Ret (PDict tt [("status", PStr "success");
                        ("action", PStr "restart_vm");
                        ("target", PStr vm);
                        ("message", PStr ("VM '" ++ vm
                                          ++ "' restart initiated (simulated)"))]).
Proof.
  intros Ht Hp Hv. eexists. split.
  - unfold process_task, wbind, lift, get_default. rewrite Ht, Hp.
    cbn [tool_lookup TOOL_MAP existsb String.eqb Ascii.eqb Bool.eqb orb].
    unfold catch, wbind, call_tool, lift, tool_table.
    cbn [String.eqb Ascii.eqb Bool.eqb].
    unfold mcp_restart_vm.
    cbn [find fst negb String.eqb Ascii.eqb Bool.eqb dict_get py_str].
    rewrite json_loads_encoded by reflexivity. cbn [bind].
    destruct vm as [|c vm]; [now contradiction Hv | reflexivity].
  - apply json_loads_encoded. reflexivity.
Qed.

Lemma restart_vm_task_succeeds_witness :
  exists text,
    process_task sample_rejected (tool_table sample_tools)
      (PDict tt [("tool", PStr "mcp_restart_vm");
                 ("params", PDict tt [("vm_name", PStr "db-01")])])
      empty_state
    = (mkState [mkJob (PStr "mcp_restart_vm") (PStr "db-01") (PStr "success")
                      (PStr text)]
               [("mcp_restart_vm", [("vm_name", PStr "db-01")])],
       Ret tt)
    /\ json_loads text
       = Ret (PDict tt [("status", PStr "success");
                        ("action", PStr "restart_vm");
                        ("target", PStr "db-01");
                        ("message", PStr "VM 'db-01' restart initiated (simulated)")]).
Proof.
  apply (restart_vm_task_succeeds sample_rejected sample_tools empty_state tt
           [("tool", PStr "mcp_restart_vm");
            ("params", PDict tt [("vm_name", PStr "db-01")])] tt "db-01").
  - reflexivity.
  - reflexivity.
  - discriminate.
Defined.

End ToolsProps.

(** ** From the webhook to the worker *)

Module ApiProps.
Import Py PyProps Text Json JsonProps JsonNumberProps SelfHealing SelfHealingProps
  Worker WorkerProps Api.
Local Open Scope string_scope.

Lemma json_dumps_forget (v : val) : json_dumps (forget v) = json_dumps v.
Proof.
  induction v as [|b|z|s|t l IH|t d IH] using pyval_nested_ind; try reflexivity.
  - cbn [forget json_dumps]. rewrite map_map. f_equal. f_equal. f_equal.
    apply map_ext_in. intros x Hx. rewrite Forall_forall in IH. now apply IH.
  - cbn [forget json_dumps]. rewrite map_map. f_equal. f_equal. f_equal.
    apply map_ext_in. intros [k x] Hx. cbn [fst snd].
    rewrite Forall_forall in IH. pose proof (IH _ Hx) as E. cbn [snd] in E.
    now rewrite E.
Qed.

(** X16. When an alert matches a policy, [receive_alert] pushes the JSON
    text of the action on the left of the queue, and the worker that pops
    this text processes the same action, as [json.loads] gives it back. *)
Theorem alert_reaches_worker
    (rows : list Policy) (fresh : objid) (alert : PrometheusAlert)
    (action : val) (queue : list string) :
  evaluate_alert rows fresh alert = Ret (Some action) ->
  truthy action = true ->
  encodable (forget action) = true ->
  fst (receive_alert rows fresh alert (Ret tt) queue) = json_dumps action :: queue
  /\ json_loads (json_dumps action) = Ret (forget action)
  /\ (forall rejected tools st,
        worker_turn rejected tools (Message (json_dumps action)) st
        = (fst (process_task rejected tools (forget action) st), true)).
Proof.
  intros He Ht Hj.
  assert (Hl : json_loads (json_dumps action) = Ret (forget action)).
  { rewrite <- json_dumps_forget. now apply json_loads_encoded. }
  split; [|split].
  - unfold receive_alert. now rewrite He, Ht.
  - exact Hl.
  - intros rejected tools st. cbn [worker_turn]. now rewrite Hl.
Qed.

Lemma alert_reaches_worker_witness :
  fst (receive_alert [restart_policy] 100 two_entries (Ret tt) [])
  = [json_dumps restart_action]
  /\ json_loads (json_dumps restart_action) = Ret (forget restart_action)
  /\ (forall rejected tools st,
        worker_turn rejected tools (Message (json_dumps restart_action)) st
        = (fst (process_task rejected tools (forget restart_action) st), true)).
Proof.
  apply (alert_reaches_worker [restart_policy] 100 two_entries restart_action []).
  - vm_compute. reflexivity.
  - reflexivity.
  - reflexivity.
Defined.

Lemma serve_older (rejected : job -> exn) (tools : handlers) (queue : list string) :
  forall (x : string) (st : state),
    serve rejected tools (List.length queue) (x :: queue) st
    = (let (rest, st') := serve rejected tools (List.length queue) queue st in
       (x :: rest, st')).
Proof.
  induction queue as [|y queue IH] using rev_ind; intros x st; [reflexivity|].
  rewrite length_app, Nat.add_comm. cbn [List.length Nat.add serve].
  assert (E : brpop (queue ++ [y]) = (Message y, queue)).
  { unfold brpop. rewrite rev_app_distr. cbn [rev app]. now rewrite rev_involutive. }
  assert (E' : brpop (x :: queue ++ [y]) = (Message y, x :: queue)).
  { unfold brpop. cbn [rev]. rewrite rev_app_distr. cbn [rev app].
    rewrite rev_app_distr, rev_involutive. reflexivity. }
  rewrite E, E'. apply IH.
Qed.

Lemma serve_empties (rejected : job -> exn) (tools : handlers) (queue : list string) (st : state) :
  fst (serve rejected tools (List.length queue) queue st) = [].
Proof.
  revert st. induction queue as [|y queue IH] using rev_ind; intros st;
    [reflexivity|].
  rewrite length_app, Nat.add_comm. cbn [List.length Nat.add serve].
  assert (E : brpop (queue ++ [y]) = (Message y, queue)).
  { unfold brpop. rewrite rev_app_distr. cbn [rev app]. now rewrite rev_involutive. }
  rewrite E. apply IH.
Qed.

(** X17. The queue is served in arrival order: a task pushed on the left
    of a queue is processed after every task already there, and after as
    many turns as there are tasks the queue is empty. *)
Theorem tasks_served_in_arrival_order
    (rejected : job -> exn) (tools : handlers)
    (task_json : string) (queue : list string) (st : state) :
  serve rejected tools (S (List.length queue)) (task_json :: queue) st
  = ([], fst (worker_turn rejected tools (Message task_json)
                (snd (serve rejected tools (List.length queue) queue st)))).
Proof.
  replace (S (List.length queue)) with (List.length queue + 1) by lia.
  assert (Hsplit : forall n m q s,
             serve rejected tools (n + m) q s
             = serve rejected tools m (fst (serve rejected tools n q s)) (snd (serve rejected tools n q s))).
  { induction n as [|n IHn]; intros m q s; [reflexivity|].
    cbn [Nat.add serve]. destruct (brpop q) as [p q']. apply IHn. }
  rewrite Hsplit, serve_older.
  pose proof (serve_empties rejected tools queue st) as He.
  destruct (serve rejected tools (List.length queue) queue st) as [rest st'].
  cbn [fst snd] in *. subst rest. reflexivity.
Qed.

End ApiProps.

(** ** The Verify stage inside the graph *)

Module GraphProps.
Import Py PyProps Text Json JsonProps JsonNumberProps Verify VerifyProps Graph.
Local Open Scope string_scope.

(** ** Text without backtick, numbers included *)

Lemma no_backtick_digits (d : Decimal.uint) :
  no_backtick (NilEmpty.string_of_uint d) = true.
Proof. induction d; cbn; auto. Qed.

Lemma no_backtick_int_str (z : Z) : no_backtick (int_str z) = true.
Proof.
  unfold int_str. destruct z as [|p|p]; cbn [Z.to_int NilZero.string_of_int].
  - reflexivity.
  - unfold NilZero.string_of_uint.
    destruct (Pos.to_uint p) eqn:E; try reflexivity;
      rewrite <- E; apply no_backtick_digits.
  - unfold NilZero.string_of_uint.
    destruct (Pos.to_uint p) eqn:E; try reflexivity;
      rewrite <- E;
      change (no_backtick (String "-" ?s)) with (no_backtick s);
      apply no_backtick_digits.
Qed.

Lemma no_backtick_encoded (v : value) :
  backtick_free v = true -> no_backtick (json_dumps v) = true.
Proof.
  induction v as [|b|z|s|t l IH|t d IH] using pyval_nested_ind; intros Hb.
  - reflexivity.
  - now destruct b.
  - apply no_backtick_int_str.
  - now apply no_backtick_json_string.
  - cbn [json_dumps]. rewrite !no_backtick_append.
    rewrite no_backtick_join; [reflexivity | reflexivity |].
    cbn [backtick_free] in Hb.
    rewrite forallb_forall in Hb. rewrite Forall_forall in IH.
    apply Forall_forall. intros p Hp. apply in_map_iff in Hp.
    destruct Hp as [x [<- Hx]]. now apply IH; [|apply Hb].
  - cbn [json_dumps]. rewrite !no_backtick_append.
    rewrite no_backtick_join; [reflexivity | reflexivity |].
    cbn [backtick_free] in Hb.
    rewrite forallb_forall in Hb. rewrite Forall_forall in IH.
    apply Forall_forall. intros p Hp. apply in_map_iff in Hp.
    destruct Hp as [[k x] [<- Hx]]. cbn [fst snd].
    specialize (Hb _ Hx). cbn [fst snd] in Hb.
    apply andb_true_iff in Hb. destruct Hb as [Hk Hbx].
    rewrite !no_backtick_append, no_backtick_json_string by exact Hk.
    cbn [andb]. pose proof (IH _ Hx Hbx) as Hv. cbn [snd] in Hv.
    now rewrite Hv.
Qed.

(** ** An object in a fenced block *)

Lemma fenced_object_found (before : string) (d : pydict unit) (after : string) :
  no_backtick before = true ->
  backtick_free (PDict tt d) = true ->
  first_match patterns (fenced before (PDict tt d) after)
  = Some (json_dumps (PDict tt d)).
Proof.
  intros Hb Hd. unfold fenced, patterns. cbn [first_match].
  rewrite search_fenced_json_skips by exact Hb.
  pose proof (no_backtick_encoded _ Hd) as Hj.
  cbn [json_dumps] in *.
  set (body := join ", " (map (fun kv => json_string (fst kv) ++ ": "
                                          ++ json_dumps (snd kv)) d)) in *.
  change (("{" ++ body ++ "}") ++ newline ++ fence ++ after)
    with (String "{" ((body ++ "}") ++ newline ++ fence ++ after)).
  rewrite append_assoc.
  change (String "{" (body ++ "}" ++ newline ++ fence ++ after))
    with ("{" ++ body ++ "}" ++ newline ++ fence ++ after).
  erewrite search_here; [reflexivity|].
  apply (fenced_json_matches body after).
  rewrite !no_backtick_append in Hj.
  apply andb_true_iff in Hj. destruct Hj as [_ Hj].
  apply andb_true_iff in Hj. now destruct Hj as [Hj _].
Qed.

(** ** What [verification_node] keeps *)

(** X22. [verification_node] never touches [session_id] and
    [current_task], and its messages are either those it got or a single AI
    message with empty content that carries tool calls. *)
Theorem verification_node_keeps_session (state : AgentState) :
  session_id (verification_node state) = session_id state
  /\ current_task (verification_node state) = current_task state
  /\ (messages (verification_node state) = messages state
      \/ exists tool_calls,
           messages (verification_node state)
           = [AIMessage EmptyString [("tool_calls", PList tt tool_calls)]]).
Proof.
  assert (Hs : forall calls,
             session_id (with_tool_calls state calls) = session_id state
             /\ current_task (with_tool_calls state calls) = current_task state
             /\ (messages (with_tool_calls state calls) = messages state
                 \/ exists tool_calls,
                      messages (with_tool_calls state calls)
                      = [AIMessage EmptyString [("tool_calls", PList tt tool_calls)]])).
  { intros calls. cbn. eauto. }
  unfold verification_node.
  destruct (last_message (messages state)) as [[c|c kw|c]|]; auto.
  unfold extract.
  destruct (first_match patterns c) as [json_content|]; auto.
  destruct (json_loads json_content) as [[| | | | |t data]|e]; cbn [bind]; auto.
  destruct (dict_get "tool_calls" data) as [[| | | |tl calls|]|];
    try (destruct (dict_has "domain" data && dict_has "action" data); now auto).
  destruct (forward_calls 1 calls) as [fw|e]; cbn [bind]; auto.
Qed.

(** ** A response without an opening brace *)

Lemma prefix_split (p s : string) :
  String.prefix p s = true -> s = p ++ drop_prefix p s.
Proof.
  revert s. induction p as [|c p IH]; intros s H.
  - unfold drop_prefix. cbn [String.length append]. rewrite Nat.sub_0_r.
    now rewrite substring_whole.
  - destruct s as [|c' s]; [discriminate H|]. cbn [String.prefix] in H.
    destruct (ascii_dec c c') as [<-|]; [|discriminate H].
    cbn [append]. f_equal. rewrite (IH s H) at 1. f_equal.
Qed.

Lemma no_brace_append (a b : string) :
  no_brace (a ++ b) = no_brace a && no_brace b.
Proof.
  unfold no_brace. induction a as [|c a IH]; cbn; [reflexivity|].
  now rewrite IH, andb_assoc.
Qed.

Lemma match_here_needs_brace (r : regex) :
  forall s inside group,
    needs_brace r = true -> no_brace s = true ->
    match_here r s inside group = None.
Proof.
  induction r as [|it r IH]; intros s inside group Hr Hs; [discriminate Hr|].
  destruct it as [text|k|k| |].
  - rewrite match_here_lit_unfold.
    destruct (String.prefix text s) eqn:Ep; [|reflexivity].
    pose proof (prefix_split text s Ep) as E.
    rewrite E, no_brace_append in Hs. apply andb_true_iff in Hs.
    destruct Hs as [Ht Hd].
    apply IH; [|exact Hd].
    cbn [needs_brace existsb] in Hr. rewrite Ht in Hr. exact Hr.
  - cbn [needs_brace existsb orb] in Hr.
    revert group. induction s as [|c s IHs]; intros group;
      rewrite match_here_star.
    + now apply IH.
    + assert (Hs' : no_brace s = true).
      { unfold no_brace in *. cbn in Hs. now apply andb_true_iff in Hs. }
      rewrite (IHs Hs'), (IH _ inside group Hr Hs).
      now destruct (in_class k c).
  - cbn [needs_brace existsb orb] in Hr.
    revert group. induction s as [|c s IHs]; intros group;
      rewrite match_here_lazy, (IH _ inside group Hr Hs); [reflexivity|].
    assert (Hs' : no_brace s = true).
    { unfold no_brace in *. cbn in Hs. now apply andb_true_iff in Hs. }
    rewrite (IHs Hs'). now destruct (in_class k c).
  - rewrite match_here_open. now apply IH.
  - rewrite match_here_close. now apply IH.
Qed.

Lemma search_needs_brace (r : regex) (s : string) :
  needs_brace r = true -> no_brace s = true -> search r s = None.
Proof.
  intros Hr. induction s as [|c s IH]; intros Hs.
  - cbn [search]. now rewrite match_here_needs_brace.
  - cbn [search]. rewrite match_here_needs_brace by assumption.
    apply IH. unfold no_brace in *. cbn in Hs. now apply andb_true_iff in Hs.
Qed.

(** X23. A response without an opening brace is final: no pattern finds
    a block in it and the state is returned as it is. *)
Theorem verification_node_needs_brace
    (state : AgentState) (history : list message) (content : string)
    (kwargs : pydict unit) :
  messages state = (history ++ [AIMessage content kwargs])%list ->
  no_brace content = true ->
  verification_node state = state.
Proof.
  intros Hm Hc. unfold verification_node. rewrite Hm, last_message_app.
  unfold extract.
  assert (E : first_match patterns content = None).
  { unfold patterns. cbn [first_match].
    now rewrite !search_needs_brace by (reflexivity || assumption). }
  now rewrite E.
Qed.

Lemma verification_node_needs_brace_witness :
  verification_node (answering "All pods are healthy.")
  = answering "All pods are healthy.".
Proof.
  apply (verification_node_needs_brace (answering "All pods are healthy.")
           [HumanMessage "describe pod web-1"] "All pods are healthy." []).
  - reflexivity.
  - reflexivity.
Defined.

Lemma forward_calls_named (calls : list value) :
  forall i, forallb named_call calls = true ->
            forward_calls i calls = Ret (forwarded_from i calls).
Proof.
  induction calls as [|call calls IH]; intros i H; [reflexivity|].
  cbn [forallb] in H. apply andb_true_iff in H. destruct H as [Hc H].
  destruct call as [| | | | |t d]; try discriminate Hc.
  cbn [forward_calls forwarded_from forwarded_call named_call] in *.
  unfold dict_has in Hc.
  destruct (dict_get "name" d) as [n|] eqn:En; [|discriminate Hc].
  cbn [bind]. rewrite (IH (S i) H). unfold dict_get_default. rewrite En.
  reflexivity.
Qed.

Lemma forward_calls_unnamed (calls : list value) :
  forall i, forallb named_call calls = false ->
            exists e, forward_calls i calls = Raise e.
Proof.
  induction calls as [|call calls IH]; intros i H; [discriminate H|].
  cbn [forallb] in H. apply andb_false_iff in H.
  destruct (named_call call) eqn:Hc.
  - destruct H as [H|H]; [discriminate H|].
    destruct call as [| | | | |t d]; try discriminate Hc.
    cbn [forward_calls named_call] in *. unfold dict_has in Hc.
    destruct (dict_get "name" d) as [n|]; [|discriminate Hc].
    cbn [bind]. destruct (IH (S i) H) as [e ->]. cbn [bind]. eauto.
  - destruct call as [| | | | |t d]; cbn [forward_calls bind]; eauto.
    cbn [named_call] in Hc. unfold dict_has in Hc.
    destruct (dict_get "name" d); [discriminate Hc|]. cbn [bind]. eauto.
Qed.

Lemma verification_node_fenced_calls state history kwargs before calls after :
  messages state
  = (history ++ [AIMessage (fenced before (calls_block calls) after) kwargs])%list ->
  no_backtick before = true ->
  backtick_free (calls_block calls) = true ->
  encodable (calls_block calls) = true ->
  verification_node state
  = match forward_calls 1 calls with
    | Ret tool_calls => with_tool_calls state tool_calls
    | Raise _ => state
    end.
Proof.
  intros Hm Hb Hf He. unfold verification_node. rewrite Hm, last_message_app.
  unfold extract, calls_block. rewrite fenced_object_found by assumption.
  rewrite json_loads_encoded by exact He. cbn [bind].
  change (dict_get "tool_calls" [("tool_calls", PList tt calls)])
    with (Some (PList tt calls)).
  cbv iota. now destruct (forward_calls 1 calls).
Qed.

(** ** The round trip of a Command Descriptor *)

Lemma plain_block (d : descriptor) :
  plain d = true ->
  backtick_free (tool_calls_block d) = true
  /\ encodable (tool_calls_block d) = true.
Proof.
  unfold plain. intros H. apply andb_true_iff in H. destruct H as [He Hb].
  split.
  - unfold tool_calls_block, calls_block.
    cbn [backtick_free forallb fst snd] in *. rewrite Hb. reflexivity.
  - unfold tool_calls_block, calls_block.
    cbn [encodable forallb fst snd distinct_keys] in *. rewrite He. reflexivity.
Qed.

(** C5, as amended.  Round trip.  Take any Command Descriptor: an object with distinct
    keys whose values are texts, integers, booleans, [null], lists and
    objects of these, and in which no key and no text holds a backtick.
    Encode it as the arguments of an [infra_command] entry of a
    [tool_calls] block, written in a fenced [json] code block of the last
    response, with no backtick in the text before the block.  The Verify
    stage then forwards exactly one tool call, [call_1] to [infra_command],
    whose arguments are JSON text that decodes to the descriptor: every
    field, [domain], [action], [resource] and [name] among them, comes back
    as it was, and a field that was absent stays absent. *)
Theorem verification_node_fenced_round_trip
    (state : AgentState) (history : list message) (kwargs : pydict unit)
    (before : string) (d : descriptor) (after : string) :
  messages state
  = (history ++ [AIMessage (fenced_response before d after) kwargs])%list ->
  plain d = true ->
  no_backtick before = true ->
  exists arguments : string,
    verification_node state
    = with_tool_calls state
        [function_call 1 (PStr "infra_command") (PStr arguments)]
    /\ json_loads arguments = Ret (PDict tt d)
    /\ (forall field : string,
          exists decoded : pydict unit,
            json_loads arguments = Ret (PDict tt decoded)
            /\ dict_get field decoded = dict_get field d).
Proof.
  intros Hm Hp Hb. destruct (plain_block d Hp) as [Hf He].
  assert (Hl : json_loads (json_dumps (PDict tt d : value)) = Ret (PDict tt d)).
  { apply json_loads_encoded. unfold plain in Hp.
    apply andb_true_iff in Hp. exact (proj1 Hp). }
  exists (json_dumps (PDict tt d : value)). split; [|split].
  - unfold fenced_response, tool_calls_block in Hm.
    rewrite (verification_node_fenced_calls state history kwargs before _ after
               Hm Hb Hf He).
    reflexivity.
  - exact Hl.
  - intros field. exists d. split; [exact Hl | reflexivity].
Qed.

(** The descriptor that scales [web] in namespace [prod] to three replicas
    comes back whole. *)
Lemma verification_node_fenced_round_trip_witness :
  exists arguments : string,
    verification_node scaling_state
    = with_tool_calls scaling_state
        [function_call 1 (PStr "infra_command") (PStr arguments)]
    /\ json_loads arguments = Ret (PDict tt scale_web).
Proof.
  destruct (verification_node_fenced_round_trip scaling_state
              [HumanMessage "scale web to 3"] [] "Scaling. " scale_web " Done.")
    as [arguments [E [Hl _]]].
  - reflexivity.
  - reflexivity.
  - reflexivity.
  - exists arguments. split; [exact E | exact Hl].
Defined.

(** C5 as stated fails: the block of a descriptor whose name is a closing
    brace followed by a fence is cut at that brace, what is cut does not
    decode, and the response is left as it was; no tool call is forwarded. *)
Lemma verification_node_loses_fence_in_name :
  let state := generated [] (fenced_response EmptyString fence_in_name EmptyString) in
  verification_node state = state
  /\ verification_node state <> with_tool_calls state [forwarded fence_in_name].
Proof.
  assert (E : verification_node
                (generated [] (fenced_response EmptyString fence_in_name EmptyString))
              = generated [] (fenced_response EmptyString fence_in_name EmptyString))
    by (vm_compute; reflexivity).
  cbv zeta. split; [exact E|].
  rewrite E. discriminate.
Qed.

(** The same block without a fence is not extracted either: the third
    pattern ends its group at the bracket that closes [tool_calls], before
    the closing brace of the object, and what it takes does not decode. *)
Lemma verification_node_bare_block_unchanged :
  first_match patterns (bare_response list_pods)
  = Some ("{" ++ quoted "tool_calls" ++ ": [{" ++ quoted "name" ++ ": "
              ++ quoted "infra_command" ++ ", " ++ quoted "arguments" ++ ": {"
              ++ quoted "domain" ++ ": " ++ quoted "kubernetes" ++ ", "
              ++ quoted "action" ++ ": " ++ quoted "list" ++ ", "
              ++ quoted "resource" ++ ": " ++ quoted "pods" ++ "}}]")
  /\ verification_node (generated [] (bare_response list_pods))
     = generated [] (bare_response list_pods).
Proof. split; vm_compute; reflexivity. Qed.

(** ** Blocks of several calls *)

(** X24. Take a block of tool calls that [json.dumps] wrote in a fenced
    [json] code block of the last response, from values that [json.loads]
    gives back (objects with distinct keys; texts, integers, booleans,
    [null], lists), with no backtick in any key or text of the block nor in
    the response before it.  The block is forwarded whole or not at all:
    when every entry is an object with a name, each is forwarded in order
    with ids [call_1], [call_2], ...; when a single entry is not, the
    response is left as it was and no call is forwarded. *)
Theorem fenced_calls_all_or_nothing
    state history kwargs before calls after :
  messages state
  = (history ++ [AIMessage (fenced before (calls_block calls) after) kwargs])%list ->
  no_backtick before = true ->
  backtick_free (calls_block calls) = true ->
  encodable (calls_block calls) = true ->
  (forallb named_call calls = true ->
   verification_node state = with_tool_calls state (forwarded_from 1 calls))
  /\ (forallb named_call calls = false -> verification_node state = state).
Proof.
  intros Hm Hb Hf He.
  rewrite (verification_node_fenced_calls state history kwargs before calls after)
    by assumption.
  split; intros H.
  - now rewrite forward_calls_named.
  - now destruct (forward_calls_unnamed calls 1 H) as [e ->].
Qed.

Lemma fenced_calls_all_or_nothing_witness :
  verification_node
    (answering (fenced "Running: " (calls_block [describe_call; describe_call]) "."))
  = with_tool_calls
      (answering (fenced "Running: " (calls_block [describe_call; describe_call]) "."))
      (forwarded_from 1 [describe_call; describe_call])
  /\ verification_node
       (answering (fenced "Running: " (calls_block [describe_call; nameless_call]) "."))
     = answering (fenced "Running: " (calls_block [describe_call; nameless_call]) ".").
Proof.
  split.
  - apply (proj1 (fenced_calls_all_or_nothing
                    (answering (fenced "Running: "
                                  (calls_block [describe_call; describe_call]) "."))
                    [HumanMessage "describe pod web-1"] [] "Running: "
                    [describe_call; describe_call] "."
                    eq_refl eq_refl eq_refl eq_refl)).
    reflexivity.
  - apply (proj2 (fenced_calls_all_or_nothing
                    (answering (fenced "Running: "
                                  (calls_block [describe_call; nameless_call]) "."))
                    [HumanMessage "describe pod web-1"] [] "Running: "
                    [describe_call; nameless_call] "."
                    eq_refl eq_refl eq_refl eq_refl)).
    reflexivity.
Defined.

(** X25. Through the graph.  Take a response that carries its calls in a
    fenced block and none in [additional_kwargs]; the block is written by
    [json.dumps] from values that [json.loads] gives back, no key or text of
    it and nothing before it in the response holds a backtick, and every
    entry is an object with a name.  [should_continue] sends the state to
    the Verify stage, that stage returns one message with the forwarded
    calls, and [verification_continue] then sends the state to the tools,
    unless the block lists no call. *)
Theorem fenced_calls_routing
    state history kwargs before calls after :
  messages state
  = (history ++ [AIMessage (fenced before (calls_block calls) after) kwargs])%list ->
  dict_get "tool_calls" kwargs = None ->
  no_backtick before = true ->
  backtick_free (calls_block calls) = true ->
  encodable (calls_block calls) = true ->
  forallb named_call calls = true ->
  should_continue state = Ret ToEnd
  /\ verification_continue (apply_update state (verification_node state))
     = match calls with [] => ToEnd | _ => ToTools end
  /\ messages (verification_node state)
     = [AIMessage EmptyString [("tool_calls", PList tt (forwarded_from 1 calls))]].
Proof.
  intros Hm Hk Hb Hf He Hn.
  rewrite (verification_node_fenced_calls state history kwargs before calls after)
    by assumption.
  rewrite forward_calls_named by exact Hn. split; [|split].
  - unfold should_continue. rewrite Hm, last_message_app.
    unfold dict_get_default. now rewrite Hk.
  - unfold verification_continue, apply_update.
    cbn [messages with_tool_calls]. rewrite last_message_app.
    now destruct calls.
  - reflexivity.
Qed.

Lemma fenced_calls_routing_witness :
  let state := answering (fenced "Running: " (calls_block [describe_call]) ".") in
  should_continue state = Ret ToEnd
  /\ verification_continue (apply_update state (verification_node state)) = ToTools
  /\ messages (verification_node state)
     = [AIMessage EmptyString
          [("tool_calls", PList tt (forwarded_from 1 [describe_call]))]].
Proof.
  apply (fenced_calls_routing
           (answering (fenced "Running: " (calls_block [describe_call]) "."))
           [HumanMessage "describe pod web-1"] [] "Running: " [describe_call] ".").
  - reflexivity.
  - reflexivity.
  - reflexivity.
  - reflexivity.
  - reflexivity.
  - reflexivity.
Defined.

(** ** The arguments made from a direct object *)

Lemma fold_named_other (data : pydict unit) (keys : list string) :
  forall (acc : pydict unit) (k : string),
    ~ In k keys ->
    dict_get k (fold_left (fun arguments key =>
                 if dict_has key arguments
                    || is_none (dict_get_default key PNone data)
                 then arguments
                 else dict_set key (dict_get_default key PNone data) arguments)
              keys acc)
    = dict_get k acc.
Proof.
  induction keys as [|key keys IH]; intros acc k Hk; [reflexivity|].
  cbn [fold_left]. rewrite IH by (intros H; apply Hk; now right).
  destruct (dict_has key acc || is_none (dict_get_default key PNone data));
    [reflexivity|].
  apply dict_get_set_other. intros ->. apply Hk. now left.
Qed.

Lemma fold_named_key (data : pydict unit) (keys : list string) :
  forall (acc : pydict unit) (k : string),
    In k keys -> NoDup keys ->
    dict_get k (fold_left (fun arguments key =>
                 if dict_has key arguments
                    || is_none (dict_get_default key PNone data)
                 then arguments
                 else dict_set key (dict_get_default key PNone data) arguments)
              keys acc)
    = match dict_get k acc with
      | Some v => Some v
      | None => non_null (dict_get k data)
      end.
Proof.
  induction keys as [|key keys IH]; intros acc k Hk Hn; [contradiction|].
  inversion Hn as [|? ? Hnot Hn']; subst.
  cbn [fold_left]. destruct Hk as [->|Hk].
  - rewrite fold_named_other by exact Hnot.
    unfold dict_has, dict_get_default, non_null.
    destruct (dict_get k acc) as [v|] eqn:Ea; cbn [orb]; [exact Ea|].
    destruct (dict_get k data) as [v|]; cbn [is_none].
    + destruct (is_none v); [exact Ea | apply dict_get_set_same].
    + exact Ea.
  - rewrite IH by assumption.
    destruct (dict_has key acc || is_none (dict_get_default key PNone data));
      [reflexivity|].
    rewrite dict_get_set_other; [reflexivity|].
    intros ->. now apply Hnot.
Qed.

Lemma fold_extra_standard (items : pydict unit) :
  forall (acc : pydict unit) (k : string),
    existsb (String.eqb k) standard_fields = true ->
    dict_get k (fold_left (fun arguments kv =>
                 if existsb (String.eqb (fst kv)) standard_fields || is_none (snd kv)
                 then arguments
                 else dict_set (fst kv) (snd kv) arguments)
              items acc)
    = dict_get k acc.
Proof.
  induction items as [|[k' v] items IH]; intros acc k Hk; [reflexivity|].
  cbn [fold_left fst snd]. rewrite IH by exact Hk.
  destruct (existsb (String.eqb k') standard_fields) eqn:E'; cbn [orb];
    [reflexivity|].
  destruct (is_none v); [reflexivity|].
  apply dict_get_set_other. intros ->. congruence.
Qed.

Lemma fold_extra_other (items : pydict unit) :
  forall (acc : pydict unit) (k : string),
    existsb (String.eqb k) standard_fields = false ->
    distinct_keys items = true ->
    dict_get k (fold_left (fun arguments kv =>
                 if existsb (String.eqb (fst kv)) standard_fields || is_none (snd kv)
                 then arguments
                 else dict_set (fst kv) (snd kv) arguments)
              items acc)
    = match non_null (dict_get k items) with
      | Some v => Some v
      | None => dict_get k acc
      end.
Proof.
  induction items as [|[k' v] items IH]; intros acc k Hk Hd; [reflexivity|].
  cbn [distinct_keys] in Hd. apply andb_true_iff in Hd. destruct Hd as [Hn Hd].
  apply negb_true_iff in Hn. unfold dict_has in Hn.
  cbn [fold_left fst snd]. rewrite IH by assumption.
  cbn [dict_get]. destruct (String.eqb k k') eqn:Ek.
  - apply String.eqb_eq in Ek. subst k'.
    destruct (dict_get k items); [discriminate Hn|]. cbn [non_null].
    rewrite Hk. cbn [orb].
    destruct (is_none v); [reflexivity | apply dict_get_set_same].
  - destruct (non_null (dict_get k items)); [reflexivity|].
    destruct (existsb (String.eqb k') standard_fields || is_none v);
      [reflexivity|].
    apply dict_get_set_other. intros ->. now rewrite String.eqb_refl in Ek.
Qed.

Lemma direct_arguments_get (data : pydict unit) (k : string) :
  distinct_keys data = true ->
  dict_get k (direct_arguments data)
  = if existsb (String.eqb k) base_fields
    then Some (dict_get_default k PNone data)
    else if String.eqb k "name" && grafana_get data
    then match grafana_name data with
         | Some n => Some n
         | None => non_null (dict_get k data)
         end
    else non_null (dict_get k data).
Proof.
  intros Hd. unfold direct_arguments.
  set (a0 := [("domain", dict_get_default "domain" PNone data);
              ("action", dict_get_default "action" PNone data);
              ("resource", dict_get_default "resource" PNone data)]).
  fold (grafana_get data).
  set (a1 := if grafana_get data
             then match grafana_name data with
                  | Some n => dict_set "name" n a0
                  | None => a0
                  end
             else a0).
  assert (Hbase : forall x, existsb (String.eqb x) base_fields = true ->
                            dict_get x a1 = Some (dict_get_default x PNone data)).
  { intros x Hx.
    assert (H0 : dict_get x a0 = Some (dict_get_default x PNone data)).
    { unfold base_fields in Hx. cbn [existsb] in Hx. unfold a0. cbn [dict_get].
      destruct (String.eqb x "domain") eqn:E1;
        [apply String.eqb_eq in E1; now subst x|].
      destruct (String.eqb x "action") eqn:E2;
        [apply String.eqb_eq in E2; now subst x|].
      destruct (String.eqb x "resource") eqn:E3;
        [apply String.eqb_eq in E3; now subst x | discriminate Hx]. }
    unfold a1. destruct (grafana_get data); [|exact H0].
    destruct (grafana_name data); [|exact H0].
    rewrite dict_get_set_other; [exact H0|].
    intros ->. discriminate Hx. }
  assert (Hrest : forall x, existsb (String.eqb x) base_fields = false ->
                            dict_get x a1
                            = if String.eqb x "name" && grafana_get data
                              then grafana_name data else None).
  { intros x Hx.
    assert (H0 : dict_get x a0 = None).
    { unfold base_fields in Hx. cbn [existsb] in Hx. unfold a0. cbn [dict_get].
      destruct (String.eqb x "domain"); [discriminate Hx|].
      destruct (String.eqb x "action"); [discriminate Hx|].
      destruct (String.eqb x "resource"); [discriminate Hx | reflexivity]. }
    unfold a1. destruct (grafana_get data); [|now rewrite andb_false_r].
    rewrite andb_true_r.
    destruct (grafana_name data) as [n|];
      [|rewrite H0; now destruct (String.eqb x "name")].
    destruct (String.eqb x "name") eqn:En.
    - apply String.eqb_eq in En. subst x. apply dict_get_set_same.
    - rewrite dict_get_set_other; [exact H0|].
      intros ->. now rewrite String.eqb_refl in En. }
  destruct (existsb (String.eqb k) base_fields) eqn:Eb.
  - rewrite fold_extra_standard.
    + rewrite fold_named_other; [now apply Hbase|].
      unfold base_fields in Eb. cbn [existsb] in Eb. cbn [In].
      intros [<-|[<-|[<-|[]]]]; discriminate Eb.
    + unfold base_fields in Eb. unfold standard_fields. cbn [existsb] in *.
      destruct (String.eqb k "domain"); [reflexivity|].
      destruct (String.eqb k "action"); [reflexivity|].
      destruct (String.eqb k "resource"); [reflexivity | discriminate Eb].
  - destruct (existsb (String.eqb k) ["name"; "namespace"; "query"]) eqn:Es.
    + rewrite fold_extra_standard.
      * rewrite fold_named_key.
        -- rewrite (Hrest k Eb).
           destruct (String.eqb k "name" && grafana_get data); [|reflexivity].
           now destruct (grafana_name data).
        -- cbn [existsb] in Es. cbn [In].
           destruct (String.eqb k "name") eqn:E1;
             [apply String.eqb_eq in E1; auto|].
           destruct (String.eqb k "namespace") eqn:E2;
             [apply String.eqb_eq in E2; auto|].
           destruct (String.eqb k "query") eqn:E3;
             [apply String.eqb_eq in E3; auto | discriminate Es].
        -- repeat constructor; cbn [In]; intuition discriminate.
      * unfold standard_fields. cbn [existsb] in *.
        destruct (String.eqb k "domain"); [reflexivity|].
        destruct (String.eqb k "action"); [reflexivity|].
        destruct (String.eqb k "resource"); [reflexivity|]. exact Es.
    + assert (Hstd : existsb (String.eqb k) standard_fields = false).
      { unfold standard_fields, base_fields in *. cbn [existsb] in *.
        destruct (String.eqb k "domain"); [discriminate Eb|].
        destruct (String.eqb k "action"); [discriminate Eb|].
        destruct (String.eqb k "resource"); [discriminate Eb|]. exact Es. }
      rewrite fold_extra_other by assumption.
      assert (En : String.eqb k "name" = false).
      { cbn [existsb] in Es. now destruct (String.eqb k "name"). }
      rewrite En. cbn [andb].
      destruct (non_null (dict_get k data)); [reflexivity|].
      rewrite fold_named_other.
      * rewrite (Hrest k Eb), En. reflexivity.
      * cbn [existsb] in Es. cbn [In].
        intros [<-|[<-|[<-|[]]]]; discriminate Es.
Qed.

(** X26. The arguments made from a direct object: [domain], [action] and
    [resource] are always there, [None] standing for a missing one; every
    other field of the object is forwarded when its value is not [None] and
    dropped when it is (for [name] of a grafana get see X27). *)
Theorem direct_arguments_fields (data : pydict unit) (k : string) :
  distinct_keys data = true ->
  (existsb (String.eqb k) base_fields = true ->
   dict_get k (direct_arguments data) = Some (dict_get_default k PNone data))
  /\ (existsb (String.eqb k) base_fields = false ->
      k <> "name" \/ grafana_get data = false ->
      dict_get k (direct_arguments data) = non_null (dict_get k data)).
Proof.
  intros Hd. rewrite (direct_arguments_get data k Hd). split.
  - now intros ->.
  - intros -> [Hk|Hg].
    + apply String.eqb_neq in Hk. now rewrite Hk.
    + rewrite Hg. now rewrite andb_false_r.
Qed.

Lemma direct_arguments_fields_witness :
  dict_get "resource" (direct_arguments dashboard_request) = Some PNone
  /\ dict_get "namespace" (direct_arguments dashboard_request) = None
  /\ dict_get "limit" (direct_arguments dashboard_request) = Some (PInt 5).
Proof.
  split; [|split].
  - apply (proj1 (direct_arguments_fields dashboard_request "resource" eq_refl)).
    reflexivity.
  - apply (proj2 (direct_arguments_fields dashboard_request "namespace" eq_refl)).
    + reflexivity.
    + left. discriminate.
  - apply (proj2 (direct_arguments_fields dashboard_request "limit" eq_refl)).
    + reflexivity.
    + left. discriminate.
Defined.



(** ** A direct object in a fenced block *)

Lemma dict_has_set (k k' : string) (v : value) (d : pydict unit) :
  dict_has k (dict_set k' v d) = String.eqb k k' || dict_has k d.
Proof.
  destruct (String.eqb k k') eqn:E.
  - apply String.eqb_eq in E. subst k'. now rewrite dict_has_set_same.
  - rewrite dict_has_set_other; [reflexivity|].
    intros ->. now rewrite String.eqb_refl in E.
Qed.

Lemma well_formed_set (k : string) (v : value) (d : pydict unit) :
  well_formed d = true -> encodable v = true ->
  well_formed (dict_set k v d) = true.
Proof.
  unfold well_formed. induction d as [|[k' v'] d IH]; intros H Hv.
  - cbn. now rewrite Hv.
  - cbn [distinct_keys forallb snd] in H.
    apply andb_true_iff in H. destruct H as [Hd Hf].
    apply andb_true_iff in Hd. destruct Hd as [Hn Hd].
    apply andb_true_iff in Hf. destruct Hf as [Hv' Hf].
    cbn [dict_set]. destruct (String.eqb k k') eqn:E.
    + cbn [distinct_keys forallb snd]. now rewrite Hn, Hd, Hv, Hf.
    + assert (IH' : distinct_keys (dict_set k v d)
                    && forallb (fun kv => encodable (snd kv)) (dict_set k v d) = true).
      { apply IH; [now rewrite Hd, Hf | exact Hv]. }
      apply andb_true_iff in IH'. destruct IH' as [Hd' Hf'].
      cbn [distinct_keys forallb snd].
      rewrite dict_has_set, Hd', Hf', Hv'.
      apply negb_true_iff in Hn. rewrite Hn.
      rewrite String.eqb_sym, E. reflexivity.
Qed.

Lemma encodable_get (k : string) (d : pydict unit) (v : value) :
  forallb (fun kv => encodable (snd kv)) d = true ->
  dict_get k d = Some v -> encodable v = true.
Proof.
  induction d as [|[k' v'] d IH]; [discriminate|].
  cbn [forallb snd dict_get]. intros H. apply andb_true_iff in H.
  destruct H as [Hv H]. destruct (String.eqb k k'); [|now apply IH].
  now intros [= <-].
Qed.

Lemma encodable_get_default (k : string) (d : pydict unit) :
  forallb (fun kv => encodable (snd kv)) d = true ->
  encodable (dict_get_default k PNone d) = true.
Proof.
  intros H. unfold dict_get_default.
  destruct (dict_get k d) as [v|] eqn:E; [|reflexivity].
  now apply (encodable_get k d).
Qed.

Lemma well_formed_fold_named (data : pydict unit) (keys : list string) :
  forallb (fun kv => encodable (snd kv)) data = true ->
  forall a, well_formed a = true ->
    well_formed (fold_left (fun arguments key =>
                   if dict_has key arguments
                      || is_none (dict_get_default key PNone data)
                   then arguments
                   else dict_set key (dict_get_default key PNone data) arguments)
                 keys a) = true.
Proof.
  intros Hf. induction keys as [|key keys IH]; intros a Ha; [exact Ha|].
  cbn [fold_left]. apply IH.
  destruct (dict_has key a || is_none (dict_get_default key PNone data));
    [exact Ha|].
  apply well_formed_set; [exact Ha | now apply encodable_get_default].
Qed.

Lemma well_formed_fold_extra (items : pydict unit) :
  forallb (fun kv => encodable (snd kv)) items = true ->
  forall a, well_formed a = true ->
    well_formed (fold_left (fun arguments kv =>
                   if existsb (String.eqb (fst kv)) standard_fields || is_none (snd kv)
                   then arguments
                   else dict_set (fst kv) (snd kv) arguments)
                 items a) = true.
Proof.
  induction items as [|[k v] items IH]; intros Hf a Ha; [exact Ha|].
  cbn [forallb snd] in Hf. apply andb_true_iff in Hf. destruct Hf as [Hv Hf].
  cbn [fold_left fst snd]. apply (IH Hf).
  destruct (existsb (String.eqb k) standard_fields || is_none v); [exact Ha|].
  now apply well_formed_set.
Qed.

Lemma well_formed_direct_arguments (data : pydict unit) :
  well_formed data = true -> well_formed (direct_arguments data) = true.
Proof.
  intros H. pose proof H as H'. unfold well_formed in H'.
  apply andb_true_iff in H'. destruct H' as [_ Hf].
  unfold direct_arguments.
  apply well_formed_fold_extra; [exact Hf|].
  apply well_formed_fold_named; [exact Hf|].
  set (a0 := [("domain", dict_get_default "domain" PNone data);
              ("action", dict_get_default "action" PNone data);
              ("resource", dict_get_default "resource" PNone data)]).
  assert (H0 : well_formed a0 = true).
  { unfold well_formed, a0. cbn [distinct_keys forallb snd].
    rewrite !encodable_get_default by exact Hf. reflexivity. }
  destruct (py_eq (dict_get_default "domain" PNone data) (PStr "grafana")
            && py_eq (dict_get_default "action" PNone data) (PStr "get"));
    [|exact H0].
  destruct (grafana_name data) as [n|] eqn:En; [|exact H0].
  apply well_formed_set; [exact H0|].
  unfold grafana_name in En.
  destruct (dict_get "uid" data) as [u|] eqn:Eu;
    [injection En as <-; now apply (encodable_get "uid" data)|].
  destruct (dict_get "title" data) as [ti|] eqn:Et;
    [injection En as <-; now apply (encodable_get "title" data)|].
  destruct (dict_get "params" data) as [[| | | | |tp [|kv params]]|] eqn:Ep;
    try discriminate En.
  pose proof (encodable_get "params" data _ Hf Ep) as Hp.
  cbn [encodable] in Hp. apply andb_true_iff in Hp. destruct Hp as [_ Hp].
  destruct (dict_get "uid" (kv :: params)) as [u|] eqn:Epu;
    [injection En as <-; now apply (encodable_get "uid" (kv :: params))|].
  now apply (encodable_get "title" (kv :: params)).
Qed.

(** X28. A direct [{domain, action, ...}] object in a fenced block is
    forwarded as one call of [infra_command] with id [call_1]; its
    arguments decode to the object built from the fields, with [domain] and
    [action] as they were in the block. *)
Theorem fenced_direct_object_forwarded
    state history kwargs before data after :
  messages state
  = (history ++ [AIMessage (fenced before (PDict tt data) after) kwargs])%list ->
  no_backtick before = true ->
  backtick_free (PDict tt data) = true ->
  encodable (PDict tt data) = true ->
  dict_get "tool_calls" data = None ->
  dict_has "domain" data = true ->
  dict_has "action" data = true ->
  let arguments := PDict tt (direct_arguments data) : value in
  verification_node state
  = with_tool_calls state
      [function_call 1 (PStr "infra_command") (PStr (json_dumps arguments))]
  /\ json_loads (json_dumps arguments) = Ret arguments
  /\ dict_get "domain" (direct_arguments data) = dict_get "domain" data
  /\ dict_get "action" (direct_arguments data) = dict_get "action" data
  /\ dict_get "resource" (direct_arguments data)
     = Some (dict_get_default "resource" PNone data).
Proof.
  intros Hm Hb Hf He Ht Hdom Hact arguments.
  assert (Hd : distinct_keys data = true).
  { cbn [encodable] in He. now apply andb_true_iff in He. }
  split; [|split; [|split; [|split]]].
  - unfold verification_node. rewrite Hm, last_message_app.
    unfold extract. rewrite fenced_object_found by assumption.
    rewrite json_loads_encoded by exact He. cbn [bind].
    now rewrite Ht, Hdom, Hact.
  - apply json_loads_encoded. subst arguments. cbn [encodable].
    apply well_formed_direct_arguments. exact He.
  - rewrite direct_arguments_get by exact Hd.
    change (existsb (String.eqb "domain") base_fields) with true. cbv iota.
    unfold dict_get_default, dict_has in *.
    now destruct (dict_get "domain" data).
  - rewrite direct_arguments_get by exact Hd.
    change (existsb (String.eqb "action") base_fields) with true. cbv iota.
    unfold dict_get_default, dict_has in *.
    now destruct (dict_get "action" data).
  - rewrite direct_arguments_get by exact Hd. reflexivity.
Qed.

Lemma fenced_direct_object_forwarded_witness :
  let state := answering (fenced "Fetching. " (PDict tt dashboard_request) " Done.") in
  let arguments := PDict tt (direct_arguments dashboard_request) : value in
  verification_node state
  = with_tool_calls state
      [function_call 1 (PStr "infra_command") (PStr (json_dumps arguments))]
  /\ json_loads (json_dumps arguments) = Ret arguments
  /\ dict_get "domain" (direct_arguments dashboard_request) = Some (PStr "grafana")
  /\ dict_get "action" (direct_arguments dashboard_request) = Some (PStr "get")
  /\ dict_get "resource" (direct_arguments dashboard_request) = Some PNone.
Proof.
  apply (fenced_direct_object_forwarded
           (answering (fenced "Fetching. " (PDict tt dashboard_request) " Done."))
           [HumanMessage "describe pod web-1"] [] "Fetching. " dashboard_request " Done.").
  - reflexivity.
  - reflexivity.
  - reflexivity.
  - reflexivity.
  - reflexivity.
  - reflexivity.
  - reflexivity.
Defined.

End GraphProps.
